(** * ZenMaster: the breathing-session kernel, its state estimator and
      the safety registry

    A shallow embedding of
    - [src/services/AdaptiveStateEstimator.ts] (module [AdaptiveStateEstimator]),
    - [src/services/PureZenBKernel.ts] (module [PureZenBKernel]),
    - the [registerSessionComplete] action of the settings store
      (module [SettingsStore]),
    - the declarations of [types.ts] they use (module [Types]),
    followed by the properties of the control-and-safety plane.

    Numbers.  A JavaScript [number] that the program reads from the clock,
    receives from a caller (time stamps, [dt], sensor samples, counters) or
    obtains from such numbers by [+], [-], [*] and division by a non-zero
    constant is modelled as a real number [R].  The components of a belief
    pass through [Math.pow], [Math.sqrt] and divisions by computed values;
    they range over [number], the reals extended with [NaN].  Rounding and
    the two infinities are outside the model.

    Time and collaborators.  [Date.now()] is an oracle indexed by the number
    of readings taken so far.  Subscribers and middlewares are known by an
    identifier; every call to one of them is recorded in a trace, and an
    oracle over the trace tells whether the call throws.  They do not call
    back into the kernel.

    The method [tick] composes [dispatch] with [nextPhaseSkipZero] and
    [isCycleBoundary] of [phaseMachine.ts], which this development does not
    cover; [tick] is not embedded.  Its use of the estimator (bind the
    pattern, then update) is [AdaptiveStateEstimator.run]. *)

From Stdlib Require Import Reals Lra Lia.
From stdpp Require Import base gmap strings list.

Open Scope R_scope.

(* ===================================================================== *)
(** ** JavaScript numbers *)
(* ===================================================================== *)

Module Number.

Inductive number : Type :=
| NaN
| Fin (x : R).

Definition lift1 (f : R -> R) (a : number) : number :=
  match a with
  | Fin x => Fin (f x)
  | NaN => NaN
  end.

Definition lift2 (f : R -> R -> R) (a b : number) : number :=
  match a, b with
  | Fin x, Fin y => Fin (f x y)
  | _, _ => NaN
  end.

Definition add := lift2 Rplus.
Definition sub := lift2 Rminus.
Definition mul := lift2 Rmult.

(** [x / 0] is an infinity (or [NaN] for [0 / 0]) in JavaScript; the model
    has no infinities and makes every division by zero undefined. *)
Definition div (a b : number) : number :=
  match a, b with
  | Fin x, Fin y => if Req_dec_T y 0 then NaN else Fin (x / y)
  | _, _ => NaN
  end.

(** [Math.max] and [Math.min] return [NaN] as soon as one argument is. *)
Definition Math_max := lift2 Rmax.
Definition Math_min := lift2 Rmin.
Definition Math_exp := lift1 exp.

Definition Math_sqrt (a : number) : number :=
  match a with
  | Fin x => if Rlt_dec x 0 then NaN else Fin (sqrt x)
  | NaN => NaN
  end.

(** [Math.pow(b, e)] on the reals: [1] for a zero exponent, [exp (e * ln b)]
    for a positive base, [0] for base [0] and a positive exponent, the
    integer power for a negative base and an integral exponent, and [NaN]
    for a negative base and a fractional exponent. *)
Definition Math_pow (b e : number) : number :=
  match e with
  | NaN => NaN
  | Fin y =>
    if Req_dec_T y 0 then Fin 1
    else match b with
         | NaN => NaN
         | Fin x =>
           if Rlt_dec 0 x then Fin (Rpower x y)
           else if Req_dec_T x 0 then (if Rlt_dec 0 y then Fin 0 else NaN)
           else if Req_dec_T y (IZR (Int_part y))
                then Fin (powerRZ x (Int_part y))
                else NaN
         end
  end.

(** The comparison operators: [false] whenever an operand is [NaN]. *)
Definition gt (a b : number) : bool :=
  match a, b with
  | Fin x, Fin y => if Rgt_dec x y then true else false
  | _, _ => false
  end.

Definition lt (a b : number) : bool := gt b a.

(** Truthiness of a number, as used by [||]: [0] and [NaN] are falsy. *)
Definition truthy (a : number) : bool :=
  match a with
  | Fin x => if Req_dec_T x 0 then false else true
  | NaN => false
  end.

(** [a || b] on numbers. *)
Definition or_else (a b : number) : number := if truthy a then a else b.

(** [x > y] on numbers that are real by construction. *)
Definition Rgtb (x y : R) : bool := if Rgt_dec x y then true else false.

End Number.

Export Number.

Coercion Fin : R >-> number.

Declare Scope js_scope.
Delimit Scope js_scope with js.
Bind Scope js_scope with number.
Notation "a + b" := (Number.add a b) : js_scope.
Notation "a - b" := (Number.sub a b) : js_scope.
Notation "a * b" := (Number.mul a b) : js_scope.
Notation "a / b" := (Number.div a b) : js_scope.

(* ===================================================================== *)
(** ** types.ts *)
(* ===================================================================== *)

Module Types.

Inductive BreathPhase := inhale | holdIn | exhale | holdOut.

Inductive Interaction := pause | resume | touch.
Inductive Visibility := visible | hidden.

Record BeliefState := mkBelief {
  arousal : number;
  attention : number;
  rhythm_alignment : number;
  arousal_variance : number;
  attention_variance : number;
  rhythm_variance : number;
  prediction_error : number;
  confidence : number
}.

(** Optional fields are [option]s: [None] is [undefined]. *)
Record Observation := mkObservation {
  timestamp : R;
  delta_time : R;
  user_interaction : option Interaction;
  visibilty_state : Visibility;
  heart_rate : option R;
  hr_confidence : option R
}.

Record SafetyProfile := mkSafetyProfile {
  patternId : string;
  cummulative_stress_score : R;
  last_incident_timestamp : R;
  safety_lock_until : R;
  resonance_history : list R
}.

(** [timings : Record<BreathPhase, number>] as a function of the phase. *)
Record BreathPattern := mkPattern {
  id : string;
  label : string;
  timings : BreathPhase -> R;
  recommendedCycles : R;
  tier : nat
}.

Definition mkTimings (i hi e ho : R) (p : BreathPhase) : R :=
  match p with
  | inhale => i
  | holdIn => hi
  | exhale => e
  | holdOut => ho
  end.

(** The table [BREATHING_PATTERNS], in source order ([tag], [description]
    and [colorTheme] are presentation only and left out). *)
Definition pattern_table : list BreathPattern :=
  [ mkPattern "4-7-8" "Tranquility" (mkTimings 4 7 8 0) 4 1;
    mkPattern "box" "Focus" (mkTimings 4 4 4 4) 6 1;
    mkPattern "calm" "Balance" (mkTimings 4 0 6 0) 8 1;
    mkPattern "coherence" "Coherence" (mkTimings 6 0 6 0) 10 2;
    mkPattern "deep-relax" "Deep Rest" (mkTimings 4 0 8 0) 6 1;
    mkPattern "7-11" "7-11" (mkTimings 7 0 11 0) 4 2;
    mkPattern "awake" "Energize" (mkTimings 4 0 2 0) 15 2;
    mkPattern "triangle" "Triangle" (mkTimings 4 4 4 0) 8 1;
    mkPattern "tactical" "Tactical" (mkTimings 5 5 5 5) 5 2;
    mkPattern "buteyko" "Light Air" (mkTimings 3 0 3 4) 12 3;
    mkPattern "wim-hof" "Tummo Power" (mkTimings 2 0 1 15) 30 3 ].

(** [BREATHING_PATTERNS[key]]: [None] is [undefined]. *)
Definition BREATHING_PATTERNS (key : string) : option BreathPattern :=
  List.find (fun p => String.eqb (id p) key) pattern_table.

Inductive InterruptionKind := kind_pause | kind_background.

Inductive KernelEvent :=
| BOOT (timestamp : R)
| LOAD_PROTOCOL (patternId : string) (timestamp : R)
| START_SESSION (timestamp : R)
| TICK (dt : R) (observation : Observation) (timestamp : R)
| BELIEF_UPDATE (belief : BeliefState) (timestamp : R)
| PHASE_TRANSITION (from to : BreathPhase) (timestamp : R)
| CYCLE_COMPLETE (count : R) (timestamp : R)
| INTERRUPTION (kind : InterruptionKind) (timestamp : R)
| RESUME (timestamp : R)
| HALT (reason : string) (timestamp : R)
| SAFETY_INTERDICTION (riskLevel : R) (action : string) (timestamp : R)
| LOAD_SAFETY_REGISTRY (registry : gmap string SafetyProfile) (timestamp : R).

End Types.

Export Types.

(* ===================================================================== *)
(** ** AdaptiveStateEstimator.ts *)
(* ===================================================================== *)

Module TargetState.
Record t := mk { arousal : R; attention : R; rhythm_alignment : R }.
End TargetState.

Module AdaptiveStateEstimator.

Inductive TargetKey := parasympathetic | balanced | sympathetic | default.

Definition PROTOCOL_TARGETS (k : TargetKey) : TargetState.t :=
  match k with
  | parasympathetic => TargetState.mk 0.2 0.5 0.8
  | balanced => TargetState.mk 0.4 0.7 0.9
  | sympathetic => TargetState.mk 0.7 0.8 0.6
  | default => TargetState.mk 0.5 0.6 0.7
  end.

(** [PATTERN_TO_TARGET[id]]: [None] is [undefined]. *)
Definition PATTERN_TO_TARGET (key : string) : option TargetKey :=
  if String.eqb key "4-7-8" then Some parasympathetic
  else if String.eqb key "deep-relax" then Some parasympathetic
  else if String.eqb key "7-11" then Some parasympathetic
  else if String.eqb key "coherence" then Some balanced
  else if String.eqb key "calm" then Some balanced
  else if String.eqb key "box" then Some balanced
  else if String.eqb key "triangle" then Some balanced
  else if String.eqb key "tactical" then Some balanced
  else if String.eqb key "awake" then Some sympathetic
  else if String.eqb key "wim-hof" then Some sympathetic
  else if String.eqb key "buteyko" then Some parasympathetic
  else None.

Definition PROCESS_NOISE : R := 0.01.
Definition MEASUREMENT_NOISE_HR : R := 0.15.
Definition MEASUREMENT_NOISE_CONTEXT : R := 0.05.
Definition TAU_AROUSAL : R := 15.
Definition TAU_ATTENTION : R := 5.
Definition TAU_RHYTHM : R := 10.

(** The estimator object: its two private fields. *)
Record Estimator := mkEstimator {
  belief : BeliefState;
  target : TargetState.t
}.

Definition constructor : Estimator :=
  {| belief := mkBelief 0.5 0.5 0 0.2 0.2 0.3 0 0;
     target := PROTOCOL_TARGETS default |}.

Definition setProtocol (pattern : option BreathPattern) (this : Estimator)
  : Estimator :=
  match pattern with
  | None => {| belief := belief this; target := PROTOCOL_TARGETS default |}
  | Some p =>
    let targetKey :=
      match PATTERN_TO_TARGET (id p) with
      | Some k => k
      | None => default
      end in
    {| belief := belief this; target := PROTOCOL_TARGETS targetKey |}
  end.

(** [clamp(value)] with its default bounds [min = 0], [max = 1]. *)
Definition clamp (value : number) : number :=
  Math_max 0 (Math_min 1 value).

Definition predict (this : Estimator) (dt : R) : BeliefState :=
  let b := belief this in
  let tg := target this in
  let alpha_arousal := (1 - Math_exp (- dt / TAU_AROUSAL)%R)%js in
  let alpha_attention := (1 - Math_exp (- dt / TAU_ATTENTION)%R)%js in
  let alpha_rhythm := (1 - Math_exp (- dt / TAU_RHYTHM)%R)%js in
  let predicted_arousal :=
    (arousal b + alpha_arousal * (TargetState.arousal tg - arousal b))%js in
  let predicted_attention :=
    (attention b
     + alpha_attention * (TargetState.attention tg - attention b))%js in
  let predicted_rhythm :=
    (rhythm_alignment b
     + alpha_rhythm
       * (TargetState.rhythm_alignment tg - rhythm_alignment b))%js in
  let predicted_arousal_var :=
    (arousal_variance b + (PROCESS_NOISE * dt)%R)%js in
  let predicted_attention_var :=
    (attention_variance b + (PROCESS_NOISE * dt)%R)%js in
  let predicted_rhythm_var :=
    (rhythm_variance b + (PROCESS_NOISE * dt)%R)%js in
  {| arousal := clamp predicted_arousal;
     attention := clamp predicted_attention;
     rhythm_alignment := clamp predicted_rhythm;
     arousal_variance := predicted_arousal_var;
     attention_variance := predicted_attention_var;
     rhythm_variance := predicted_rhythm_var;
     prediction_error := 0;
     confidence := 0 |}.

(** The arousal correction is the first [if] of [correct]; its guard reads
    [heart_rate !== undefined && hr_confidence !== undefined
     && hr_confidence > 0.5]. *)
Definition correct_arousal (predicted : BeliefState) (obs : Observation)
  : BeliefState :=
  match heart_rate obs, hr_confidence obs with
  | Some hr, Some c =>
    if Rgtb c 0.5 then
      let normalized_hr := clamp ((hr - 50) / 70)%R in
      let K_arousal :=
        (arousal_variance predicted
         / (arousal_variance predicted + MEASUREMENT_NOISE_HR))%js in
      let innovation := (normalized_hr - arousal predicted)%js in
      {| arousal := (arousal predicted + K_arousal * innovation)%js;
         attention := attention predicted;
         rhythm_alignment := rhythm_alignment predicted;
         arousal_variance :=
           ((1 - K_arousal) * arousal_variance predicted)%js;
         attention_variance := attention_variance predicted;
         rhythm_variance := rhythm_variance predicted;
         prediction_error := prediction_error predicted;
         confidence := confidence predicted |}
    else predicted
  | _, _ => predicted
  end.

Definition isDistracted (obs : Observation) : bool :=
  match user_interaction obs with
  | Some pause => true
  | _ => match visibilty_state obs with
         | hidden => true
         | visible => false
         end
  end.

Definition correct (predicted : BeliefState) (obs : Observation) (dt : R)
  : BeliefState :=
  let corrected := correct_arousal predicted obs in
  let corrected :=
    if isDistracted obs then
      let K_attention :=
        (attention_variance predicted
         / (attention_variance predicted + MEASUREMENT_NOISE_CONTEXT))%js in
      let target_attention : R := 0.1 in
      let innovation := (target_attention - attention predicted)%js in
      {| arousal := arousal corrected;
         attention := (attention predicted + K_attention * innovation)%js;
         rhythm_alignment :=
           Math_max 0 (rhythm_alignment corrected - (0.5 * dt)%R)%js;
         arousal_variance := arousal_variance corrected;
         attention_variance :=
           ((1 - K_attention) * attention_variance predicted)%js;
         rhythm_variance := rhythm_variance corrected;
         prediction_error := prediction_error corrected;
         confidence := confidence corrected |}
    else
      {| arousal := arousal corrected;
         attention := Math_min 1 (attention corrected + (0.15 * dt)%R)%js;
         rhythm_alignment :=
           Math_min 1 (rhythm_alignment corrected + (0.1 * dt)%R)%js;
         arousal_variance := arousal_variance corrected;
         attention_variance :=
           Math_max 0.05 (attention_variance corrected - (0.02 * dt)%R)%js;
         rhythm_variance :=
           Math_max 0.05 (rhythm_variance corrected - (0.01 * dt)%R)%js;
         prediction_error := prediction_error corrected;
         confidence := confidence corrected |} in
  {| arousal := clamp (arousal corrected);
     attention := clamp (attention corrected);
     rhythm_alignment := clamp (rhythm_alignment corrected);
     arousal_variance := arousal_variance corrected;
     attention_variance := attention_variance corrected;
     rhythm_variance := rhythm_variance corrected;
     prediction_error := prediction_error corrected;
     confidence := confidence corrected |}.

Definition computePredictionError (this : Estimator) (state : BeliefState)
  : number :=
  let tg := target this in
  let error_arousal :=
    Math_pow (arousal state - TargetState.arousal tg)%js 2 in
  let error_attention :=
    Math_pow (attention state - TargetState.attention tg)%js 2 in
  let error_rhythm :=
    Math_pow (rhythm_alignment state - TargetState.rhythm_alignment tg)%js 2 in
  let mse :=
    (0.4 * error_arousal + 0.3 * error_attention + 0.3 * error_rhythm)%js in
  Math_sqrt mse.

(** [obs.hr_confidence ?? 0.0]. *)
Definition sensor_quality (obs : Observation) : number :=
  match hr_confidence obs with
  | Some c => c
  | None => 0
  end.

Definition computeConfidence (state : BeliefState) (obs : Observation)
  : number :=
  let certainty :=
    (1 - Math_min 1 ((arousal_variance state + attention_variance state
                      + rhythm_variance state) / 3))%js in
  let attention_stability := attention state in
  let confidence :=
    Math_pow (certainty * or_else (sensor_quality obs) 1
              * attention_stability)%js (1 / 3)%R in
  clamp confidence.

(** [update] returns the copy [{ ...this.belief }] and the estimator with
    its belief replaced. *)
Definition update (this : Estimator) (obs : Observation) (dt : R)
  : BeliefState * Estimator :=
  let predicted := predict this dt in
  let corrected := correct predicted obs dt in
  let pe := computePredictionError this corrected in
  let corrected :=
    {| arousal := arousal corrected;
       attention := attention corrected;
       rhythm_alignment := rhythm_alignment corrected;
       arousal_variance := arousal_variance corrected;
       attention_variance := attention_variance corrected;
       rhythm_variance := rhythm_variance corrected;
       prediction_error := pe;
       confidence := confidence corrected |} in
  let cf := computeConfidence corrected obs in
  let corrected :=
    {| arousal := arousal corrected;
       attention := attention corrected;
       rhythm_alignment := rhythm_alignment corrected;
       arousal_variance := arousal_variance corrected;
       attention_variance := attention_variance corrected;
       rhythm_variance := rhythm_variance corrected;
       prediction_error := prediction_error corrected;
       confidence := cf |} in
  (corrected, {| belief := corrected; target := target this |}).

(** One estimator step of the driver: bind the pattern, then update. *)
Record Step := mkStep {
  step_pattern : option BreathPattern;
  step_obs : Observation;
  step_dt : R
}.

(** The results of [update] along a sequence of steps, oldest first: the
    belief returned and the estimator it leaves behind. *)
Fixpoint run (this : Estimator) (steps : list Step)
  : list (BeliefState * Estimator) :=
  match steps with
  | [] => []
  | s :: rest =>
    let r :=
      update (setProtocol (step_pattern s) this) (step_obs s) (step_dt s) in
    r :: run (snd r) rest
  end.

End AdaptiveStateEstimator.

(* ===================================================================== *)
(** ** PureZenBKernel.ts *)
(* ===================================================================== *)

Module PureZenBKernel.

Inductive RuntimeStatus := IDLE | RUNNING | PAUSED | HALTED | SAFETY_LOCK.

#[global] Instance RuntimeStatus_eq_dec : EqDecision RuntimeStatus.
Proof. solve_decision. Defined.

Record RuntimeState := mkState {
  version : nat;
  status : RuntimeStatus;
  bootTimestamp : R;
  lastUpdateTimestamp : R;
  pattern : option BreathPattern;
  phase : BreathPhase;
  phaseStartTime : R;
  phaseDuration : R;
  cycleCount : R;
  sessionStartTime : R;
  belief : BeliefState;
  safetyRegistry : gmap string SafetyProfile;
  phaseElapsed : R;
  sessionDuration : R;
  lastObservation : option Observation
}.

(** *** Object spread with one field replaced: [{ ...s, field: v }] *)

Definition with_status v s :=
  mkState (version s) v (bootTimestamp s) (lastUpdateTimestamp s)
    (pattern s) (phase s) (phaseStartTime s) (phaseDuration s)
    (cycleCount s) (sessionStartTime s) (belief s) (safetyRegistry s)
    (phaseElapsed s) (sessionDuration s) (lastObservation s).
Definition with_lastUpdateTimestamp v s :=
  mkState (version s) (status s) (bootTimestamp s) v
    (pattern s) (phase s) (phaseStartTime s) (phaseDuration s)
    (cycleCount s) (sessionStartTime s) (belief s) (safetyRegistry s)
    (phaseElapsed s) (sessionDuration s) (lastObservation s).
Definition with_pattern v s :=
  mkState (version s) (status s) (bootTimestamp s) (lastUpdateTimestamp s)
    v (phase s) (phaseStartTime s) (phaseDuration s)
    (cycleCount s) (sessionStartTime s) (belief s) (safetyRegistry s)
    (phaseElapsed s) (sessionDuration s) (lastObservation s).
Definition with_phase v s :=
  mkState (version s) (status s) (bootTimestamp s) (lastUpdateTimestamp s)
    (pattern s) v (phaseStartTime s) (phaseDuration s)
    (cycleCount s) (sessionStartTime s) (belief s) (safetyRegistry s)
    (phaseElapsed s) (sessionDuration s) (lastObservation s).
Definition with_phaseStartTime v s :=
  mkState (version s) (status s) (bootTimestamp s) (lastUpdateTimestamp s)
    (pattern s) (phase s) v (phaseDuration s)
    (cycleCount s) (sessionStartTime s) (belief s) (safetyRegistry s)
    (phaseElapsed s) (sessionDuration s) (lastObservation s).
Definition with_phaseDuration v s :=
  mkState (version s) (status s) (bootTimestamp s) (lastUpdateTimestamp s)
    (pattern s) (phase s) (phaseStartTime s) v
    (cycleCount s) (sessionStartTime s) (belief s) (safetyRegistry s)
    (phaseElapsed s) (sessionDuration s) (lastObservation s).
Definition with_cycleCount v s :=
  mkState (version s) (status s) (bootTimestamp s) (lastUpdateTimestamp s)
    (pattern s) (phase s) (phaseStartTime s) (phaseDuration s)
    v (sessionStartTime s) (belief s) (safetyRegistry s)
    (phaseElapsed s) (sessionDuration s) (lastObservation s).
Definition with_sessionStartTime v s :=
  mkState (version s) (status s) (bootTimestamp s) (lastUpdateTimestamp s)
    (pattern s) (phase s) (phaseStartTime s) (phaseDuration s)
    (cycleCount s) v (belief s) (safetyRegistry s)
    (phaseElapsed s) (sessionDuration s) (lastObservation s).
Definition with_belief v s :=
  mkState (version s) (status s) (bootTimestamp s) (lastUpdateTimestamp s)
    (pattern s) (phase s) (phaseStartTime s) (phaseDuration s)
    (cycleCount s) (sessionStartTime s) v (safetyRegistry s)
    (phaseElapsed s) (sessionDuration s) (lastObservation s).
Definition with_safetyRegistry v s :=
  mkState (version s) (status s) (bootTimestamp s) (lastUpdateTimestamp s)
    (pattern s) (phase s) (phaseStartTime s) (phaseDuration s)
    (cycleCount s) (sessionStartTime s) (belief s) v
    (phaseElapsed s) (sessionDuration s) (lastObservation s).
Definition with_phaseElapsed v s :=
  mkState (version s) (status s) (bootTimestamp s) (lastUpdateTimestamp s)
    (pattern s) (phase s) (phaseStartTime s) (phaseDuration s)
    (cycleCount s) (sessionStartTime s) (belief s) (safetyRegistry s)
    v (sessionDuration s) (lastObservation s).
Definition with_sessionDuration v s :=
  mkState (version s) (status s) (bootTimestamp s) (lastUpdateTimestamp s)
    (pattern s) (phase s) (phaseStartTime s) (phaseDuration s)
    (cycleCount s) (sessionStartTime s) (belief s) (safetyRegistry s)
    (phaseElapsed s) v (lastObservation s).
Definition with_lastObservation v s :=
  mkState (version s) (status s) (bootTimestamp s) (lastUpdateTimestamp s)
    (pattern s) (phase s) (phaseStartTime s) (phaseDuration s)
    (cycleCount s) (sessionStartTime s) (belief s) (safetyRegistry s)
    (phaseElapsed s) (sessionDuration s) v.

(** *** The pure reducer *)

(** [{ ...state.belief, rhythm_alignment: 0, prediction_error: 0,
      confidence: 0 }] *)
Definition reset_belief (b : BeliefState) : BeliefState :=
  {| arousal := arousal b;
     attention := attention b;
     rhythm_alignment := 0;
     arousal_variance := arousal_variance b;
     attention_variance := attention_variance b;
     rhythm_variance := rhythm_variance b;
     prediction_error := 0;
     confidence := 0 |}.

(** The event type is a closed union, so the [default] branch of the
    [switch] has no constructor to match. *)
Definition reduce (state : RuntimeState) (event : KernelEvent)
  : RuntimeState :=
  match event with
  | BOOT timestamp =>
    with_lastUpdateTimestamp timestamp (with_status IDLE state)
  | LOAD_PROTOCOL patternId timestamp =>
    if decide (status state = SAFETY_LOCK) then state
    else match BREATHING_PATTERNS patternId with
         | None => state
         | Some pattern =>
           with_lastUpdateTimestamp timestamp
             (with_belief (reset_belief (belief state))
               (with_sessionStartTime 0
                 (with_cycleCount 0
                   (with_phaseDuration (timings pattern inhale)
                     (with_phaseStartTime timestamp
                       (with_phase inhale
                         (with_pattern (Some pattern) state)))))))
         end
  | START_SESSION timestamp =>
    match pattern state with
    | None => state
    | Some _ =>
      with_lastUpdateTimestamp timestamp
        (with_phaseStartTime timestamp
          (with_sessionStartTime timestamp
            (with_status RUNNING state)))
    end
  | INTERRUPTION _ timestamp =>
    if decide (status state <> RUNNING) then state
    else with_lastUpdateTimestamp timestamp (with_status PAUSED state)
  | RESUME timestamp =>
    if decide (status state <> PAUSED) then state
    else
      let pauseDuration := timestamp - lastUpdateTimestamp state in
      with_lastUpdateTimestamp timestamp
        (with_phaseStartTime (phaseStartTime state + pauseDuration)
          (with_status RUNNING state))
  | HALT _ timestamp =>
    with_lastUpdateTimestamp timestamp (with_status HALTED state)
  | SAFETY_INTERDICTION _ _ timestamp =>
    with_lastUpdateTimestamp timestamp (with_status SAFETY_LOCK state)
  | PHASE_TRANSITION _ to timestamp =>
    match pattern state with
    | None => state
    | Some p =>
      let newDuration := timings p to in
      with_lastUpdateTimestamp timestamp
        (with_phaseDuration newDuration
          (with_phaseStartTime timestamp
            (with_phase to state)))
    end
  | CYCLE_COMPLETE count timestamp =>
    with_lastUpdateTimestamp timestamp (with_cycleCount count state)
  | BELIEF_UPDATE b timestamp =>
    with_lastUpdateTimestamp timestamp (with_belief b state)
  | TICK _ observation timestamp =>
    with_lastObservation (Some observation)
      (with_lastUpdateTimestamp timestamp state)
  | LOAD_SAFETY_REGISTRY registry timestamp =>
    with_lastUpdateTimestamp timestamp (with_safetyRegistry registry state)
  end.

(** *** The kernel object and its environment *)

(** Subscribers and middlewares are functions of the embedding
    application; the model knows them by an identifier and records every
    call the kernel makes to one of them. *)
Definition Callback := nat.
Definition Middleware := nat.
Definition audioMiddleware : Middleware := 0%nat.
Definition hapticMiddleware : Middleware := 1%nat.

Inductive Effect :=
| MiddlewareCall (mw : Middleware) (event : KernelEvent)
    (beforeState afterState : RuntimeState)
| SubscriberCall (cb : Callback) (s : RuntimeState)
| ConsoleError (cb : Callback).

Record Kernel := mkKernel {
  state : RuntimeState;
  estimator : AdaptiveStateEstimator.Estimator;
  eventLog : list KernelEvent;
  subscribers : list Callback;
  middlewares : list Middleware
}.

Definition MAX_LOG_SIZE : nat := 1000.

(** The kernel together with what it has observed of its environment: how
    often it has read the clock and which calls it has made. *)
Record World := mkWorld {
  this : Kernel;
  reads : nat;
  trace : list Effect
}.

Definition with_state v k :=
  mkKernel v (estimator k) (eventLog k) (subscribers k) (middlewares k).
Definition with_eventLog v k :=
  mkKernel (state k) (estimator k) v (subscribers k) (middlewares k).
Definition with_subscribers v k :=
  mkKernel (state k) (estimator k) (eventLog k) v (middlewares k).
Definition with_middlewares v k :=
  mkKernel (state k) (estimator k) (eventLog k) (subscribers k) v.

Inductive Result (A : Type) :=
| Ok (a : A)
| Throw.
Arguments Ok {A} a.
Arguments Throw {A}.

(** Methods of the kernel: state passing over [World], with exceptions. *)
Definition M (A : Type) : Type := World -> Result A * World.

Definition ret {A} (a : A) : M A := fun w => (Ok a, w).

Definition bind {A B} (m : M A) (k : A -> M B) : M B :=
  fun w =>
    match m w with
    | (Ok a, w') => k a w'
    | (Throw, w') => (Throw, w')
    end.

Declare Scope kernel_scope.
Delimit Scope kernel_scope with kernel.
Notation "x <- m ;; k" := (bind m (fun x => k))
  (at level 100, m at next level, right associativity) : kernel_scope.
Notation "m ;; k" := (bind m (fun _ => k))
  (at level 100, right associativity) : kernel_scope.
Open Scope kernel_scope.

Definition get : M Kernel := fun w => (Ok (this w), w).
Definition modify (f : Kernel -> Kernel) : M unit :=
  fun w => (Ok tt, mkWorld (f (this w)) (reads w) (trace w)).

(** [try { m } catch (e) { handler }] *)
Definition try_catch (m : M unit) (handler : M unit) : M unit :=
  fun w =>
    match m w with
    | (Ok a, w') => (Ok a, w')
    | (Throw, w') => handler w'
    end.

(** [array.forEach(f)] and [set.forEach(f)] *)
Fixpoint forEach {A} (l : list A) (f : A -> M unit) : M unit :=
  match l with
  | [] => ret tt
  | x :: rest => f x ;; forEach rest f
  end.

Section Environment.

(** [Date_now n] is the value of the [n]-th reading of the clock. *)
Variable Date_now : nat -> R.

(** [throws tr] tells whether the call recorded last in [tr] raises an
    exception. *)
Variable throws : list Effect -> bool.

Definition now : M R :=
  fun w => (Ok (Date_now (reads w)), mkWorld (this w) (S (reads w)) (trace w)).

Definition call (e : Effect) : M unit :=
  fun w =>
    let tr := trace w ++ [e] in
    (if throws tr then Throw else Ok tt, mkWorld (this w) (reads w) tr).

Definition console_error (cb : Callback) : M unit :=
  fun w => (Ok tt, mkWorld (this w) (reads w) (trace w ++ [ConsoleError cb])).

Definition createInitialState : M RuntimeState :=
  bootTimestamp <- now ;;
  lastUpdateTimestamp <- now ;;
  ret {| version := 2;
         status := IDLE;
         bootTimestamp := bootTimestamp;
         lastUpdateTimestamp := lastUpdateTimestamp;
         pattern := None;
         phase := inhale;
         phaseStartTime := 0;
         phaseDuration := 0;
         cycleCount := 0;
         sessionStartTime := 0;
         belief := mkBelief 0.5 0.5 0 0.2 0.2 0.3 0 0;
         safetyRegistry := ∅;
         phaseElapsed := 0;
         sessionDuration := 0;
         lastObservation := None |}.

(** *** The safety guard *)

(** Rule 3 and the final [return event]. *)
Definition guard_rule3 (event : KernelEvent) (state : RuntimeState)
  : M (option KernelEvent) :=
  match event with
  | LOAD_PROTOCOL patternId _ =>
    match safetyRegistry state !! patternId with
    | Some profile =>
      t <- now ;;
      if Rgtb (safety_lock_until profile) t
      then t' <- now ;;
           ret (Some (SAFETY_INTERDICTION 0.8 "PATTERN_LOCKED" t'))
      else ret (Some event)
    | None => ret (Some event)
    end
  | _ => ret (Some event)
  end.

(** Rule 2, falling through to rule 3. *)
Definition guard_rule2 (event : KernelEvent) (state : RuntimeState)
  : M (option KernelEvent) :=
  match event with
  | BELIEF_UPDATE b _ =>
    if Number.gt (prediction_error b) 0.95
       && Rgtb (sessionDuration state) 10
    then t <- now ;;
         ret (Some (SAFETY_INTERDICTION 0.95 "EMERGENCY_HALT" t))
    else guard_rule3 event state
  | _ => guard_rule3 event state
  end.

Definition defaultSafetyGuard (event : KernelEvent) (state : RuntimeState)
  : M (option KernelEvent) :=
  match event with
  | START_SESSION _ =>
    if decide (status state = SAFETY_LOCK)
    then t <- now ;;
         ret (Some (SAFETY_INTERDICTION 1.0 "REJECT_START" t))
    else guard_rule2 event state
  | _ => guard_rule2 event state
  end.

(** *** The kernel's methods *)

Definition computeDerivedFields (state : RuntimeState) : M RuntimeState :=
  t <- now ;;
  ret (with_sessionDuration
         (if Rgtb (sessionStartTime state) 0
          then Rmax 0 ((t - sessionStartTime state) / 1000)
          else 0)
         (with_phaseElapsed
            (if decide (status state = RUNNING)
             then Rmax 0 ((t - phaseStartTime state) / 1000)
             else 0)
            state)).

Definition notify : M unit :=
  k <- get ;;
  forEach (subscribers k) (fun cb =>
    try_catch
      (k' <- get ;; call (SubscriberCall cb (state k')))
      (console_error cb)).

(** [eventLog.push(e); if (eventLog.length > MAX_LOG_SIZE) eventLog.shift()] *)
Definition append_log (e : KernelEvent) (log : list KernelEvent)
  : list KernelEvent :=
  let log := log ++ [e] in
  if (MAX_LOG_SIZE <? length log)%nat then drop 1 log else log.

Definition dispatch (event : KernelEvent) : M unit :=
  k <- get ;;
  let beforeState := state k in
  guarded <- defaultSafetyGuard event beforeState ;;
  match guarded with
  | None => ret tt
  | Some guardedEvent =>
    modify (fun k => with_eventLog (append_log guardedEvent (eventLog k)) k) ;;
    let reducedState := reduce beforeState guardedEvent in
    enrichedState <- computeDerivedFields reducedState ;;
    modify (with_state enrichedState) ;;
    k <- get ;;
    forEach (middlewares k) (fun mw =>
      call (MiddlewareCall mw guardedEvent beforeState enrichedState)) ;;
    notify
  end.

Definition getState : M RuntimeState :=
  k <- get ;; ret (state k).

(** [Set.prototype.add] and [Set.prototype.delete] on the insertion-ordered
    subscriber set. *)
Definition set_add (cb : Callback) (s : list Callback) : list Callback :=
  if decide (cb ∈ s) then s else s ++ [cb].
Definition set_delete (cb : Callback) (s : list Callback) : list Callback :=
  filter (fun c => c <> cb) s.

(** The closure returned by [subscribe]. *)
Definition unsubscribe (callback : Callback) : M bool :=
  k <- get ;;
  modify (fun k => with_subscribers (set_delete callback (subscribers k)) k) ;;
  ret (bool_decide (callback ∈ subscribers k)).

Definition subscribe (callback : Callback) : M (M bool) :=
  modify (fun k => with_subscribers (set_add callback (subscribers k)) k) ;;
  k <- get ;;
  call (SubscriberCall callback (state k)) ;;
  ret (unsubscribe callback).

Definition use (middleware : Middleware) : M unit :=
  modify (fun k => with_middlewares (middlewares k ++ [middleware]) k).

Definition loadSafetyRegistry (registry : gmap string SafetyProfile)
  : M unit :=
  t <- now ;;
  dispatch (LOAD_SAFETY_REGISTRY registry t).

Definition getLogBuffer : M (list KernelEvent) :=
  k <- get ;; ret (eventLog k).

(** [new PureZenBKernel()], run in an environment whose clock has been
    read [reads0] times and whose trace so far is [trace0].  The field
    initialisers give the empty log, subscriber set and middleware list;
    [unassigned] stands for the field [state] until the constructor body
    assigns it. *)
Definition constructor (reads0 : nat) (trace0 : list Effect)
  : Result unit * World :=
  let unassigned :=
    mkState 0 IDLE 0 0 None inhale 0 0 0 0
      (mkBelief 0 0 0 0 0 0 0 0) ∅ 0 0 None in
  (s <- createInitialState ;;
   modify (fun _ =>
     mkKernel s AdaptiveStateEstimator.constructor [] [] []) ;;
   use audioMiddleware ;;
   use hapticMiddleware ;;
   t <- now ;;
   dispatch (BOOT t))
  (mkWorld (mkKernel unassigned AdaptiveStateEstimator.constructor [] [] [])
     reads0 trace0).

End Environment.

End PureZenBKernel.

(* ===================================================================== *)
(** ** The settings store: [registerSessionComplete] *)
(* ===================================================================== *)

Module SettingsStore.

Import PureZenBKernel.

Definition DAY_MS : R := 24 * 60 * 60 * 1000.

(** [durationSec > 45 && kernelState.belief.prediction_error < 0.5] *)
Definition isSuccess (durationSec : R) (kernelState : RuntimeState) : bool :=
  Rgtb durationSec 45
  && Number.lt (prediction_error (belief kernelState)) 0.5.

(** The record that replaces [registry[patternId]].  [now] is the value of
    [Date.now()], which only the lock-out branch reads. *)
Definition update_record (now : R) (success : bool) (record : SafetyProfile)
  : SafetyProfile :=
  let record :=
    if success then
      mkSafetyProfile (patternId record) (cummulative_stress_score record)
        (last_incident_timestamp record) (safety_lock_until record)
        (resonance_history record ++ [1.0])
    else
      let history := resonance_history record ++ [0.0] in
      let score := cummulative_stress_score record + 1 in
      if Rgtb score 5 then
        mkSafetyProfile (patternId record) 0
          (last_incident_timestamp record) (now + DAY_MS) history
      else
        mkSafetyProfile (patternId record) score
          (last_incident_timestamp record) (safety_lock_until record)
          history in
  if (5 <? length (resonance_history record))%nat
  then mkSafetyProfile (patternId record) (cummulative_stress_score record)
         (last_incident_timestamp record) (safety_lock_until record)
         (drop 1 (resonance_history record))
  else record.

(** The record created when the registry has none for the pattern. *)
Definition fresh_profile (patternId : string) : SafetyProfile :=
  {| patternId := patternId;
     cummulative_stress_score := 0;
     last_incident_timestamp := 0;
     safety_lock_until := 0;
     resonance_history := [] |}.

(** The safety-registry part of [registerSessionComplete]: from the
    registry of [userSettings] and the kernel's state snapshot to the
    registry that the action hands to [kernel.loadSafetyRegistry] and
    stores back into [userSettings].  The history and streak bookkeeping
    that follows in the source (it alone uses the argument [cycles]) does
    not touch the registry.  The source updates the record object in place,
    an object the previous registry shares; the registries here are values,
    and nothing below looks at the previous registry after the call. *)
Definition registerSessionComplete (now : R) (kernelState : RuntimeState)
    (safetyRegistry : gmap string SafetyProfile)
    (durationSec : R) (patternId : string)
  : gmap string SafetyProfile :=
  let registry := safetyRegistry in
  let record :=
    default (fresh_profile patternId) (registry !! patternId) in
  <[patternId := update_record now (isSuccess durationSec kernelState) record]>
    registry.

(** One completed session, as [registerSessionComplete] sees it. *)
Record Completion := mkCompletion {
  at_time : R;
  kernel_state : RuntimeState;
  duration : R
}.

(** The registry after a sequence of completed sessions of one pattern. *)
Definition complete_all (patternId : string) (cs : list Completion)
    (registry : gmap string SafetyProfile) : gmap string SafetyProfile :=
  foldl (fun reg c =>
           registerSessionComplete (at_time c) (kernel_state c) reg
             (duration c) patternId)
        registry cs.

End SettingsStore.

(* ===================================================================== *)
(** ** Vocabulary of the properties *)
(* ===================================================================== *)

Module ASE := AdaptiveStateEstimator.
Import PureZenBKernel.
Import SettingsStore.

(** The last [n] entries of a list. *)
Definition lastn {A} (n : nat) (l : list A) : list A :=
  drop (length l - n) l.

(** The profile that [registerSessionComplete] starts from. *)
Definition profile_of (reg : gmap string SafetyProfile) (pid : string)
  : SafetyProfile :=
  default (fresh_profile pid) (reg !! pid).

(** What one completion contributes to the resonance history. *)
Definition outcome (c : Completion) : R :=
  if isSuccess (duration c) (kernel_state c) then 1.0 else 0.0.

(** A completion that [registerSessionComplete] classifies as a failure. *)
Definition adverse (c : Completion) : Prop :=
  isSuccess (duration c) (kernel_state c) = false.

(** [push] followed by the conditional [shift]. *)
Definition window (h : list R) : list R :=
  if (5 <? length h)%nat then drop 1 h else h.

(** A kernel state to build examples from: the initial state of a kernel
    booted at time [0]. *)
Definition idle_state : RuntimeState :=
  {| version := 2;
     status := IDLE;
     bootTimestamp := 0;
     lastUpdateTimestamp := 0;
     pattern := None;
     phase := inhale;
     phaseStartTime := 0;
     phaseDuration := 0;
     cycleCount := 0;
     sessionStartTime := 0;
     belief := mkBelief 0.5 0.5 0 0.2 0.2 0.3 0 0;
     safetyRegistry := ∅;
     phaseElapsed := 0;
     sessionDuration := 0;
     lastObservation := None |}.

(** A session of [d] seconds completed at time [t] with the kernel idle. *)
Definition completion (t d : R) : Completion :=
  {| at_time := t; kernel_state := idle_state; duration := d |}.

(** The state that [computeDerivedFields] returns when its clock reading
    is [t]. *)
Definition derivedFields (t : R) (state : RuntimeState) : RuntimeState :=
  with_sessionDuration
    (if Rgtb (sessionStartTime state) 0
     then Rmax 0 ((t - sessionStartTime state) / 1000)
     else 0)
    (with_phaseElapsed
       (if decide (status state = RUNNING)
        then Rmax 0 ((t - phaseStartTime state) / 1000)
        else 0)
       state).

(** The world after a sequence of dispatches, each made by a caller that
    does not depend on the previous one returning normally. *)
Definition dispatch_all (Date_now : nat -> R) (throws : list Effect -> bool)
    (events : list KernelEvent) (w : World) : World :=
  foldl (fun w e => snd (dispatch Date_now throws e w)) w events.

(** The calls in a trace that go to subscriber [cb]. *)
Definition calls_to (cb : Callback) (tr : list Effect) : list Effect :=
  List.filter (fun e => match e with
                   | SubscriberCall c _ => bool_decide (c = cb)
                   | _ => false
                   end) tr.

(** A kernel at rest around a given state, with the two stock middlewares. *)
Definition kernel_of (s : RuntimeState) (subs : list Callback) : Kernel :=
  {| state := s;
     estimator := ASE.constructor;
     eventLog := [];
     subscribers := subs;
     middlewares := [audioMiddleware; hapticMiddleware] |}.

(** A clock that advances by one millisecond per reading from [t0]. *)
Definition clock_from (t0 : R) (n : nat) : R := t0 + INR n.

(** Collaborators that never throw. *)
Definition no_throw (tr : list Effect) : bool := false.

(** A step of a method that leaves the kernel object and the clock alone:
    at most it adds to the trace. *)
Definition observer {A} (m : M A) : Prop :=
  forall w, this (snd (m w)) = this w /\ reads (snd (m w)) = reads w.

(** An effect that a kernel with the subscribers of [k] can cause: a
    subscriber is only called, or reported as failing, when it is in the
    subscriber set. *)
Definition known_subscriber (k : Kernel) (e : Effect) : Prop :=
  match e with
  | SubscriberCall c _ => c ∈ subscribers k
  | ConsoleError c => c ∈ subscribers k
  | MiddlewareCall _ _ _ _ => True
  end.

(** A step of a method that only extends the trace, by effects that
    satisfy [P] for the kernel it is run on. *)
Definition emits (P : Kernel -> Effect -> Prop) {A} (m : M A) : Prop :=
  forall w, exists tr',
    trace (snd (m w)) = trace w ++ tr' /\ Forall (P (this w)) tr'.

(** A session of pattern [box] started at time [1000] from the idle
    kernel, as the reducer builds it. *)
Definition running_state : RuntimeState :=
  reduce (reduce idle_state (LOAD_PROTOCOL "box" 0)) (START_SESSION 1000).

(** The idle kernel state with pattern [4-7-8] locked until time [6000]. *)
Definition locked_state : RuntimeState :=
  with_safetyRegistry
    {[ "4-7-8" := mkSafetyProfile "4-7-8" 0 0 6000 [0; 0; 0; 0; 0] ]}
    idle_state.

(** A world whose kernel is at rest around [s], with no subscriber, a
    clock not read yet and an empty trace. *)
Definition world_of (s : RuntimeState) : World :=
  {| this := kernel_of s []; reads := 0; trace := [] |}.

(** The events of a session that is paused at [2500], sees the safety
    registry reloaded at [5000] and is resumed at [7500]. *)
Definition paused_session : list KernelEvent :=
  [ LOAD_PROTOCOL "box" 0; START_SESSION 1000;
    INTERRUPTION kind_pause 2500; LOAD_SAFETY_REGISTRY ∅ 5000;
    RESUME 7500 ].

(** *** Numbers and beliefs *)

Definition finite (n : number) : Prop := exists x, n = Fin x.
Definition positive (n : number) : Prop := exists x, n = Fin x /\ 0 < x.
Definition nonnegative (n : number) : Prop := exists x, n = Fin x /\ 0 <= x.
Definition unit_interval (n : number) : Prop :=
  exists x, n = Fin x /\ 0 <= x <= 1.

(** The bounds of a belief: the three point estimates and the confidence
    lie in [0,1], the prediction error is not negative. *)
Definition estimates_bounded (b : BeliefState) : Prop :=
  unit_interval (arousal b) /\ unit_interval (attention b)
  /\ unit_interval (rhythm_alignment b)
  /\ nonnegative (prediction_error b).


(** What the estimator maintains between updates: real point estimates and
    positive real variances. *)
Definition estimator_ok (est : ASE.Estimator) : Prop :=
  let b := ASE.belief est in
  finite (arousal b) /\ finite (attention b) /\ finite (rhythm_alignment b)
  /\ positive (arousal_variance b) /\ positive (attention_variance b)
  /\ positive (rhythm_variance b).

(** The largest distance of a point of [0,1] from the target value [t], and
    the largest weighted squared error with respect to a target vector. *)
Definition max_err (t : R) : R := Rmax t (1 - t).

Definition max_mse (tg : TargetState.t) : R :=
  0.4 * (max_err (TargetState.arousal tg))²
  + 0.3 * (max_err (TargetState.attention tg))²
  + 0.3 * (max_err (TargetState.rhythm_alignment tg))².

(** The cube root of a real number that is not negative. *)
Definition cube_root (x : R) : R :=
  if Rlt_dec 0 x then Rpower x (1 / 3) else 0.

(** The sensor-quality factor as the specification words it, and the one
    the code uses. *)
Definition claimed_sensor_quality (obs : Observation) : R :=
  match hr_confidence obs with
  | Some c => c
  | None => 1
  end.

Definition used_sensor_quality (obs : Observation) : R :=
  match hr_confidence obs with
  | Some c => if Req_dec_T c 0 then 1 else c
  | None => 1
  end.

(** The clamped geometric mean of certainty, a sensor-quality factor [sq]
    and the attention [a], for variances [va], [vt], [vr]. *)
Definition confidence_formula (sq va vt vr a : R) : R :=
  Rmax 0 (Rmin 1 (cube_root ((1 - Rmin 1 ((va + vt + vr) / 3)) * sq * a))).

(** An observation with nothing but a confidence reading attached. *)
Definition observation_with (c : option R) : Observation :=
  {| timestamp := 0;
     delta_time := 0;
     user_interaction := None;
     visibilty_state := visible;
     heart_rate := None;
     hr_confidence := c |}.

(** A belief no estimator returns, with prediction error 1, and the state
    of a session that has been running for eleven seconds. *)
Definition crafted_belief : BeliefState :=
  mkBelief 0.5 0.5 0 0.2 0.2 0.3 1 0.

Definition long_session_state : RuntimeState :=
  with_sessionDuration 11 running_state.

(** Observations whose confidence reading, when present, is not negative. *)
Definition confidence_not_negative (obs : Observation) : Prop :=
  match hr_confidence obs with
  | Some c => 0 <= c
  | None => True
  end.


(* ===================================================================== *)
(** ** Vocabulary of the further properties *)
(* ===================================================================== *)

(** The subscriber calls of a trace, in order. *)
Definition subscriber_calls (tr : list Effect)
  : list (Callback * RuntimeState) :=
  omap (fun e => match e with
                 | SubscriberCall c s => Some (c, s)
                 | _ => None
                 end) tr.

(** The middleware calls of a trace, in order. *)
Definition middleware_calls (tr : list Effect) : list Middleware :=
  omap (fun e => match e with
                 | MiddlewareCall mw _ _ _ => Some mw
                 | _ => None
                 end) tr.

(** The events that the guard may turn into an interdiction. *)
Definition interceptable (e : KernelEvent) : bool :=
  match e with
  | START_SESSION _ | BELIEF_UPDATE _ _ | LOAD_PROTOCOL _ _ => true
  | _ => false
  end.

Definition is_interdiction (e : KernelEvent) : bool :=
  match e with
  | SAFETY_INTERDICTION _ _ _ => true
  | _ => false
  end.

(** Collaborators among which exactly the middlewares throw. *)
Definition middleware_throws (tr : list Effect) : bool :=
  match last tr with
  | Some (MiddlewareCall _ _ _ _) => true
  | _ => false
  end.


(* ===================================================================== *)
(** ** PureZenBKernel.ts: [tick] *)
(* ===================================================================== *)

Definition with_estimator (v : ASE.Estimator) (k : Kernel) : Kernel :=
  mkKernel (state k) v (eventLog k) (subscribers k) (middlewares k).

Section Tick.

Variable Date_now : nat -> R.
Variable throws : list Effect -> bool.

(** The two functions that the kernel imports from [./phaseMachine]; [tick]
    is modelled for every pair of such functions. *)
Variable nextPhaseSkipZero : BreathPhase -> BreathPattern -> BreathPhase.
Variable isCycleBoundary : BreathPhase -> bool.

Definition tick (dt : R) (observation : Observation) : M unit :=
  now_ <- now Date_now ;;
  modify (fun k =>
    with_estimator (ASE.setProtocol (pattern (state k)) (estimator k)) k) ;;
  k <- get ;;
  let updated := ASE.update (estimator k) observation dt in
  let newBelief := fst updated in
  modify (with_estimator (snd updated)) ;;
  dispatch Date_now throws (BELIEF_UPDATE newBelief now_) ;;
  k <- get ;;
  (if decide (status (state k) = RUNNING) then
     match pattern (state k) with
     | Some p =>
       let elapsed := (now_ - phaseStartTime (state k)) / 1000 in
       if Rge_dec elapsed (phaseDuration (state k)) then
         let nextPhase := nextPhaseSkipZero (phase (state k)) p in
         dispatch Date_now throws
           (PHASE_TRANSITION (phase (state k)) nextPhase now_) ;;
         if isCycleBoundary nextPhase then
           k <- get ;;
           dispatch Date_now throws
             (CYCLE_COMPLETE (cycleCount (state k) + 1) now_)
         else ret tt
       else ret tt
     | None => ret tt
     end
   else ret tt) ;;
  dispatch Date_now throws (TICK dt observation now_).

(** The pattern of a running session whose current phase is over at time
    [now_]. *)
Definition phase_over (now_ : R) (s : RuntimeState) : option BreathPattern :=
  if decide (status s = RUNNING) then
    match pattern s with
    | Some p =>
      if Rge_dec ((now_ - phaseStartTime s) / 1000) (phaseDuration s)
      then Some p else None
    | None => None
    end
  else None.

(** The events that a tick at time [now_] with new belief [b] hands to
    [dispatch] from state [s], in order. *)
Definition tick_events (now_ : R) (b : BeliefState) (dt : R)
    (obs : Observation) (s : RuntimeState) : list KernelEvent :=
  [BELIEF_UPDATE b now_]
  ++ match phase_over now_ s with
     | Some p =>
       let next := nextPhaseSkipZero (phase s) p in
       PHASE_TRANSITION (phase s) next now_
       :: (if isCycleBoundary next
           then [CYCLE_COMPLETE (cycleCount s + 1) now_] else [])
     | None => []
     end
  ++ [TICK dt obs now_].

End Tick.

(** A phase machine to run examples with: the four phases in a circle, the
    cycle ending when [inhale] comes round. *)
Definition round_robin (p : BreathPhase) (_ : BreathPattern) : BreathPhase :=
  match p with
  | inhale => holdIn
  | holdIn => exhale
  | exhale => holdOut
  | holdOut => inhale
  end.

Definition starts_cycle (p : BreathPhase) : bool :=
  match p with
  | inhale => true
  | _ => false
  end.

(* ===================================================================== *)
(** ** Vocabulary of the estimator's steps *)
(* ===================================================================== *)

(** The heart rate that [correct] uses: a reading that comes with a
    confidence above 0.5. *)
Definition usable_heart_rate (obs : Observation) : option R :=
  match heart_rate obs, hr_confidence obs with
  | Some hr, Some c => if Rgtb c 0.5 then Some hr else None
  | _, _ => None
  end.

(** A heart rate on the scale of the arousal estimate. *)
Definition normalized (hr : R) : R := Rmax 0 (Rmin 1 ((hr - 50) / 70)).

(** The value [x] after [dt] seconds of exponential relaxation toward
    [goal] with time constant [tau]. *)
Definition relaxed (tau dt x goal : R) : R :=
  goal + exp (- dt / tau) * (x - goal).

(** [y] lies between [x] and [z], whichever of the two is larger. *)
Definition between (x y z : R) : Prop := Rmin x z <= y <= Rmax x z.


(* ===================================================================== *)
(** ** AdaptiveEngine.ts *)
(* ===================================================================== *)

(** The inputs of the controller are taken to be real numbers. *)
Module PIDController.

Record t := mk {
  kp : R;
  ki : R;
  kd : R;
  integral : R;
  lastError : R;
  lastTime : R
}.

(** [new PIDController(kp, ki, kd)] when the clock shows [now]. *)
Definition constructor (kp ki kd now : R) : t :=
  {| kp := kp; ki := ki; kd := kd;
     integral := 0; lastError := 0; lastTime := now |}.

(** [update(target, current)] when the clock shows [now]: the correction
    and the controller it leaves. *)
Definition update (this : t) (now target current : R) : R * t :=
  let dt := (now - lastTime this) / 1000 in
  let error := target - current in
  let p := kp this * error in
  let integral := integral this + error * dt in
  let integral := Rmax (-10) (Rmin 10 integral) in
  let i := ki this * integral in
  let derivative :=
    if Rgtb dt 0 then (error - lastError this) / dt else 0 in
  let d := kd this * derivative in
  (p + i + d,
   {| kp := kp this; ki := ki this; kd := kd this;
      integral := integral; lastError := error; lastTime := now |}).

Definition reset (this : t) (now : R) : t :=
  {| kp := kp this; ki := ki this; kd := kd this;
     integral := 0; lastError := 0; lastTime := now |}.

End PIDController.

Module AdaptiveEngine.

(** The argument [state] of [optimizePattern]. *)
Record Vitals := mkVitals {
  heartRate : R;
  confidence : R;
  arousal : R;
  rhythm_alignment : R
}.

Record t := mk {
  coherencePID : PIDController.t;
  arousalPID : PIDController.t
}.

Definition targetCoherence : R := 0.75.
Definition targetArousal : R := 0.3.

(** [new AdaptiveEngine()]: the two controllers are built one after the
    other, each reading the clock. *)
Definition constructor (now1 now2 : R) : t :=
  {| coherencePID := PIDController.constructor 0.3 0.05 0.1 now1;
     arousalPID := PIDController.constructor 0.4 0.08 0.15 now2 |}.

(** [optimizePattern(currentPattern, state)]; [now1] and [now2] are the
    clock readings of the two controller updates, which are only made when
    the confidence is at least 0.5. *)
Definition optimizePattern (this : t) (now1 now2 : R)
    (currentPattern : BreathPattern) (state : Vitals) : BreathPattern * t :=
  if Rgtb 0.5 (confidence state) then (currentPattern, this)
  else
    let coherence := rhythm_alignment state in
    let c := PIDController.update (coherencePID this) now1
               targetCoherence coherence in
    let a := PIDController.update (arousalPID this) now2
               targetArousal (arousal state) in
    let coherenceCorrection := fst c in
    let arousalCorrection := fst a in
    let totalCorrection :=
      coherenceCorrection * 0.6 + arousalCorrection * 0.4 in
    let adjustmentFactor := 1 + totalCorrection * 0.15 in
    let clampedFactor := Rmax 0.85 (Rmin 1.15 adjustmentFactor) in
    let optimized :=
      {| id := id currentPattern;
         label := label currentPattern;
         timings :=
           mkTimings
             (Rmax 2 (timings currentPattern inhale * clampedFactor))
             (Rmax 0 (timings currentPattern holdIn * clampedFactor))
             (Rmax 2 (timings currentPattern exhale * clampedFactor))
             (Rmax 0 (timings currentPattern holdOut * clampedFactor));
         recommendedCycles := recommendedCycles currentPattern;
         tier := tier currentPattern |} in
    (optimized, {| coherencePID := snd c; arousalPID := snd a |}).

Definition estimateResonanceFrequency (heartRate : R) : R :=
  if Rgtb 60 heartRate then 0.09
  else if Rgtb 70 heartRate then 0.10
  else 0.11.

(** [suggestPattern({ arousal, attention, timeOfDay })]. *)
Definition suggestPattern (arousal attention timeOfDay : R) : string :=
  if Rgtb arousal 0.7 then "4-7-8"
  else if Rgtb 0.3 attention && negb (Rgtb 22 timeOfDay) then "deep-relax"
  else if negb (Rgtb 6 timeOfDay) && Rgtb 9 timeOfDay then "awake"
  else "coherence".

End AdaptiveEngine.

(* ===================================================================== *)
(** ** CameraVitalsEngine: the ring buffer *)
(* ===================================================================== *)

Module RingBuffer.

Section Float32.

(** Rounding to single precision, which a [Float32Array] applies to every
    value stored. *)
Variable fround : R -> R.

(** [head] and [size] are JavaScript numbers that hold integers. *)
Record t := mk {
  buffer : list R;
  head : Z;
  size : Z
}.

(** [new RingBuffer(capacity)]: the typed array starts out as zeros. *)
Definition constructor (capacity : nat) : t :=
  {| buffer := replicate capacity 0; head := 0; size := 0 |}.

Definition buffer_length (this : t) : Z := Z.of_nat (length (buffer this)).

(** A store outside a typed array does nothing, as [<[ _ := _ ]>] does
    outside a list.  The remainder [%] takes the sign of the dividend, as
    [Z.rem] does; the buffers of the engine have a positive capacity, and
    the properties assume one. *)
Definition push (value : R) (this : t) : t :=
  let buffer := <[ Z.to_nat (head this) := fround value ]> (buffer this) in
  let head := Z.rem (head this + 1) (buffer_length this) in
  {| buffer := buffer;
     head := head;
     size := if (size this <? buffer_length this)%Z
             then (size this + 1)%Z else size this |}.

(** The entry [buffer[idx]] of [toArray]; [idx] lies inside a buffer of
    positive capacity, being a remainder. *)
Definition entry (this : t) (i : nat) : R :=
  let idx :=
    Z.rem (head this - size this + Z.of_nat i + buffer_length this)
      (buffer_length this) in
  default 0 (buffer this !! Z.to_nat idx).

Definition toArray (this : t) : list R :=
  entry this <$> seq 0 (Z.to_nat (size this)).

Definition clear (this : t) : t :=
  {| buffer := buffer this; head := 0; size := 0 |}.

(** The buffer after pushing the values of a list, first to last. *)
Definition push_all (values : list R) (this : t) : t :=
  foldl (fun rb v => push v rb) this values.

(** What a buffer of capacity [capacity] holds after the values of a list
    have been pushed: the write position and the fill level, and each of
    the latest [capacity] values in the slot of its index. *)
Definition holds_latest (capacity : nat) (values : list R) (rb : t) : Prop :=
  length (buffer rb) = capacity
  /\ head rb = Z.of_nat (length values mod capacity)
  /\ size rb = Z.of_nat (min (length values) capacity)
  /\ forall k v,
       values !! k = Some v -> (length values <= k + capacity)%nat ->
       buffer rb !! (k mod capacity)%nat = Some (fround v).

End Float32.

End RingBuffer.

(* ===================================================================== *)
(** ** The settings store: history and streak *)
(* ===================================================================== *)

Module SessionHistoryItem.

Record t := mk {
  id : string;
  timestamp : R;
  durationSec : R;
  patternId : string;
  cycles : R;
  finalBelief : BeliefState
}.

End SessionHistoryItem.

Module SettingsState.

(** The fields of [userSettings] that [registerSessionComplete] writes;
    the others are preferences that it copies. *)
Record UserSettings := mkUserSettings {
  streak : R;
  lastBreathDate : string;
  lastUsedPattern : string;
  safetyRegistry : gmap string SafetyProfile
}.

Record t := mk {
  userSettings : UserSettings;
  history : list SessionHistoryItem.t
}.

(** The state that the store starts from. *)
Definition initial : t :=
  {| userSettings :=
       {| streak := 0; lastBreathDate := EmptyString;
          lastUsedPattern := "4-7-8"; safetyRegistry := ∅ |};
     history := [] |}.

(** What the environment supplies to one call of
    [registerSessionComplete]: the state of the kernel, the clock reading
    of the lock-out branch, the id and the time stamp made for the history
    item, and the dates of [getTodayString] and [getYesterdayString]. *)
Record Env := mkEnv {
  kernelState : PureZenBKernel.RuntimeState;
  lock_now : R;
  item_id : string;
  item_now : R;
  today : string;
  yesterday : string
}.

(** [registerSessionComplete(durationSec, patternId, cycles)] as a function
    of the store's state; the registry is the one that
    [SettingsStore.registerSessionComplete] computes and hands to the
    kernel. *)
Definition registerSessionComplete (env : Env) (state : t)
    (durationSec : R) (patternId : string) (cycles : R) : t :=
  let registry :=
    SettingsStore.registerSessionComplete (lock_now env) (kernelState env)
      (safetyRegistry (userSettings state)) durationSec patternId in
  let newHistory :=
    if Rgtb durationSec 10 then
      let newItem :=
        {| SessionHistoryItem.id := item_id env;
           SessionHistoryItem.timestamp := item_now env;
           SessionHistoryItem.durationSec := durationSec;
           SessionHistoryItem.patternId := patternId;
           SessionHistoryItem.cycles := cycles;
           SessionHistoryItem.finalBelief :=
             PureZenBKernel.belief (kernelState env) |} in
      take 100 (newItem :: history state)
    else history state in
  let newStreak := streak (userSettings state) in
  let newLastDate := lastBreathDate (userSettings state) in
  let streak_and_date :=
    if Rgtb durationSec 30 then
      if String.eqb newLastDate (today env) then (newStreak, newLastDate)
      else if String.eqb newLastDate (yesterday env)
           then (newStreak + 1, today env)
           else (1, today env)
    else (newStreak, newLastDate) in
  {| history := newHistory;
     userSettings :=
       {| streak := fst streak_and_date;
          lastBreathDate := snd streak_and_date;
          lastUsedPattern := patternId;
          safetyRegistry := registry |} |}.

Definition clearHistory (state : t) : t :=
  {| userSettings := userSettings state; history := [] |}.

End SettingsState.

(* ===================================================================== *)
(** ** Footer.tsx: [isPatternLocked] *)
(* ===================================================================== *)

Module Footer.

(** [Math.ceil] of a real number. *)
Definition Math_ceil (x : R) : Z := (1 - up (- x))%Z.

(** The reasons that [isPatternLocked] gives, with the numbers that its
    messages show. *)
Inductive Reason :=
| SafetyLockActive (remainingHours : Z)
| LockedDueToAdverseEvent
| CompleteMoreSessions (n : nat)
| SystemDetectedStress
| AdvancedNeedMoreSessions (n : nat)
| RequiresGreaterStability.

Record LockState := mkLock {
  locked : bool;
  reason : option Reason
}.

Definition qualitySessions (history : list SessionHistoryItem.t)
  : list SessionHistoryItem.t :=
  List.filter (fun h => Rgtb (SessionHistoryItem.durationSec h) 60) history.

(** The entries [r === 1.0] of a resonance history. *)
Definition perfects (profile : SafetyProfile) : nat :=
  length (List.filter (fun r => if Req_dec_T r 1 then true else false)
            (resonance_history profile)).

(** The sum over [Object.values(safetyRegistry)]; the order in which the
    profiles are visited does not change a sum. *)
Definition perfectSessions (safetyRegistry : gmap string SafetyProfile)
  : nat :=
  map_fold (fun _ profile acc => (acc + perfects profile)%nat) 0%nat
    safetyRegistry.

Definition avgResonance (history : list R) : R :=
  foldl Rplus 0 history / INR (length history).

(** [isPatternLocked(pattern)] for the settings and the history that the
    component has read; [now] is the clock reading of the lock test and
    [now'] the later one of the remaining hours. *)
Definition isPatternLocked (now now' : R)
    (safetyRegistry : gmap string SafetyProfile)
    (history : list SessionHistoryItem.t) (pattern : BreathPattern)
  : LockState :=
  let record_locked :=
    match safetyRegistry !! id pattern with
    | Some record => Rgtb (safety_lock_until record) now
    | None => false
    end in
  if (tier pattern =? 1)%nat then
    match safetyRegistry !! id pattern with
    | Some record =>
      if Rgtb (safety_lock_until record) now then
        let remainingHours :=
          Math_ceil ((safety_lock_until record - now') / (1000 * 60 * 60)) in
        mkLock true (Some (SafetyLockActive remainingHours))
      else mkLock false None
    | None => mkLock false None
    end
  else
    let qualitySessions := qualitySessions history in
    if record_locked then mkLock true (Some LockedDueToAdverseEvent)
    else if (tier pattern =? 2)%nat then
      let minSessions := 5%nat in
      if (length qualitySessions <? minSessions)%nat then
        mkLock true
          (Some (CompleteMoreSessions (minSessions - length qualitySessions)))
      else
        match safetyRegistry !! id pattern with
        | Some patternRecord =>
          if (0 <? length (resonance_history patternRecord))%nat
             && Rgtb 0.4 (avgResonance (resonance_history patternRecord))
          then mkLock true (Some SystemDetectedStress)
          else mkLock false None
        | None => mkLock false None
        end
    else if (tier pattern =? 3)%nat then
      let minSessions := 20%nat in
      if (length qualitySessions <? minSessions)%nat then
        mkLock true
          (Some (AdvancedNeedMoreSessions
                   (minSessions - length qualitySessions)))
      else if (perfectSessions safetyRegistry <? 5)%nat then
        mkLock true (Some RequiresGreaterStability)
      else mkLock false None
    else mkLock false None.

End Footer.

(* ===================================================================== *)
(** * Properties *)
(* ===================================================================== *)

(** Decide every [Rmin] and [Rmax] of the goal by linear arithmetic. *)
Ltac minmax :=
  repeat match goal with
         | |- context [Rmin ?x ?y] =>
             first [ rewrite (Rmin_left x y) by lra
                   | rewrite (Rmin_right x y) by lra ]
         | |- context [Rmax ?x ?y] =>
             first [ rewrite (Rmax_left x y) by lra
                   | rewrite (Rmax_right x y) by lra ]
         end.

(** ** Real-number comparisons *)

Lemma Rgtb_true (x y : R) : Rgtb x y = true <-> x > y.
Proof. unfold Rgtb. destruct (Rgt_dec x y); split; (lra || discriminate || auto). Qed.

Lemma Rgtb_false (x y : R) : Rgtb x y = false <-> x <= y.
Proof. unfold Rgtb. destruct (Rgt_dec x y); split; (lra || discriminate || auto). Qed.

Lemma gt_Fin (x y : R) : Number.gt (Fin x) (Fin y) = Rgtb x y.
Proof. reflexivity. Qed.

(** ** Lists: the last [n] entries *)

Lemma lastn_short {A} (n : nat) (l : list A) :
  (length l <= n)%nat -> lastn n l = l.
Proof.
  intros H. unfold lastn.
  replace (length l - n)%nat with 0%nat by lia. reflexivity.
Qed.

Lemma length_lastn {A} (n : nat) (l : list A) :
  (length (lastn n l) <= n)%nat.
Proof. unfold lastn. rewrite length_drop. lia. Qed.

(** ** The safety registry *)

Lemma lookup_registerSessionComplete now ks reg d pid :
  registerSessionComplete now ks reg d pid !! pid
  = Some (update_record now (isSuccess d ks) (profile_of reg pid)).
Proof. unfold registerSessionComplete. by rewrite lookup_insert_eq. Qed.

Lemma profile_of_registerSessionComplete now ks reg d pid :
  profile_of (registerSessionComplete now ks reg d pid) pid
  = update_record now (isSuccess d ks) (profile_of reg pid).
Proof.
  unfold profile_of at 1. by rewrite lookup_registerSessionComplete.
Qed.

Lemma history_update_record now success r :
  resonance_history (update_record now success r)
  = window (resonance_history r ++ [if success then 1.0 else 0.0]).
Proof.
  unfold update_record, window.
  destruct success; simpl.
  - destruct (5 <? _)%nat; reflexivity.
  - destruct (Rgtb _ 5); simpl; destruct (5 <? _)%nat; reflexivity.
Qed.

Lemma window_lastn (h : list R) (v : R) :
  (length h <= 5)%nat -> window (h ++ [v]) = lastn 5 (h ++ [v]).
Proof.
  intros Hlen. unfold window.
  destruct (5 <? _)%nat eqn:E.
  - apply Nat.ltb_lt in E. rewrite length_app in E. simpl in E.
    unfold lastn. rewrite length_app. simpl. f_equal. lia.
  - apply Nat.ltb_ge in E. by rewrite lastn_short.
Qed.

Lemma update_record_success now r :
  cummulative_stress_score (update_record now true r)
  = cummulative_stress_score r
  /\ safety_lock_until (update_record now true r) = safety_lock_until r.
Proof. unfold update_record. simpl. destruct (5 <? _)%nat; done. Qed.

Lemma update_record_adverse_le now r :
  cummulative_stress_score r + 1 <= 5 ->
  cummulative_stress_score (update_record now false r)
  = cummulative_stress_score r + 1
  /\ safety_lock_until (update_record now false r) = safety_lock_until r.
Proof.
  intros H. apply Rgtb_false in H.
  unfold update_record. rewrite H. simpl. destruct (5 <? _)%nat; done.
Qed.

Lemma update_record_adverse_gt now r :
  cummulative_stress_score r + 1 > 5 ->
  cummulative_stress_score (update_record now false r) = 0
  /\ safety_lock_until (update_record now false r) = now + DAY_MS.
Proof.
  intros H. apply Rgtb_true in H.
  unfold update_record. rewrite H. simpl. destruct (5 <? _)%nat; done.
Qed.

Lemma complete_all_cons pid c cs reg :
  complete_all pid (c :: cs) reg
  = complete_all pid cs
      (registerSessionComplete (at_time c) (kernel_state c) reg
         (duration c) pid).
Proof. reflexivity. Qed.

Lemma complete_all_snoc pid c cs reg :
  complete_all pid (cs ++ [c]) reg
  = registerSessionComplete (at_time c) (kernel_state c)
      (complete_all pid cs reg) (duration c) pid.
Proof. unfold complete_all. by rewrite foldl_snoc. Qed.

Lemma profile_after_snoc pid c cs reg :
  profile_of (complete_all pid (cs ++ [c]) reg) pid
  = update_record (at_time c) (isSuccess (duration c) (kernel_state c))
      (profile_of (complete_all pid cs reg) pid).
Proof.
  by rewrite complete_all_snoc, profile_of_registerSessionComplete.
Qed.

(** While the score stays at or below the threshold, adverse completions
    only count up. *)
Lemma adverse_below_threshold pid cs reg :
  Forall adverse cs ->
  cummulative_stress_score (profile_of reg pid) + INR (length cs) <= 5 ->
  cummulative_stress_score (profile_of (complete_all pid cs reg) pid)
  = cummulative_stress_score (profile_of reg pid) + INR (length cs)
  /\ safety_lock_until (profile_of (complete_all pid cs reg) pid)
     = safety_lock_until (profile_of reg pid).
Proof.
  induction cs as [|c cs IH] using rev_ind; intros Hadv Hle.
  - simpl. split; [lra|done].
  - apply Forall_app in Hadv as [Hcs Hc].
    apply Forall_inv in Hc. unfold adverse in Hc.
    rewrite length_app, plus_INR in Hle |- *. simpl in Hle |- *.
    destruct IH as [IHs IHl]; [done|lra|].
    rewrite profile_after_snoc, Hc.
    destruct (update_record_adverse_le (at_time c)
                (profile_of (complete_all pid cs reg) pid)) as [Hs Hl];
      [lra|].
    rewrite Hs, Hl, IHs, IHl. split; [lra|done].
Qed.

(** The score never rests above the threshold. *)
Lemma update_record_score_range now success r :
  0 <= cummulative_stress_score r <= 5 ->
  0 <= cummulative_stress_score (update_record now success r) <= 5.
Proof.
  intros Hr. destruct success.
  - destruct (update_record_success now r) as [-> _]. done.
  - destruct (Rle_dec (cummulative_stress_score r + 1) 5) as [Hle|Hgt].
    + destruct (update_record_adverse_le now r Hle) as [-> _]. lra.
    + destruct (update_record_adverse_gt now r) as [-> _]; lra.
Qed.

Lemma score_range_complete_all pid cs reg :
  0 <= cummulative_stress_score (profile_of reg pid) <= 5 ->
  0 <= cummulative_stress_score (profile_of (complete_all pid cs reg) pid) <= 5.
Proof.
  intros Hreg. induction cs as [|c cs IH] using rev_ind; [done|].
  rewrite profile_after_snoc. by apply update_record_score_range.
Qed.

Lemma history_after_one pid reg c :
  (length (resonance_history (profile_of reg pid)) <= 5)%nat ->
  resonance_history (profile_of (complete_all pid [c] reg) pid)
  = lastn 5 (resonance_history (profile_of reg pid) ++ [outcome c]).
Proof.
  intros Hlen. simpl.
  rewrite profile_of_registerSessionComplete, history_update_record.
  by rewrite window_lastn.
Qed.

(** C7. A session completion pushes its outcome onto the pattern's
    resonance history and keeps the five most recent entries, oldest dropped
    first, whenever the profile held at most five entries; six completions
    starting from an empty history leave exactly the last five outcomes. *)
Theorem resonance_history_window :
  (forall pid reg c,
     (length (resonance_history (profile_of reg pid)) <= 5)%nat ->
     resonance_history (profile_of (complete_all pid [c] reg) pid)
     = lastn 5 (resonance_history (profile_of reg pid) ++ [outcome c])
     /\ (length (resonance_history (profile_of (complete_all pid [c] reg) pid))
         <= 5)%nat)
  /\ (forall pid reg c1 c2 c3 c4 c5 c6,
        resonance_history (profile_of reg pid) = [] ->
        resonance_history
          (profile_of (complete_all pid [c1; c2; c3; c4; c5; c6] reg) pid)
        = [outcome c2; outcome c3; outcome c4; outcome c5; outcome c6]).
Proof.
  split.
  - intros pid reg c Hlen. rewrite history_after_one by done.
    split; [done | apply length_lastn].
  - intros pid reg c1 c2 c3 c4 c5 c6 Hnil.
    cbn [complete_all foldl].
    rewrite !profile_of_registerSessionComplete, !history_update_record.
    rewrite Hnil. reflexivity.
Qed.

(** The window at work: completions of pattern [box] on an empty registry,
    the first of them too short to count as a success. *)
Lemma resonance_history_window_witness :
  (length (resonance_history (profile_of ∅ "box")) <= 5)%nat
  /\ resonance_history
       (profile_of (complete_all "box" [completion 1000 30] ∅) "box")
     = lastn 5 (resonance_history (profile_of ∅ "box")
                ++ [outcome (completion 1000 30)])
  /\ resonance_history (profile_of ∅ "box") = []
  /\ resonance_history
       (profile_of
          (complete_all "box"
             [completion 1000 30; completion 2000 60; completion 3000 60;
              completion 4000 60; completion 5000 60; completion 6000 60] ∅)
          "box")
     = [outcome (completion 2000 60); outcome (completion 3000 60);
        outcome (completion 4000 60); outcome (completion 5000 60);
        outcome (completion 6000 60)].
Proof.
  assert (H : (length (resonance_history (profile_of ∅ "box")) <= 5)%nat)
    by (vm_compute; lia).
  split; [exact H|]. split; [|split].
  - apply (proj1 resonance_history_window "box" ∅ _ H).
  - reflexivity.
  - apply (proj2 resonance_history_window "box" ∅). reflexivity.
Defined.

(** The classification of a completed session. *)
Lemma isSuccess_spec d ks :
  isSuccess d ks = true
  <-> d > 45 /\ exists pe, prediction_error (belief ks) = Fin pe /\ pe < 0.5.
Proof.
  unfold isSuccess, Number.lt. rewrite andb_true_iff, Rgtb_true.
  destruct (prediction_error (belief ks)) as [|pe]; simpl.
  - split; [intros [_ H]; discriminate | intros [_ (pe & H & _)]; discriminate].
  - change (if Rgt_dec 0.5 pe then true else false) with (Rgtb 0.5 pe).
    rewrite Rgtb_true. split.
    + intros [Hd Hpe]. split; [done|]. exists pe. split; [done|lra].
    + intros [Hd (pe' & Heq & Hpe)]. inversion Heq; subst. split; [done|lra].
Qed.

(** C3. A completed session is a success exactly when it lasted more than
    45 seconds and the final prediction error is below 0.5.  A success
    pushes 1.0 onto the pattern's resonance history and leaves score and
    lock alone; a failure pushes 0.0 and increments the cumulative stress
    score, and when the incremented score exceeds 5 the lock is set to
    now + 24 hours and the score is reset to 0.  Six consecutive adverse
    completions on a fresh profile trip the breaker exactly once: after each
    of the first five the lock is still 0 and the score counts them, and the
    sixth sets the lock and resets the score.  Between completions the score
    of a profile that started fresh never exceeds 5: it does so only inside
    a failing completion, which resets it. *)
Theorem circuit_breaker :
  (forall d ks,
     isSuccess d ks = true
     <-> d > 45
         /\ exists pe, prediction_error (belief ks) = Fin pe /\ pe < 0.5)
  /\ (forall now ks reg d pid,
        let r := profile_of reg pid in
        let r' := profile_of (registerSessionComplete now ks reg d pid) pid in
        registerSessionComplete now ks reg d pid !! pid = Some r'
        /\ (isSuccess d ks = true ->
            resonance_history r' = window (resonance_history r ++ [1.0])
            /\ cummulative_stress_score r' = cummulative_stress_score r
            /\ safety_lock_until r' = safety_lock_until r)
        /\ (isSuccess d ks = false ->
            resonance_history r' = window (resonance_history r ++ [0.0])
            /\ (cummulative_stress_score r + 1 > 5 ->
                safety_lock_until r' = now + 24 * 60 * 60 * 1000
                /\ cummulative_stress_score r' = 0)
            /\ (cummulative_stress_score r + 1 <= 5 ->
                safety_lock_until r' = safety_lock_until r
                /\ cummulative_stress_score r'
                   = cummulative_stress_score r + 1)))
  /\ (forall pid reg cs c6,
        reg !! pid = None ->
        length cs = 5%nat ->
        Forall adverse (cs ++ [c6]) ->
        (forall k, (k <= 5)%nat ->
           safety_lock_until (profile_of (complete_all pid (take k cs) reg) pid)
           = 0
           /\ cummulative_stress_score
                (profile_of (complete_all pid (take k cs) reg) pid)
              = INR k)
        /\ safety_lock_until
             (profile_of (complete_all pid (cs ++ [c6]) reg) pid)
           = at_time c6 + 24 * 60 * 60 * 1000
        /\ cummulative_stress_score
             (profile_of (complete_all pid (cs ++ [c6]) reg) pid)
           = 0)
  /\ (forall pid reg cs,
        reg !! pid = None ->
        0 <= cummulative_stress_score
               (profile_of (complete_all pid cs reg) pid) <= 5).
Proof.
  split; [exact isSuccess_spec|]. split; [|split].
  - intros now ks reg d pid r r'. subst r r'.
    rewrite lookup_registerSessionComplete,
      profile_of_registerSessionComplete.
    split; [done|]. split.
    + intros ->. rewrite history_update_record.
      destruct (update_record_success now (profile_of reg pid)). done.
    + intros ->. rewrite history_update_record. split; [done|]. split.
      * intros H.
        destruct (update_record_adverse_gt now (profile_of reg pid) H).
        done.
      * intros H.
        destruct (update_record_adverse_le now (profile_of reg pid) H).
        done.
  - intros pid reg cs c6 Hnone Hlen Hadv.
    apply Forall_app in Hadv as [Hcs Hc6]. apply Forall_inv in Hc6.
    assert (Hfresh : cummulative_stress_score (profile_of reg pid) = 0
                     /\ safety_lock_until (profile_of reg pid) = 0).
    { unfold profile_of. rewrite Hnone. done. }
    destruct Hfresh as [Hs0 Hl0].
    assert (Hprefix : forall k, (k <= 5)%nat ->
      safety_lock_until (profile_of (complete_all pid (take k cs) reg) pid) = 0
      /\ cummulative_stress_score
           (profile_of (complete_all pid (take k cs) reg) pid) = INR k).
    { intros k Hk.
      assert (Hlk : length (take k cs) = k) by (rewrite length_take; lia).
      destruct (adverse_below_threshold pid (take k cs) reg) as [Hs Hl].
      - by apply Forall_take.
      - rewrite Hs0, Hlk. apply (le_INR k 5) in Hk. simpl in Hk. lra.
      - rewrite Hs, Hl, Hs0, Hl0, Hlk. split; [done|lra]. }
    split; [exact Hprefix|].
    destruct (Hprefix 5%nat) as [_ H5]; [lia|].
    rewrite take_ge in H5 by lia.
    rewrite profile_after_snoc. unfold adverse in Hc6. rewrite Hc6.
    destruct (update_record_adverse_gt (at_time c6)
                (profile_of (complete_all pid cs reg) pid)) as [Hs Hl].
    + rewrite H5. simpl. lra.
    + rewrite Hs, Hl. unfold DAY_MS. done.
  - intros pid reg cs Hnone. apply score_range_complete_all.
    unfold profile_of. rewrite Hnone. simpl. lra.
Qed.

(** Six sessions of ten seconds of a pattern the registry has not seen. *)
Lemma circuit_breaker_witness :
  let cs := [completion 1000 10; completion 2000 10; completion 3000 10;
             completion 4000 10; completion 5000 10] in
  let c6 := completion 6000 10 in
  (∅ : gmap string SafetyProfile) !! "4-7-8" = None
  /\ length cs = 5%nat
  /\ Forall adverse (cs ++ [c6])
  /\ safety_lock_until (profile_of (complete_all "4-7-8" (cs ++ [c6]) ∅) "4-7-8")
     = 6000 + 24 * 60 * 60 * 1000
  /\ cummulative_stress_score
       (profile_of (complete_all "4-7-8" (cs ++ [c6]) ∅) "4-7-8")
     = 0.
Proof.
  intros cs c6.
  assert (Hadv : Forall adverse (cs ++ [c6])).
  { assert (H10 : adverse (completion 6000 10)).
    { unfold adverse, isSuccess. simpl.
      replace (Rgtb 10 45) with false; [reflexivity|].
      symmetry. apply Rgtb_false. lra. }
    repeat constructor; exact H10. }
  assert (Hnone : (∅ : gmap string SafetyProfile) !! "4-7-8" = None)
    by reflexivity.
  split; [exact Hnone|]. split; [reflexivity|]. split; [exact Hadv|].
  apply (proj1 (proj2 (proj2 circuit_breaker)) "4-7-8" ∅ cs c6
           Hnone eq_refl Hadv).
Defined.

(** ** The kernel: dispatch *)

Section KernelProperties.

Variable Date_now : nat -> R.
Variable throws : list Effect -> bool.

Lemma observer_ret {A} (a : A) : observer (ret a).
Proof. intros w. done. Qed.

Lemma observer_get : observer get.
Proof. intros w. done. Qed.

Lemma observer_bind {A B} (m : M A) (k : A -> M B) :
  observer m -> (forall a, observer (k a)) -> observer (bind m k).
Proof.
  intros Hm Hk w. unfold bind.
  specialize (Hm w). destruct (m w) as [[a|] w']; simpl in *.
  - destruct (Hk a w') as [H1 H2]. rewrite H1, H2. done.
  - done.
Qed.

Lemma observer_call e : observer (call throws e).
Proof. intros w. done. Qed.

Lemma observer_console_error cb : observer (console_error cb).
Proof. intros w. done. Qed.

Lemma observer_try_catch m h :
  observer m -> observer h -> observer (try_catch m h).
Proof.
  intros Hm Hh w. unfold try_catch.
  specialize (Hm w). destruct (m w) as [[a|] w']; simpl in *.
  - done.
  - destruct (Hh w') as [H1 H2]. rewrite H1, H2. done.
Qed.

Lemma observer_forEach {A} (l : list A) (f : A -> M unit) :
  (forall x, observer (f x)) -> observer (forEach l f).
Proof.
  intros Hf. induction l as [|x l IH]; simpl.
  - apply observer_ret.
  - apply observer_bind; [apply Hf | intros _; apply IH].
Qed.

Lemma observer_notify : observer (notify throws).
Proof.
  unfold notify. apply observer_bind; [apply observer_get|].
  intros k. apply observer_forEach. intros cb.
  apply observer_try_catch; [|apply observer_console_error].
  apply observer_bind; [apply observer_get|].
  intros k'. apply observer_call.
Qed.

(** The guard always answers with an event; it reads the clock and
    nothing else. *)
Lemma guard_answers e s w :
  exists ge w1,
    defaultSafetyGuard Date_now e s w = (Ok (Some ge), w1)
    /\ this w1 = this w /\ trace w1 = trace w
    /\ (reads w <= reads w1)%nat.
Proof.
  destruct e; simpl; unfold guard_rule2, guard_rule3;
    repeat (simpl; unfold bind, now, ret;
            match goal with
            | |- context [decide ?P] => destruct (decide P)
            | |- context [if ?b then _ else _] => destruct b
            | |- context [match ?m !! ?k with _ => _ end] =>
                destruct (m !! k)
            end);
    simpl; do 2 eexists; (split; [reflexivity|]); simpl;
    repeat split; lia.
Qed.

Lemma emits_ret P {A} (a : A) : emits P (ret a).
Proof. intros w. exists []. by rewrite app_nil_r. Qed.

Lemma emits_get P : emits P get.
Proof. intros w. exists []. by rewrite app_nil_r. Qed.

Lemma emits_bind P {A B} (m : M A) (k : A -> M B) :
  observer m -> emits P m -> (forall a, emits P (k a)) -> emits P (bind m k).
Proof.
  intros Hobs Hm Hk w. unfold bind.
  destruct (Hm w) as (tr1 & Htr1 & HP1). destruct (Hobs w) as [Hthis _].
  destruct (m w) as [[a|] w']; simpl in *.
  - destruct (Hk a w') as (tr2 & Htr2 & HP2).
    exists (tr1 ++ tr2). rewrite Htr2, Htr1, app_assoc. split; [done|].
    apply Forall_app. split; [done|]. by rewrite <- Hthis.
  - by exists tr1.
Qed.

Lemma emits_call P e :
  (forall k, P k e) -> emits P (call throws e).
Proof. intros HP w. exists [e]. split; [done|]. by constructor. Qed.

Lemma emits_console_error P cb :
  (forall k, P k (ConsoleError cb)) -> emits P (console_error cb).
Proof. intros HP w. exists [ConsoleError cb]. split; [done|]. by constructor. Qed.

Lemma emits_try_catch P m h :
  observer m -> emits P m -> emits P h -> emits P (try_catch m h).
Proof.
  intros Hobs Hm Hh w. unfold try_catch.
  destruct (Hm w) as (tr1 & Htr1 & HP1). destruct (Hobs w) as [Hthis _].
  destruct (m w) as [[a|] w']; simpl in *.
  - by exists tr1.
  - destruct (Hh w') as (tr2 & Htr2 & HP2).
    exists (tr1 ++ tr2). rewrite Htr2, Htr1, app_assoc. split; [done|].
    apply Forall_app. split; [done|]. by rewrite <- Hthis.
Qed.

Lemma emits_forEach P {A} (l : list A) (f : A -> M unit) :
  (forall x, x ∈ l -> observer (f x) /\ emits P (f x)) ->
  emits P (forEach l f).
Proof.
  induction l as [|x l IH]; intros Hf; simpl.
  - apply emits_ret.
  - destruct (Hf x) as [Ho He]; [by left|].
    apply emits_bind; [done|done|]. intros _. apply IH.
    intros y Hy. apply Hf. by right.
Qed.

(** Notification reaches subscribers only. *)
Lemma emits_notify : emits known_subscriber (notify throws).
Proof.
  intros w. unfold notify, bind at 1, get at 1. cbn [fst snd].
  set (P := fun (_ : Kernel) e => known_subscriber (this w) e).
  destruct (emits_forEach P (subscribers (this w))
              (fun cb =>
                 try_catch
                   (k' <- get ;; call throws (SubscriberCall cb (state k')))
                   (console_error cb))) with (w := w)
    as (tr' & Htr & HP).
  - intros cb Hcb.
    assert (Hobs : observer
                     (k' <- get ;; call throws (SubscriberCall cb (state k')))).
    { apply observer_bind; [apply observer_get|].
      intros k'. apply observer_call. }
    split.
    + apply observer_try_catch; [done|apply observer_console_error].
    + apply emits_try_catch; [done| |].
      * apply emits_bind; [apply observer_get|apply emits_get|].
        intros k'. apply emits_call. intros k0. exact Hcb.
      * apply emits_console_error. intros k0. exact Hcb.
  - by exists tr'.
Qed.

(** A dispatch, once the guard has answered, commits state and log and then
    runs a tail that only observes: the middlewares and the subscribers. *)
Lemma dispatch_tail e w ge w1 :
  defaultSafetyGuard Date_now e (state (this w)) w = (Ok (Some ge), w1) ->
  this w1 = this w ->
  exists (m : M unit) w0,
    dispatch Date_now throws e w = m w0
    /\ observer m
    /\ emits known_subscriber m
    /\ this w0
       = with_state
           (derivedFields (Date_now (reads w1)) (reduce (state (this w)) ge))
           (with_eventLog (append_log ge (eventLog (this w))) (this w))
    /\ reads w0 = S (reads w1)
    /\ trace w0 = trace w1.
Proof.
  intros Hg Hthis. unfold dispatch.
  unfold bind at 1. unfold get at 1. cbn [fst snd].
  unfold bind at 1. rewrite Hg.
  unfold bind at 1. unfold modify at 1. cbn [fst snd].
  unfold bind at 1. unfold computeDerivedFields, bind at 1, now, ret.
  cbn [fst snd this reads trace].
  unfold bind at 1. unfold modify at 1. cbn [fst snd this reads trace].
  do 2 eexists. split; [reflexivity|]. split; [|split].
  - apply observer_bind; [apply observer_get|]. intros k.
    apply observer_bind; [|intros _; apply observer_notify].
    apply observer_forEach. intros mw. apply observer_call.
  - apply emits_bind; [apply observer_get|apply emits_get|]. intros k.
    apply emits_bind; [| |intros _; apply emits_notify].
    + apply observer_forEach. intros mw. apply observer_call.
    + apply emits_forEach. intros mw _. split; [apply observer_call|].
      by apply emits_call.
  - cbn [this reads trace]. rewrite Hthis. done.
Qed.

(** What a dispatch commits, given the guard's answer. *)
Lemma dispatch_commits e w ge w1 :
  defaultSafetyGuard Date_now e (state (this w)) w = (Ok (Some ge), w1) ->
  this w1 = this w ->
  this (snd (dispatch Date_now throws e w))
  = with_state
      (derivedFields (Date_now (reads w1)) (reduce (state (this w)) ge))
      (with_eventLog (append_log ge (eventLog (this w))) (this w))
  /\ reads (snd (dispatch Date_now throws e w)) = S (reads w1).
Proof.
  intros Hg Hthis.
  destruct (dispatch_tail e w ge w1 Hg Hthis)
    as (m & w0 & -> & Hobs & _ & <- & <- & _).
  apply Hobs.
Qed.

(** A dispatch calls subscribers of the kernel only and keeps the
    subscriber set. *)
Lemma dispatch_trace e w :
  subscribers (this (snd (dispatch Date_now throws e w)))
  = subscribers (this w)
  /\ exists tr',
       trace (snd (dispatch Date_now throws e w)) = trace w ++ tr'
       /\ Forall (known_subscriber (this w)) tr'.
Proof.
  destruct (guard_answers e (state (this w)) w)
    as (ge & w1 & Hg & Hthis & Htrace & _).
  destruct (dispatch_tail e w ge w1 Hg Hthis)
    as (m & w0 & -> & Hobs & Hem & Hthis0 & _ & Htrace0).
  destruct (Hobs w0) as [-> _]. destruct (Hem w0) as (tr' & -> & HP).
  rewrite Hthis0 in *. split; [done|].
  exists tr'. rewrite Htrace0, Htrace. split; [done|].
  eapply Forall_impl; [exact HP|]. by intros [].
Qed.

(** The derived fields leave every other field alone. *)
Lemma derivedFields_fields t s :
status (derivedFields t s) = status s
/\ pattern (derivedFields t s) = pattern s
/\ phaseStartTime (derivedFields t s) = phaseStartTime s
/\ sessionStartTime (derivedFields t s) = sessionStartTime s
/\ safetyRegistry (derivedFields t s) = safetyRegistry s.
Proof. done. Qed.

Lemma guard_START_SESSION_unlocked ts s w :
status s <> SAFETY_LOCK ->
defaultSafetyGuard Date_now (START_SESSION ts) s w
= (Ok (Some (START_SESSION ts)), w).
Proof.
intros H. simpl. destruct (decide (status s = SAFETY_LOCK)); done.
Qed.

Lemma guard_START_SESSION_locked ts s w :
status s = SAFETY_LOCK ->
defaultSafetyGuard Date_now (START_SESSION ts) s w
= (Ok (Some (SAFETY_INTERDICTION 1.0 "REJECT_START" (Date_now (reads w)))),
   mkWorld (this w) (S (reads w)) (trace w)).
Proof.
intros H. simpl. destruct (decide (status s = SAFETY_LOCK)); done.
Qed.

Lemma guard_LOAD_PROTOCOL_locked pid ts s w profile :
safetyRegistry s !! pid = Some profile ->
safety_lock_until profile > Date_now (reads w) ->
defaultSafetyGuard Date_now (LOAD_PROTOCOL pid ts) s w
= (Ok (Some (SAFETY_INTERDICTION 0.8 "PATTERN_LOCKED"
               (Date_now (S (reads w))))),
   mkWorld (this w) (S (S (reads w))) (trace w)).
Proof.
intros Hreg Hlock. apply Rgtb_true in Hlock.
simpl. unfold guard_rule2, guard_rule3. rewrite Hreg.
unfold bind, now. cbn [reads this trace]. rewrite Hlock. reflexivity.
Qed.

Lemma reduce_START_SESSION s p ts :
pattern s = Some p ->
reduce s (START_SESSION ts)
= with_lastUpdateTimestamp ts
    (with_phaseStartTime ts (with_sessionStartTime ts (with_status RUNNING s))).
Proof. intros H. simpl. by rewrite H. Qed.

(** C9. With a pattern bound, reducing START_SESSION sets the status to
    RUNNING and stamps both the session and the phase start with the
    event's time stamp, whatever the current status; dispatching it does
    the same from every status but SAFETY_LOCK (so it restarts the clocks
    of a RUNNING or PAUSED session), and under SAFETY_LOCK the guard
    intercepts it: the status stays SAFETY_LOCK and the clocks are kept. *)
Theorem start_session_restarts_clocks (w : World) (p : BreathPattern) (ts : R) :
pattern (state (this w)) = Some p ->
let before := state (this w) in
let reduced := reduce before (START_SESSION ts) in
let after := state (this (snd (dispatch Date_now throws (START_SESSION ts) w))) in
(status reduced = RUNNING
 /\ sessionStartTime reduced = ts /\ phaseStartTime reduced = ts)
/\ (status before <> SAFETY_LOCK ->
    status after = RUNNING
    /\ sessionStartTime after = ts /\ phaseStartTime after = ts)
/\ (status before = SAFETY_LOCK ->
    status after = SAFETY_LOCK
    /\ sessionStartTime after = sessionStartTime before
    /\ phaseStartTime after = phaseStartTime before).
Proof.
intros Hp before reduced after. subst before reduced after.
split; [|split].
- rewrite (reduce_START_SESSION _ p) by done. done.
- intros Hst.
  pose proof (dispatch_commits _ w _ _
                (guard_START_SESSION_unlocked ts _ w Hst) eq_refl) as [Hc _].
  rewrite Hc. cbn [state with_state].
  rewrite (reduce_START_SESSION _ p) by done. done.
- intros Hst.
  pose proof (dispatch_commits _ w _ _
                (guard_START_SESSION_locked ts _ w Hst) eq_refl) as [Hc _].
  rewrite Hc. done.
Qed.

(** C1. When the registry holds a profile for the target pattern whose
    lock lies strictly after the current time, dispatching LOAD_PROTOCOL
    for that pattern leaves the bound pattern as it was, sets the status to
    SAFETY_LOCK, and appends to the log exactly one event, the
    SAFETY_INTERDICTION with action PATTERN_LOCKED and risk level 0.8,
    which is therefore the last logged event; the state committed is the
    reduction of that interdiction, not of the LOAD_PROTOCOL. *)
Theorem lockout_enforcement (w : World) (pid : string) (ts : R)
  (profile : SafetyProfile) :
safetyRegistry (state (this w)) !! pid = Some profile ->
safety_lock_until profile > Date_now (reads w) ->
let w' := snd (dispatch Date_now throws (LOAD_PROTOCOL pid ts) w) in
let interdiction :=
  SAFETY_INTERDICTION 0.8 "PATTERN_LOCKED" (Date_now (S (reads w))) in
pattern (state (this w')) = pattern (state (this w))
/\ status (state (this w')) = SAFETY_LOCK
/\ last (eventLog (this w')) = Some interdiction
/\ eventLog (this w') = append_log interdiction (eventLog (this w))
/\ state (this w')
   = derivedFields (Date_now (S (S (reads w))))
       (reduce (state (this w)) interdiction).
Proof.
intros Hreg Hlock w' interdiction. subst w' interdiction.
pose proof (dispatch_commits _ w _ _
              (guard_LOAD_PROTOCOL_locked pid ts _ w profile Hreg Hlock)
              eq_refl) as [Hc _].
rewrite Hc.
cbn [state eventLog with_state with_eventLog reads].
split; [done|]. split; [done|]. split; [|done].
unfold append_log. destruct (_ <? _)%nat eqn:E.
- apply Nat.ltb_lt in E. rewrite length_app in E. simpl in E.
  unfold MAX_LOG_SIZE in E.
  destruct (eventLog (this w)) as [|e0 l]; [simpl in E; lia|].
  simpl. rewrite drop_0. destruct l; [simpl in E; lia|].
  by rewrite last_snoc.
- by rewrite last_snoc.
Qed.

(** C5 (as amended). After every dispatch the committed state's derived
    fields are computed from one reading of the clock taken during that
    dispatch: phaseElapsed is the time since phaseStartTime in seconds,
    floored at 0, when the status is RUNNING and 0 otherwise; sessionDuration
    is the time since sessionStartTime in seconds, floored at 0, when
    sessionStartTime is positive and 0 otherwise, whatever the status. *)
Theorem derived_fields_after_dispatch (e : KernelEvent) (w : World) :
  let after := state (this (snd (dispatch Date_now throws e w))) in
  exists n,
    (reads w <= n < reads (snd (dispatch Date_now throws e w)))%nat
    /\ phaseElapsed after
       = (if decide (status after = RUNNING)
          then Rmax 0 ((Date_now n - phaseStartTime after) / 1000)
          else 0)
    /\ sessionDuration after
       = (if Rgtb (sessionStartTime after) 0
          then Rmax 0 ((Date_now n - sessionStartTime after) / 1000)
          else 0)
    /\ (status after <> RUNNING -> phaseElapsed after = 0)
    /\ (sessionStartTime after <= 0 -> sessionDuration after = 0).
Proof.
  intros after. subst after.
  destruct (guard_answers e (state (this w)) w)
    as (ge & w1 & Hg & Hthis & _ & Hreads).
  destruct (dispatch_commits e w ge w1 Hg Hthis) as [-> ->].
  exists (reads w1). cbn [state with_state].
  split; [lia|]. split; [done|]. split; [done|]. split.
  - intros Hst. cbn. destruct (decide _); done.
  - intros Hss. apply Rgtb_false in Hss. cbn in *. by rewrite Hss.
Qed.

(** ** The kernel: pause and resume *)

(** RESUME measures the pause from the time stamp of the last event that
    was reduced. *)
Lemma reduce_RESUME s tr :
  status s = PAUSED ->
  status (reduce s (RESUME tr)) = RUNNING
  /\ phaseStartTime (reduce s (RESUME tr))
     = phaseStartTime s + (tr - lastUpdateTimestamp s).
Proof. intros H. simpl. rewrite H. done. Qed.

(** When RESUME is the next event after the INTERRUPTION, the phase start
    moves by the length of the pause. *)
Lemma resume_right_after_pause s k tp tr :
  status s = RUNNING ->
  let paused := reduce s (INTERRUPTION k tp) in
  status paused = PAUSED
  /\ status (reduce paused (RESUME tr)) = RUNNING
  /\ phaseStartTime (reduce paused (RESUME tr))
     = phaseStartTime s + (tr - tp).
Proof. intros H. simpl. rewrite H. done. Qed.

(** ** The kernel: subscribers *)

Lemma calls_to_app cb tr tr' :
  calls_to cb (tr ++ tr') = calls_to cb tr ++ calls_to cb tr'.
Proof. apply List.filter_app. Qed.

Lemma calls_to_unknown cb k tr :
  cb ∉ subscribers k -> Forall (known_subscriber k) tr -> calls_to cb tr = [].
Proof.
  intros Hcb. induction 1 as [|e tr He _ IH]; [done|].
  unfold calls_to in *. simpl. rewrite IH.
  destruct e as [| c s |]; try done.
  simpl in He. rewrite bool_decide_eq_false_2; [done|]. by intros ->.
Qed.

Lemma dispatch_all_unsubscribed cb events w :
  cb ∉ subscribers (this w) ->
  calls_to cb (trace (dispatch_all Date_now throws events w))
  = calls_to cb (trace w).
Proof.
  revert w. induction events as [|e events IH]; intros w Hcb; [done|].
  unfold dispatch_all in *. simpl.
  destruct (dispatch_trace e w) as (Hsubs & tr' & Htr & HP).
  rewrite IH by (by rewrite Hsubs).
  rewrite Htr, calls_to_app, (calls_to_unknown cb (this w) tr') by done.
  by rewrite app_nil_r.
Qed.

Lemma elem_of_set_add cb c subs :
  c ∈ set_add cb subs <-> c = cb \/ c ∈ subs.
Proof.
  unfold set_add. destruct (decide (cb ∈ subs)).
  - split; [by right|]. by intros [->|].
  - rewrite elem_of_app, list_elem_of_singleton. tauto.
Qed.

Lemma elem_of_set_delete cb c subs :
  c ∈ set_delete cb subs <-> c <> cb /\ c ∈ subs.
Proof. unfold set_delete. rewrite list_elem_of_filter. tauto. Qed.

(** C10. subscribe(callback) calls the callback exactly once, with the
    current state, and changes neither state nor log; when that call
    returns normally subscribe returns the unsubscribe function, with the
    callback in the subscriber set.  Whenever it is called, the unsubscribe
    function removes the callback from the set, keeps every other
    subscriber, calls nobody, and from then on no dispatch calls the
    callback. *)
Theorem subscribe_contract (w : World) (cb : Callback) :
  let invocation := SubscriberCall cb (state (this w)) in
  let w1 := snd (subscribe throws cb w) in
  trace w1 = trace w ++ [invocation]
  /\ state (this w1) = state (this w)
  /\ eventLog (this w1) = eventLog (this w)
  /\ cb ∈ subscribers (this w1)
  /\ (throws (trace w ++ [invocation]) = false ->
      exists unsub : M bool,
        fst (subscribe throws cb w) = Ok unsub
        /\ forall w2,
             let w3 := snd (unsub w2) in
             (cb ∉ subscribers (this w3))
             /\ (forall c, c <> cb ->
                   (c ∈ subscribers (this w3) <-> c ∈ subscribers (this w2)))
             /\ trace w3 = trace w2
             /\ state (this w3) = state (this w2)
             /\ forall events,
                  calls_to cb (trace (dispatch_all Date_now throws events w3))
                  = calls_to cb (trace w3)).
Proof.
  intros invocation w1. subst invocation w1.
  unfold subscribe, bind, modify, get, call. cbn [fst snd this reads trace state with_subscribers].
  destruct (throws _) eqn:Hthrows; cbn [fst snd this trace state subscribers eventLog].
  - repeat (split; [done || (apply elem_of_set_add; by left)|]).
    discriminate.
  - repeat (split; [done || (apply elem_of_set_add; by left)|]).
    intros _. eexists. split; [reflexivity|].
    intros w2. cbn [snd unsubscribe]. unfold unsubscribe, bind, modify, get, ret.
    cbn [fst snd this reads trace state with_subscribers subscribers].
    split; [|split; [|split; [done|split; [done|]]]].
    + rewrite elem_of_set_delete. tauto.
    + intros c Hc. rewrite elem_of_set_delete. tauto.
    + intros events.
      apply (dispatch_all_unsubscribed cb events (mkWorld _ _ _)).
      cbn. rewrite elem_of_set_delete. tauto.
Qed.

End KernelProperties.

(** ** The kernel at work *)

Lemma running_state_fields :
  status running_state = RUNNING
  /\ pattern running_state = Some (mkPattern "box" "Focus" (mkTimings 4 4 4 4) 6 1)
  /\ phaseStartTime running_state = 1000
  /\ sessionStartTime running_state = 1000
  /\ lastUpdateTimestamp running_state = 1000.
Proof. cbn. done. Qed.

(** Pattern [4-7-8] is locked until [6000] and loaded at [5000]. *)
Lemma lockout_enforcement_witness :
  let w := world_of locked_state in
  let w' :=
    snd (dispatch (clock_from 5000) no_throw (LOAD_PROTOCOL "4-7-8" 5000) w) in
  safetyRegistry (state (this w)) !! "4-7-8"
  = Some (mkSafetyProfile "4-7-8" 0 0 6000 [0; 0; 0; 0; 0])
  /\ 6000 > clock_from 5000 (reads w)
  /\ pattern (state (this w')) = None
  /\ status (state (this w')) = SAFETY_LOCK
  /\ last (eventLog (this w'))
     = Some (SAFETY_INTERDICTION 0.8 "PATTERN_LOCKED" (clock_from 5000 1)).
Proof.
  intros w w'.
  assert (Hreg : safetyRegistry (state (this w)) !! "4-7-8"
                 = Some (mkSafetyProfile "4-7-8" 0 0 6000 [0; 0; 0; 0; 0]))
    by reflexivity.
  assert (Hlock : safety_lock_until
                    (mkSafetyProfile "4-7-8" 0 0 6000 [0; 0; 0; 0; 0])
                  > clock_from 5000 (reads w))
    by (unfold clock_from; simpl; lra).
  destruct (lockout_enforcement (clock_from 5000) no_throw w "4-7-8" 5000 _
              Hreg Hlock) as (Hp & Hs & Hl & _).
  split; [exact Hreg|]. split; [exact Hlock|].
  split; [exact Hp|]. split; [exact Hs|exact Hl].
Defined.

(** START_SESSION dispatched into the session that is already running. *)
Lemma start_session_restarts_clocks_witness :
  let w := world_of running_state in
  let after :=
    state (this (snd (dispatch (clock_from 9000) no_throw
                        (START_SESSION 9000) w))) in
  pattern (state (this w))
  = Some (mkPattern "box" "Focus" (mkTimings 4 4 4 4) 6 1)
  /\ status (state (this w)) = RUNNING
  /\ sessionStartTime (state (this w)) = 1000
  /\ status after = RUNNING
  /\ sessionStartTime after = 9000
  /\ phaseStartTime after = 9000.
Proof.
  intros w after.
  assert (Hp : pattern (state (this w))
               = Some (mkPattern "box" "Focus" (mkTimings 4 4 4 4) 6 1))
    by reflexivity.
  assert (Hst : status (state (this w)) = RUNNING) by reflexivity.
  destruct (start_session_restarts_clocks (clock_from 9000) no_throw w _ 9000 Hp)
    as (_ & Hafter & _).
  split; [exact Hp|]. split; [exact Hst|]. split; [reflexivity|].
  apply Hafter. rewrite Hst. discriminate.
Defined.

(** C5, the claim as stated fails.  The running session is paused at time
    [6000], five seconds after it started: the state committed by that
    dispatch has status PAUSED, its phaseElapsed is 0, and its
    sessionDuration is 5, not 0. *)
Lemma derived_fields_counterexample :
  let after :=
    state (this (snd (dispatch (clock_from 6000) no_throw
                        (INTERRUPTION kind_pause 6000)
                        (world_of running_state)))) in
  status after = PAUSED
  /\ phaseElapsed after = 0
  /\ sessionDuration after = 5
  /\ ~ (status after <> RUNNING ->
        phaseElapsed after = 0 /\ sessionDuration after = 0).
Proof.
  intros after.
  assert (Hafter : after
                   = derivedFields (clock_from 6000 0)
                       (reduce running_state (INTERRUPTION kind_pause 6000))).
  { subst after.
    destruct (dispatch_commits (clock_from 6000) no_throw
                (INTERRUPTION kind_pause 6000) (world_of running_state)
                (INTERRUPTION kind_pause 6000) (world_of running_state)
                eq_refl eq_refl) as [-> _].
    reflexivity. }
  assert (Hst : status after = PAUSED) by (rewrite Hafter; reflexivity).
  assert (Hpe : phaseElapsed after = 0) by (rewrite Hafter; reflexivity).
  assert (Hsd : sessionDuration after = 5).
  { rewrite Hafter.
    change (sessionDuration (derivedFields ?t ?s))
      with (if Rgtb (sessionStartTime s) 0
            then Rmax 0 ((t - sessionStartTime s) / 1000) else 0).
    replace (sessionStartTime
               (reduce running_state (INTERRUPTION kind_pause 6000)))
      with 1000 by reflexivity.
    unfold clock_from. simpl INR.
    replace (Rgtb 1000 0) with true by (symmetry; apply Rgtb_true; lra).
    rewrite Rmax_right by lra. lra. }
  split; [done|]. split; [done|]. split; [done|].
  intros H. destruct H as [_ H]; [by rewrite Hst|]. lra.
Qed.

(** The derived fields of the same paused session. *)
Lemma derived_fields_after_dispatch_witness :
  let w := world_of running_state in
  let e := INTERRUPTION kind_pause 6000 in
  let after := state (this (snd (dispatch (clock_from 6000) no_throw e w))) in
  exists n,
    (reads w <= n < reads (snd (dispatch (clock_from 6000) no_throw e w)))%nat
    /\ phaseElapsed after
       = (if decide (status after = RUNNING)
          then Rmax 0 ((clock_from 6000 n - phaseStartTime after) / 1000)
          else 0)
    /\ sessionDuration after
       = (if Rgtb (sessionStartTime after) 0
          then Rmax 0 ((clock_from 6000 n - sessionStartTime after) / 1000)
          else 0).
Proof.
  intros w e after.
  destruct (derived_fields_after_dispatch (clock_from 6000) no_throw e w)
    as (n & Hn & Hpe & Hsd & _).
  exists n. split; [exact Hn|]. split; [exact Hpe|exact Hsd].
Defined.

(** C2, the code at the failing input.  A session of [box] starts at
    [1000] and is paused at [2500], so 1.5 s of the phase have elapsed; the
    registry is reloaded at [5000] while the session is paused; the session
    is resumed at [7500].  The reducer moves the phase start by
    [7500 - 5000], the time since the reload, not by the length of the
    pause [7500 - 2500]: 4 s of the phase count as elapsed at the moment of
    the resume. *)
Theorem resume_after_intervening_event :
  let s := foldl reduce idle_state paused_session in
  status s = RUNNING
  /\ phaseStartTime s = 1000 + (7500 - 5000)
  /\ phaseStartTime s <> 1000 + (7500 - 2500)
  /\ (7500 - phaseStartTime s) / 1000 = 4.
Proof.
  intros s.
  assert (Hstart : phaseStartTime s = 1000 + (7500 - 5000)) by reflexivity.
  split; [reflexivity|]. split; [exact Hstart|]. rewrite Hstart. split; lra.
Qed.

(** Subscriber [7] subscribes to the idle kernel, unsubscribes, and two
    events are dispatched. *)
Lemma subscribe_contract_witness :
  let w := world_of idle_state in
  let w1 := snd (subscribe no_throw 7%nat w) in
  no_throw (trace w ++ [SubscriberCall 7%nat (state (this w))]) = false
  /\ trace w1 = [SubscriberCall 7%nat idle_state]
  /\ exists unsub : M bool,
       fst (subscribe no_throw 7%nat w) = Ok unsub
       /\ (7%nat ∉ subscribers (this (snd (unsub w1))))
       /\ calls_to 7%nat
            (trace (dispatch_all (clock_from 0) no_throw
                      [BOOT 1; HALT "cleanup" 2] (snd (unsub w1))))
          = calls_to 7%nat (trace (snd (unsub w1))).
Proof.
  intros w w1.
  destruct (subscribe_contract (clock_from 0) no_throw w 7%nat)
    as (Htr & _ & _ & _ & Hunsub).
  split; [reflexivity|]. split; [exact Htr|].
  destruct (Hunsub eq_refl) as (unsub & Hok & Hlater).
  exists unsub. split; [exact Hok|].
  destruct (Hlater w1) as (Hout & _ & _ & _ & Hquiet).
  split; [exact Hout | apply Hquiet].
Defined.

(** ** Numbers *)

Lemma clamp_Fin (x : R) : ASE.clamp (Fin x) = Fin (Rmax 0 (Rmin 1 x)).
Proof. reflexivity. Qed.

Lemma clamp_range (x : R) : 0 <= Rmax 0 (Rmin 1 x) <= 1.
Proof.
  split; [apply Rmax_l|].
  apply Rmax_lub; [lra | apply Rmin_l].
Qed.

Lemma div_Fin (x y : R) : y <> 0 -> (Fin x / Fin y)%js = Fin (x / y).
Proof. intros H. unfold Number.div. by destruct (Req_dec_T y 0). Qed.

Lemma Int_part_small (x : R) : 0 <= x < 1 -> Int_part x = 0%Z.
Proof. intros H. symmetry. apply Int_part_spec. simpl. lra. Qed.

Lemma Math_pow_2 (x : R) : Math_pow (Fin x) (Fin 2) = Fin (x * x).
Proof.
  unfold Math_pow.
  destruct (Req_dec_T 2 0) as [H|_]; [lra|].
  destruct (Rlt_dec 0 x) as [Hpos|Hneg].
  - f_equal. change 2 with (INR 2). rewrite Rpower_pow by done. ring.
  - destruct (Req_dec_T x 0) as [->|Hx].
    + destruct (Rlt_dec 0 2); [f_equal; ring|lra].
    + assert (Hi : Int_part 2 = 2%Z).
      { symmetry. apply Int_part_spec. lra. }
      rewrite Hi. destruct (Req_dec_T 2 2); [|lra].
      f_equal. simpl. ring.
Qed.

Lemma Math_pow_third (x : R) :
  Math_pow (Fin x) (Fin (1 / 3))
  = if Rlt_dec x 0 then NaN else Fin (cube_root x).
Proof.
  unfold Math_pow, cube_root.
  destruct (Req_dec_T (1 / 3) 0) as [H|_]; [lra|].
  destruct (Rlt_dec 0 x) as [Hpos|Hnpos].
  - destruct (Rlt_dec x 0); [lra|done].
  - destruct (Req_dec_T x 0) as [->|Hx].
    + destruct (Rlt_dec 0 (1 / 3)); [|lra].
      destruct (Rlt_dec 0 0); [lra|done].
    + destruct (Rlt_dec x 0); [|lra].
      rewrite (Int_part_small (1 / 3)) by lra.
      destruct (Req_dec_T (1 / 3) 0); [lra|done].
Qed.

Lemma cube_root_nonneg (x : R) : 0 <= cube_root x.
Proof.
  unfold cube_root. destruct (Rlt_dec 0 x); [|lra].
  unfold Rpower. left. apply exp_pos.
Qed.

Lemma cube_root_cube (x : R) : 0 <= x -> cube_root x ^ 3 = x.
Proof.
  intros Hx. unfold cube_root. destruct (Rlt_dec 0 x) as [Hpos|Hnpos].
  - rewrite <- Rpower_pow by (unfold Rpower; apply exp_pos).
    rewrite Rpower_mult. replace (1 / 3 * INR 3) with 1 by (simpl; lra).
    by apply Rpower_1.
  - replace x with 0 by lra. ring.
Qed.

Lemma Math_sqrt_Fin (x : R) : 0 <= x -> Math_sqrt (Fin x) = Fin (sqrt x).
Proof. intros H. unfold Math_sqrt. destruct (Rlt_dec x 0); [lra|done]. Qed.

(** The Kalman update keeps a variance positive. *)
Lemma kalman_variance (v n : R) :
  0 < v -> 0 < n -> 0 < (1 - v / (v + n)) * v.
Proof.
  intros Hv Hn.
  replace ((1 - v / (v + n)) * v) with (n * v / (v + n)) by (field; lra).
  apply Rdiv_lt_0_compat; nra.
Qed.

(** ** The estimator: one update *)

Lemma setProtocol_belief p est :
  ASE.belief (ASE.setProtocol p est) = ASE.belief est.
Proof. by destruct p. Qed.

Lemma setProtocol_target p est :
  exists k, ASE.target (ASE.setProtocol p est) = ASE.PROTOCOL_TARGETS k.
Proof.
  destruct p as [p|]; [|by exists ASE.default].
  unfold ASE.setProtocol.
  destruct (ASE.PATTERN_TO_TARGET (id p)) as [k|];
    [by exists k | by exists ASE.default].
Qed.

Lemma estimator_ok_setProtocol p est :
  estimator_ok est -> estimator_ok (ASE.setProtocol p est).
Proof. unfold estimator_ok. by rewrite setProtocol_belief. Qed.

Lemma estimator_ok_constructor : estimator_ok ASE.constructor.
Proof.
  unfold estimator_ok, finite, positive. simpl.
  repeat split; eexists; (reflexivity || (split; [reflexivity|lra])).
Qed.

(** The prediction: clamped estimates, variances grown by the process
    noise. *)
Lemma predict_shape est dt :
  estimator_ok est -> 0 <= dt ->
  exists a t r va vt vr,
    ASE.predict est dt = mkBelief (Fin a) (Fin t) (Fin r)
                           (Fin va) (Fin vt) (Fin vr) (Fin 0) (Fin 0)
    /\ 0 <= a <= 1 /\ 0 <= t <= 1 /\ 0 <= r <= 1
    /\ 0 < va /\ 0 < vt /\ 0 < vr.
Proof.
  intros ([a Ha] & [t Ht] & [r Hr] & (va & Hva & Hpa) & (vt & Hvt & Hpt)
          & (vr & Hvr & Hpr)) Hdt.
  unfold ASE.predict. rewrite Ha, Ht, Hr, Hva, Hvt, Hvr. simpl.
  do 6 eexists. split; [reflexivity|].
  unfold ASE.PROCESS_NOISE.
  repeat split; try apply clamp_range; nra.
Qed.

(** The correction keeps that shape, whatever the observation. *)
Lemma correct_shape (a t r va vt vr : R) (pe c : number) obs dt :
  0 <= a <= 1 -> 0 <= t <= 1 -> 0 <= r <= 1 ->
  0 < va -> 0 < vt -> 0 < vr -> 0 <= dt ->
  exists a' t' r' va' vt' vr',
    ASE.correct (mkBelief (Fin a) (Fin t) (Fin r) (Fin va) (Fin vt) (Fin vr)
                   pe c) obs dt
    = mkBelief (Fin a') (Fin t') (Fin r') (Fin va') (Fin vt') (Fin vr') pe c
    /\ 0 <= a' <= 1 /\ 0 <= t' <= 1 /\ 0 <= r' <= 1
    /\ 0 < va' /\ 0 < vt' /\ 0 < vr'.
Proof.
  intros Ha Ht Hr Hva Hvt Hvr Hdt.
  assert (Hk1 : va + ASE.MEASUREMENT_NOISE_HR <> 0)
    by (unfold ASE.MEASUREMENT_NOISE_HR; lra).
  assert (Hk2 : vt + ASE.MEASUREMENT_NOISE_CONTEXT <> 0)
    by (unfold ASE.MEASUREMENT_NOISE_CONTEXT; lra).
  assert (Hv1 := kalman_variance va ASE.MEASUREMENT_NOISE_HR Hva).
  assert (Hv2 := kalman_variance vt ASE.MEASUREMENT_NOISE_CONTEXT Hvt).
  unfold ASE.MEASUREMENT_NOISE_HR in Hv1.
  unfold ASE.MEASUREMENT_NOISE_CONTEXT in Hv2.
  unfold ASE.correct, ASE.correct_arousal.
  destruct (heart_rate obs) as [hr|], (hr_confidence obs) as [hc|];
    try destruct (Rgtb hc 0.5);
    destruct (ASE.isDistracted obs);
    cbn [arousal attention rhythm_alignment arousal_variance
         attention_variance rhythm_variance prediction_error confidence
         Number.add Number.sub Number.mul lift2 Math_max Math_min];
    rewrite ?clamp_Fin;
    cbn [Number.add Number.sub Number.mul lift2 Math_max Math_min];
    rewrite ?div_Fin by done;
    cbn [Number.add Number.sub Number.mul lift2 Math_max Math_min];
    rewrite ?clamp_Fin;
    (do 6 eexists; split; [reflexivity|]);
    repeat split; try apply clamp_range;
    try (apply Hv1; lra); try (apply Hv2; lra); try lra;
    try (eapply Rlt_le_trans; [|apply Rmax_l]; lra).
Qed.

(** The weighted squared distance of the estimates from the target. *)
Lemma prediction_error_shape est (a t r : R) (va vt vr pe c : number) :
  ASE.computePredictionError est (mkBelief (Fin a) (Fin t) (Fin r) va vt vr pe c)
  = Fin (sqrt (0.4 * ((a - TargetState.arousal (ASE.target est))
                      * (a - TargetState.arousal (ASE.target est)))
               + 0.3 * ((t - TargetState.attention (ASE.target est))
                        * (t - TargetState.attention (ASE.target est)))
               + 0.3 * ((r - TargetState.rhythm_alignment (ASE.target est))
                        * (r - TargetState.rhythm_alignment (ASE.target est))))).
Proof.
  unfold ASE.computePredictionError.
  cbn [arousal attention rhythm_alignment Number.sub lift2].
  rewrite !Math_pow_2. cbn [Number.add Number.mul lift2].
  apply Math_sqrt_Fin.
  assert (H1 := Rle_0_sqr (a - TargetState.arousal (ASE.target est))).
  assert (H2 := Rle_0_sqr (t - TargetState.attention (ASE.target est))).
  assert (H3 := Rle_0_sqr (r - TargetState.rhythm_alignment (ASE.target est))).
  unfold Rsqr in *. lra.
Qed.

Lemma sq_dist_le (x t : R) :
  0 <= x <= 1 -> (x - t) * (x - t) <= (max_err t)².
Proof.
  intros Hx. unfold max_err, Rsqr.
  assert (H1 := Rmax_l t (1 - t)). assert (H2 := Rmax_r t (1 - t)).
  set (m := Rmax t (1 - t)) in *.
  assert (Hlo : - m <= x - t) by lra.
  assert (Hhi : x - t <= m) by lra.
  nra.
Qed.

Lemma sqrt_mse_le tg (a t r : R) :
  0 <= a <= 1 -> 0 <= t <= 1 -> 0 <= r <= 1 ->
  0 <= sqrt (0.4 * ((a - TargetState.arousal tg) * (a - TargetState.arousal tg))
             + 0.3 * ((t - TargetState.attention tg)
                      * (t - TargetState.attention tg))
             + 0.3 * ((r - TargetState.rhythm_alignment tg)
                      * (r - TargetState.rhythm_alignment tg)))
  <= sqrt (max_mse tg).
Proof.
  intros Ha Ht Hr. split; [apply sqrt_pos|].
  assert (H1 := sq_dist_le a (TargetState.arousal tg) Ha).
  assert (H2 := sq_dist_le t (TargetState.attention tg) Ht).
  assert (H3 := sq_dist_le r (TargetState.rhythm_alignment tg) Hr).
  apply sqrt_le_1_alt. unfold max_mse. lra.
Qed.

(** For each of the four targets the bound stays below the threshold of
    the emergency halt. *)
Lemma max_mse_PROTOCOL_TARGETS k :
  sqrt (max_mse (ASE.PROTOCOL_TARGETS k)) < 0.95.
Proof.
  replace 0.95 with (sqrt (0.95 * 0.95)) by (apply sqrt_square; lra).
  assert (Hmse : 0 <= max_mse (ASE.PROTOCOL_TARGETS k) < 0.95 * 0.95).
  { unfold max_mse, max_err, Rsqr.
    destruct k; simpl; unfold Rmax;
      repeat match goal with
             | |- context [Rle_dec ?x ?y] => destruct (Rle_dec x y)
             end; lra. }
  apply sqrt_lt_1; lra.
Qed.

Lemma or_else_sensor_quality obs :
  or_else (ASE.sensor_quality obs) (Fin 1) = Fin (used_sensor_quality obs).
Proof.
  unfold or_else, ASE.sensor_quality, used_sensor_quality, truthy.
  destruct (hr_confidence obs) as [c|].
  - by destruct (Req_dec_T c 0).
  - destruct (Req_dec_T 0 0); [done|lra].
Qed.

(** The confidence of a belief with real attention and variances. *)
Lemma confidence_shape (a r pe c : number) (t va vt vr : R) obs :
  ASE.computeConfidence (mkBelief a (Fin t) r (Fin va) (Fin vt) (Fin vr) pe c)
    obs
  = let p := (1 - Rmin 1 ((va + vt + vr) / 3)) * used_sensor_quality obs * t in
    if Rlt_dec p 0 then NaN else Fin (Rmax 0 (Rmin 1 (cube_root p))).
Proof.
  unfold ASE.computeConfidence. rewrite or_else_sensor_quality.
  cbn [attention arousal_variance attention_variance rhythm_variance
       Number.add lift2].
  rewrite div_Fin by lra.
  cbn [Math_min Number.sub Number.mul lift2].
  rewrite Math_pow_third. cbv zeta.
  destruct (Rlt_dec _ 0); [done|]. apply clamp_Fin.
Qed.

Lemma certainty_nonneg (va vt vr : R) :
  0 <= 1 - Rmin 1 ((va + vt + vr) / 3).
Proof. assert (H := Rmin_l 1 ((va + vt + vr) / 3)). lra. Qed.

(** One update: the belief returned is the belief stored, the estimates
    are real numbers in [0,1], the variances stay positive, the prediction
    error is the square root of the weighted squared distance. *)
Lemma update_shape est obs dt :
  estimator_ok est -> 0 <= dt ->
  exists a t r va vt vr,
    0 <= a <= 1 /\ 0 <= t <= 1 /\ 0 <= r <= 1
    /\ 0 < va /\ 0 < vt /\ 0 < vr
    /\ ASE.update est obs dt
       = (let b :=
            mkBelief (Fin a) (Fin t) (Fin r) (Fin va) (Fin vt) (Fin vr)
              (ASE.computePredictionError est
                 (mkBelief (Fin a) (Fin t) (Fin r) (Fin va) (Fin vt) (Fin vr)
                    (Fin 0) (Fin 0)))
              (ASE.computeConfidence
                 (mkBelief (Fin a) (Fin t) (Fin r) (Fin va) (Fin vt) (Fin vr)
                    (Fin 0) (Fin 0)) obs) in
          (b, ASE.mkEstimator b (ASE.target est))).
Proof.
  intros Hok Hdt.
  destruct (predict_shape est dt Hok Hdt)
    as (a0 & t0 & r0 & va0 & vt0 & vr0 & Hp & Ha0 & Ht0 & Hr0 & Hva0 & Hvt0
        & Hvr0).
  destruct (correct_shape a0 t0 r0 va0 vt0 vr0 (Fin 0) (Fin 0) obs dt)
    as (a & t & r & va & vt & vr & Hc & Ha & Ht & Hr & Hva & Hvt & Hvr);
    try done.
  exists a, t, r, va, vt, vr. repeat (split; [done|]).
  unfold ASE.update. rewrite Hp, Hc. reflexivity.
Qed.

Lemma update_ok est obs dt :
  estimator_ok est -> 0 <= dt ->
  let b := fst (ASE.update est obs dt) in
  estimator_ok (snd (ASE.update est obs dt))
  /\ ASE.belief (snd (ASE.update est obs dt)) = b
  /\ ASE.target (snd (ASE.update est obs dt)) = ASE.target est
  /\ estimates_bounded b
  /\ (exists pe, prediction_error b = Fin pe
                 /\ 0 <= pe <= sqrt (max_mse (ASE.target est)))
  /\ (confidence_not_negative obs -> unit_interval (confidence b)).
Proof.
  intros Hok Hdt b. subst b.
  destruct (update_shape est obs dt Hok Hdt)
    as (a & t & r & va & vt & vr & Ha & Ht & Hr & Hva & Hvt & Hvr & ->).
  cbn [fst snd ASE.belief ASE.target].
  rewrite prediction_error_shape, confidence_shape.
  assert (Hpe := sqrt_mse_le (ASE.target est) a t r Ha Ht Hr).
  split; [|split; [done|split; [done|split; [|split]]]].
  - unfold estimator_ok, finite, positive. cbn.
    repeat split; eauto.
  - unfold estimates_bounded, unit_interval, nonnegative. cbn.
    repeat split; eauto. eexists. split; [reflexivity|]. tauto.
  - cbn. eauto.
  - intros Hobs. cbn [confidence]. cbv zeta.
    assert (Hsq : 0 <= used_sensor_quality obs).
    { unfold used_sensor_quality, confidence_not_negative in *.
      destruct (hr_confidence obs) as [c|]; [|lra].
      destruct (Req_dec_T c 0); lra. }
    assert (Hcert := certainty_nonneg va vt vr).
    destruct (Rlt_dec _ 0) as [Hneg|_].
    + exfalso.
      assert (0 <= (1 - Rmin 1 ((va + vt + vr) / 3))
                   * used_sensor_quality obs * t); [|lra].
      apply Rmult_le_pos; [apply Rmult_le_pos|]; lra.
    + eexists. split; [reflexivity|]. apply clamp_range.
Qed.

(** ** The estimator: sequences of updates *)

Lemma run_Forall (Q : ASE.Step -> Prop)
    (P : BeliefState * ASE.Estimator -> Prop) :
  (forall est s,
     estimator_ok est -> Q s ->
     P (ASE.update (ASE.setProtocol (ASE.step_pattern s) est)
          (ASE.step_obs s) (ASE.step_dt s))
     /\ estimator_ok
          (snd (ASE.update (ASE.setProtocol (ASE.step_pattern s) est)
                  (ASE.step_obs s) (ASE.step_dt s)))) ->
  forall steps est,
    estimator_ok est -> Forall Q steps -> Forall P (ASE.run est steps).
Proof.
  intros Hstep steps. induction steps as [|s steps IH]; intros est Hok HQ.
  - constructor.
  - apply Forall_cons in HQ as [Hs Hrest]. simpl.
    destruct (Hstep est s Hok Hs) as [HP Hok'].
    constructor; [done|]. by apply IH.
Qed.

Lemma guard_passes_small_error Date_now b ts state w (pe : R) :
  prediction_error b = Fin pe -> pe < 0.95 ->
  defaultSafetyGuard Date_now (BELIEF_UPDATE b ts) state w
  = (Ok (Some (BELIEF_UPDATE b ts)), w).
Proof.
  intros Hb Hpe. simpl. unfold guard_rule2. rewrite Hb, gt_Fin.
  replace (Rgtb pe 0.95) with false by (symmetry; apply Rgtb_false; lra).
  reflexivity.
Qed.

(** C8. Along every sequence of estimator updates with non-negative dt,
    whatever the observations and the bound patterns, the prediction error
    of each belief returned is a real number between 0 and the square root
    of 0.4*max_err_arousal^2 + 0.3*max_err_attention^2 +
    0.3*max_err_rhythm^2 for the target in force, which is one of the four
    protocol targets and for which that bound is strictly below 0.95; so the
    safety guard passes the BELIEF_UPDATE carrying such a belief through
    unchanged in every state: its emergency-halt rule does not fire.  The
    rule does fire on a BELIEF_UPDATE made up with a prediction error of 1
    once the session has lasted more than ten seconds. *)
Theorem prediction_error_below_halt_threshold (Date_now : nat -> R)
    (steps : list ASE.Step) :
  Forall (fun s => 0 <= ASE.step_dt s) steps ->
  Forall (fun r : BeliefState * ASE.Estimator =>
            (exists pe,
               prediction_error (fst r) = Fin pe
               /\ 0 <= pe <= sqrt (max_mse (ASE.target (snd r)))
               /\ pe < 0.95)
            /\ (exists k, ASE.target (snd r) = ASE.PROTOCOL_TARGETS k)
            /\ sqrt (max_mse (ASE.target (snd r))) < 0.95
            /\ forall ts state w,
                 defaultSafetyGuard Date_now (BELIEF_UPDATE (fst r) ts) state w
                 = (Ok (Some (BELIEF_UPDATE (fst r) ts)), w))
         (ASE.run ASE.constructor steps)
  /\ forall ts w,
       defaultSafetyGuard Date_now (BELIEF_UPDATE crafted_belief ts)
         long_session_state w
       = (Ok (Some (SAFETY_INTERDICTION 0.95 "EMERGENCY_HALT"
                      (Date_now (reads w)))),
          mkWorld (this w) (S (reads w)) (trace w)).
Proof.
  intros Hdt. split.
  2: { intros ts w. unfold defaultSafetyGuard, guard_rule2, crafted_belief.
       cbn [prediction_error]. rewrite gt_Fin.
       replace (Rgtb 1 0.95) with true by (symmetry; apply Rgtb_true; lra).
       replace (Rgtb (sessionDuration long_session_state) 10) with true
         by (symmetry; apply Rgtb_true; cbn; lra).
       reflexivity. }
  apply (run_Forall (fun s => 0 <= ASE.step_dt s));
    [|apply estimator_ok_constructor|done].
  intros est s Hok Hs.
  destruct (update_ok (ASE.setProtocol (ASE.step_pattern s) est)
              (ASE.step_obs s) (ASE.step_dt s))
    as (Hok' & _ & Htg & _ & (pe & Hpe & Hbound) & _);
    [by apply estimator_ok_setProtocol|done|].
  split; [|done]. rewrite Htg.
  destruct (setProtocol_target (ASE.step_pattern s) est) as [k Hk].
  assert (Hlt : sqrt (max_mse (ASE.target
                                 (ASE.setProtocol (ASE.step_pattern s) est)))
                < 0.95)
    by (rewrite Hk; apply max_mse_PROTOCOL_TARGETS).
  split; [|split; [by exists k|split; [done|]]].
  - exists pe. split; [done|]. split; [done|lra].
  - intros ts state w. apply (guard_passes_small_error _ _ _ _ _ pe); [done|lra].
Qed.

(** Two frames of a [box] session, the second with the page hidden. *)
Lemma prediction_error_below_halt_threshold_witness :
  let steps :=
    [ ASE.mkStep (BREATHING_PATTERNS "box") (observation_with (Some 0.9)) 0.1;
      ASE.mkStep (BREATHING_PATTERNS "box")
        (mkObservation 100 0.1 None hidden (Some 72) (Some 0.9)) 0.1 ] in
  Forall (fun s => 0 <= ASE.step_dt s) steps
  /\ Forall (fun r : BeliefState * ASE.Estimator =>
               exists pe, prediction_error (fst r) = Fin pe /\ pe < 0.95)
            (ASE.run ASE.constructor steps).
Proof.
  intros steps.
  assert (Hdt : Forall (fun s => 0 <= ASE.step_dt s) steps)
    by (repeat constructor; simpl; lra).
  split; [exact Hdt|].
  eapply Forall_impl;
    [exact (proj1 (prediction_error_below_halt_threshold (clock_from 0)
                     steps Hdt))|].
  intros r ((pe & Hpe & _ & Hlt) & _). exists pe. split; [exact Hpe|exact Hlt].
Defined.




(** ** The estimator: confidence *)

Lemma used_sensor_quality_cases obs :
  (hr_confidence obs = None -> used_sensor_quality obs = 1)
  /\ (hr_confidence obs = Some 0 -> used_sensor_quality obs = 1)
  /\ (forall c, hr_confidence obs = Some c -> c <> 0 ->
        used_sensor_quality obs = c).
Proof.
  unfold used_sensor_quality. split; [|split].
  - by intros ->.
  - intros ->. destruct (Req_dec_T 0 0); [done|lra].
  - intros c -> Hc. by destruct (Req_dec_T c 0).
Qed.

(** C6 (as amended). For a belief with real variances and an attention
    that is not negative, and an observation whose hr_confidence, when
    present, is not negative, the confidence is the geometric mean (the
    cube root of the product) of 1 minus the average variance capped at 1,
    the sensor quality and the attention, clamped to [0,1]; the sensor
    quality is hr_confidence when that is present and not 0, and 1.0 when
    hr_confidence is absent or equal to 0. *)
Theorem confidence_geometric_mean (a r pe c : number) (t va vt vr : R)
    (obs : Observation) :
  0 <= t ->
  confidence_not_negative obs ->
  let p := (1 - Rmin 1 ((va + vt + vr) / 3)) * used_sensor_quality obs * t in
  ASE.computeConfidence
    (mkBelief a (Fin t) r (Fin va) (Fin vt) (Fin vr) pe c) obs
  = Fin (confidence_formula (used_sensor_quality obs) va vt vr t)
  /\ confidence_formula (used_sensor_quality obs) va vt vr t
     = Rmax 0 (Rmin 1 (cube_root p))
  /\ 0 <= p /\ 0 <= cube_root p /\ cube_root p ^ 3 = p
  /\ 0 <= confidence_formula (used_sensor_quality obs) va vt vr t <= 1
  /\ (hr_confidence obs = None -> used_sensor_quality obs = 1)
  /\ (hr_confidence obs = Some 0 -> used_sensor_quality obs = 1)
  /\ (forall q, hr_confidence obs = Some q -> q <> 0 ->
        used_sensor_quality obs = q).
Proof.
  intros Ht Hobs p.
  assert (Hsq : 0 <= used_sensor_quality obs).
  { unfold used_sensor_quality, confidence_not_negative in *.
    destruct (hr_confidence obs) as [q|]; [|lra].
    destruct (Req_dec_T q 0); lra. }
  assert (Hcert := certainty_nonneg va vt vr).
  assert (Hp : 0 <= p).
  { subst p. apply Rmult_le_pos; [apply Rmult_le_pos|]; lra. }
  split.
  { rewrite confidence_shape. cbv zeta. fold p.
    destruct (Rlt_dec p 0); [lra|done]. }
  split; [done|]. split; [done|]. split; [apply cube_root_nonneg|].
  split; [by apply cube_root_cube|]. split; [apply clamp_range|].
  apply used_sensor_quality_cases.
Qed.

(** The camera is off: hr_confidence is present and equal to 0. *)
Lemma confidence_geometric_mean_witness :
  let obs := observation_with (Some 0) in
  0 <= 0.5
  /\ confidence_not_negative obs
  /\ used_sensor_quality obs = 1
  /\ ASE.computeConfidence (mkBelief 0.5 0.5 0 0.2 0.2 0.3 0 0) obs
     = Fin (confidence_formula 1 0.2 0.2 0.3 0.5).
Proof.
  intros obs.
  assert (Ht : 0 <= 0.5) by lra.
  assert (Hobs : confidence_not_negative obs)
    by (unfold obs, confidence_not_negative; simpl; lra).
  destruct (confidence_geometric_mean 0.5 0 0 0 0.5 0.2 0.2 0.3 obs Ht Hobs)
    as (Hc & _ & _ & _ & _ & _ & _ & Hzero & _).
  split; [exact Ht|]. split; [exact Hobs|].
  split; [exact (Hzero eq_refl)|].
  rewrite <- (Hzero eq_refl). exact Hc.
Defined.

(** C6, the claim as stated fails.  With hr_confidence present and equal
    to 0 the claim uses the factor 0, which makes the product and hence the
    confidence 0; the code replaces the 0 by 1.0 and returns a positive
    confidence. *)
Lemma confidence_counterexample :
  let state := mkBelief 0.5 1 0.5 0.05 0.05 0.05 0 0 in
  let obs := observation_with (Some 0) in
  claimed_sensor_quality obs = 0
  /\ confidence_formula (claimed_sensor_quality obs) 0.05 0.05 0.05 1 = 0
  /\ (exists x, ASE.computeConfidence state obs = Fin x /\ 0 < x)
  /\ ASE.computeConfidence state obs
     <> Fin (confidence_formula (claimed_sensor_quality obs) 0.05 0.05 0.05 1).
Proof.
  intros state obs.
  assert (Hclaimed : confidence_formula (claimed_sensor_quality obs)
                       0.05 0.05 0.05 1 = 0).
  { unfold confidence_formula, claimed_sensor_quality, cube_root.
    cbn [obs observation_with hr_confidence].
    destruct (Rlt_dec 0 _) as [H|_]; [lra|]. minmax. reflexivity. }
  assert (Hcode : exists x, ASE.computeConfidence state obs = Fin x /\ 0 < x).
  { subst state. rewrite confidence_shape. cbv zeta.
    assert (Hused : used_sensor_quality obs = 1)
      by (apply (proj1 (proj2 (used_sensor_quality_cases obs))); reflexivity).
    rewrite Hused.
    rewrite (Rmin_right 1 ((0.05 + 0.05 + 0.05) / 3)) by lra.
    destruct (Rlt_dec _ 0) as [H|_]; [lra|].
    eexists. split; [reflexivity|].
    eapply Rlt_le_trans; [|apply Rmax_r].
    apply Rmin_pos; [lra|].
    unfold cube_root. destruct (Rlt_dec 0 _) as [_|H]; [|lra].
    unfold Rpower. apply exp_pos. }
  split; [reflexivity|]. split; [exact Hclaimed|]. split; [exact Hcode|].
  destruct Hcode as (x & Hx & Hpos). rewrite Hx, Hclaimed.
  intros H. inversion H. lra.
Qed.

(* ===================================================================== *)
(** * Further properties *)
(* ===================================================================== *)

(** ** Lists *)

Lemma lastn_app_lastn {A} (n : nat) (l l' : list A) :
  lastn n (lastn n l ++ l') = lastn n (l ++ l').
Proof.
  unfold lastn.
  rewrite !length_app, length_drop.
  destruct (decide (length l <= n)%nat) as [Hle|Hgt].
  - replace (length l - n)%nat with 0%nat by lia.
    simpl. do 2 f_equal. lia.
  - replace (length l + length l' - n)%nat
      with ((length l - n) + (length l - (length l - n) + length l' - n))%nat
      by lia.
    rewrite <- drop_drop.
    rewrite (drop_app_le l l' (length l - n)) by lia.
    reflexivity.
Qed.

Lemma append_log_lastn e log :
  (length log <= MAX_LOG_SIZE)%nat ->
  append_log e log = lastn MAX_LOG_SIZE (log ++ [e]).
Proof.
  intros Hlen. unfold append_log.
  destruct (_ <? _)%nat eqn:E.
  - apply Nat.ltb_lt in E. rewrite length_app in E. simpl in E.
    unfold lastn. rewrite length_app. simpl. f_equal. lia.
  - apply Nat.ltb_ge in E. by rewrite lastn_short.
Qed.

(** ** The kernel: the event log *)

Section KernelLog.

Variable Date_now : nat -> R.
Variable throws : list Effect -> bool.

(** X1. The event log is a bounded FIFO: starting from a log within the
    capacity of 1000 events, every dispatch logs exactly one event (the
    guard never drops one), and after any sequence of dispatches the log
    holds the most recent 1000 of the events logged so far, in order. *)
Theorem event_log_capacity (events : list KernelEvent) (w : World) :
  (length (eventLog (this w)) <= MAX_LOG_SIZE)%nat ->
  let w' := dispatch_all Date_now throws events w in
  (length (eventLog (this w')) <= MAX_LOG_SIZE)%nat
  /\ exists logged,
       length logged = length events
       /\ eventLog (this w')
          = lastn MAX_LOG_SIZE (eventLog (this w) ++ logged).
Proof.
  revert w. induction events as [|e events IH]; intros w Hlen w'; subst w'.
  - simpl. split; [done|]. exists []. rewrite app_nil_r.
    split; [done|]. by rewrite lastn_short.
  - unfold dispatch_all in *. simpl.
    destruct (guard_answers Date_now e (state (this w)) w)
      as (ge & w1 & Hg & Hthis & _ & _).
    destruct (dispatch_commits Date_now throws e w ge w1 Hg Hthis) as [Hc _].
    assert (Hlog : eventLog (this (snd (dispatch Date_now throws e w)))
                   = lastn MAX_LOG_SIZE (eventLog (this w) ++ [ge])).
    { rewrite Hc. cbn [eventLog with_state with_eventLog].
      by apply append_log_lastn. }
    destruct (IH (snd (dispatch Date_now throws e w))) as [Hle (logged & Hn & Heq)].
    { rewrite Hlog. apply length_lastn. }
    split; [done|]. exists (ge :: logged). split; [simpl; lia|].
    rewrite Heq, Hlog, lastn_app_lastn. by rewrite <- app_assoc.
Qed.

End KernelLog.

(** Three events dispatched into the idle kernel. *)
Lemma event_log_capacity_witness :
  let w := world_of idle_state in
  let w' := dispatch_all (clock_from 0) no_throw
              [BOOT 1; LOAD_PROTOCOL "box" 2; START_SESSION 3] w in
  (length (eventLog (this w)) <= MAX_LOG_SIZE)%nat
  /\ (length (eventLog (this w')) <= MAX_LOG_SIZE)%nat.
Proof.
  intros w w'.
  assert (H : (length (eventLog (this w)) <= MAX_LOG_SIZE)%nat)
    by (unfold MAX_LOG_SIZE; simpl; lia).
  split; [exact H|].
  apply (event_log_capacity (clock_from 0) no_throw _ w H).
Defined.

(** ** The kernel: middlewares and subscribers *)

Section KernelFanOut.

Variable Date_now : nat -> R.
Variable throws : list Effect -> bool.

Lemma subscriber_calls_app tr tr' :
  subscriber_calls (tr ++ tr') = subscriber_calls tr ++ subscriber_calls tr'.
Proof. apply omap_app. Qed.

Lemma middleware_calls_app tr tr' :
  middleware_calls (tr ++ tr') = middleware_calls tr ++ middleware_calls tr'.
Proof. apply omap_app. Qed.

(** The middleware loop stops at the first middleware that throws. *)
Lemma forEach_middlewares ge before after mws w :
  exists res tr',
    forEach mws (fun mw => call throws (MiddlewareCall mw ge before after)) w
    = (res, mkWorld (this w) (reads w) (trace w ++ tr'))
    /\ subscriber_calls tr' = []
    /\ ((res = Ok tt /\ middleware_calls tr' = mws)
        \/ (res = Throw
            /\ exists k, (k < length mws)%nat
                         /\ middleware_calls tr' = take (S k) mws)).
Proof.
  revert w. induction mws as [|mw mws IH]; intros w.
  - exists (Ok tt), []. rewrite app_nil_r. destruct w. simpl.
    repeat split. by left.
  - simpl. unfold bind at 1, call at 1.
    destruct (throws _) eqn:Hthrow.
    + exists Throw, [MiddlewareCall mw ge before after].
      split; [done|]. split; [done|].
      right. split; [done|]. exists 0%nat. split; [simpl; lia|done].
    + destruct (IH (mkWorld (this w) (reads w)
                      (trace w ++ [MiddlewareCall mw ge before after])))
        as (res & tr' & Heq & Hsub & Hcases).
      rewrite Heq. cbn [this reads trace].
      exists res, (MiddlewareCall mw ge before after :: tr').
      rewrite <- app_assoc. split; [done|]. split; [by simpl|].
      destruct Hcases as [[Hok Hmw]|[Hthr (k & Hk & Hmw)]].
      * left. split; [done|]. simpl. by rewrite Hmw.
      * right. split; [done|]. exists (S k). split; [simpl; lia|].
        simpl. by rewrite Hmw.
Qed.

(** Notification calls every subscriber once, in order, and returns
    normally whatever the subscribers do. *)
Lemma forEach_subscribers subs w :
  exists tr',
    forEach subs (fun cb =>
      try_catch
        (k' <- get ;; call throws (SubscriberCall cb (state k')))
        (console_error cb)) w
    = (Ok tt, mkWorld (this w) (reads w) (trace w ++ tr'))
    /\ subscriber_calls tr' = map (fun cb => (cb, state (this w))) subs
    /\ middleware_calls tr' = [].
Proof.
  revert w. induction subs as [|cb subs IH]; intros w.
  - exists []. rewrite app_nil_r. by destruct w.
  - simpl. unfold bind at 1, try_catch at 1, bind at 1, get at 1, call at 1.
    cbn [fst snd].
    destruct (throws _) eqn:Hthrow;
      [unfold console_error at 1|]; cbn [fst snd this reads trace].
    + destruct (IH (mkWorld (this w) (reads w)
                      ((trace w ++ [SubscriberCall cb (state (this w))])
                       ++ [ConsoleError cb])))
        as (tr' & Heq & Hsub & Hmw).
      cbn [this reads trace] in *. rewrite Heq.
      exists (SubscriberCall cb (state (this w)) :: ConsoleError cb :: tr').
      rewrite <- !app_assoc. split; [done|].
      split; simpl; [by rewrite Hsub|done].
    + destruct (IH (mkWorld (this w) (reads w)
                      (trace w ++ [SubscriberCall cb (state (this w))])))
        as (tr' & Heq & Hsub & Hmw).
      cbn [this reads trace] in *. rewrite Heq.
      exists (SubscriberCall cb (state (this w)) :: tr').
      rewrite <- !app_assoc. split; [done|].
      split; simpl; [by rewrite Hsub|done].
Qed.

Lemma notify_result w :
  exists tr',
    notify throws w = (Ok tt, mkWorld (this w) (reads w) (trace w ++ tr'))
    /\ subscriber_calls tr'
       = map (fun cb => (cb, state (this w))) (subscribers (this w))
    /\ middleware_calls tr' = [].
Proof.
  unfold notify, bind at 1, get at 1. cbn [fst snd].
  apply forEach_subscribers.
Qed.

(** A dispatch, once the guard has answered: the tail that runs after the
    commit, in full. *)
Lemma dispatch_unfold e w ge w1 :
  defaultSafetyGuard Date_now e (state (this w)) w = (Ok (Some ge), w1) ->
  this w1 = this w ->
  let committed :=
    derivedFields (Date_now (reads w1)) (reduce (state (this w)) ge) in
  dispatch Date_now throws e w
  = (k <- get ;;
     forEach (middlewares k) (fun mw =>
       call throws (MiddlewareCall mw ge (state (this w)) committed)) ;;
     notify throws)
      (mkWorld
         (with_state committed
            (with_eventLog (append_log ge (eventLog (this w))) (this w)))
         (S (reads w1)) (trace w1)).
Proof.
  intros Hg Hthis committed. subst committed. unfold dispatch.
  unfold bind at 1. unfold get at 1. cbn [fst snd].
  unfold bind at 1. rewrite Hg.
  unfold bind at 1. unfold modify at 1. cbn [fst snd].
  unfold bind at 1. unfold computeDerivedFields, bind at 1, now, ret.
  cbn [fst snd this reads trace].
  unfold bind at 1. unfold modify at 1. cbn [fst snd this reads trace].
  rewrite Hthis. reflexivity.
Qed.

(** The result of one dispatch: the world it leaves and the effects it
    has had, by the way it ends. *)
Lemma dispatch_result e w ge w1 :
  defaultSafetyGuard Date_now e (state (this w)) w = (Ok (Some ge), w1) ->
  this w1 = this w ->
  let committed :=
    derivedFields (Date_now (reads w1)) (reduce (state (this w)) ge) in
  exists res tr',
    dispatch Date_now throws e w
    = (res,
       mkWorld
         (with_state committed
            (with_eventLog (append_log ge (eventLog (this w))) (this w)))
         (S (reads w1)) (trace w1 ++ tr'))
    /\ ((res = Ok tt
         /\ middleware_calls tr' = middlewares (this w)
         /\ subscriber_calls tr'
            = map (fun cb => (cb, committed)) (subscribers (this w)))
        \/ (res = Throw
            /\ subscriber_calls tr' = []
            /\ exists k, (k < length (middlewares (this w)))%nat
                 /\ middleware_calls tr'
                    = take (S k) (middlewares (this w)))).
Proof.
  intros Hg Hthis committed.
  rewrite (dispatch_unfold e w ge w1 Hg Hthis). cbv zeta. fold committed.
  set (w0 := mkWorld _ _ _).
  unfold bind at 1, get at 1. cbn [fst snd].
  unfold bind at 1.
  destruct (forEach_middlewares ge (state (this w)) committed
              (middlewares (this w0)) w0)
    as (res & tr1 & Heq & Hsub1 & Hcases).
  rewrite Heq.
  destruct Hcases as [[-> Hmws]|[-> Hk]].
  - destruct (notify_result (mkWorld (this w0) (reads w0) (trace w0 ++ tr1)))
      as (tr2 & Heq2 & Hsub2 & Hmw2).
    rewrite Heq2. subst w0.
    cbn [fst snd this reads trace state with_state with_eventLog middlewares
         subscribers] in *.
    exists (Ok tt), (tr1 ++ tr2). rewrite app_assoc. split; [done|]. left.
    rewrite middleware_calls_app, subscriber_calls_app, Hsub1, Hsub2,
      Hmws, Hmw2, app_nil_r.
    done.
  - subst w0.
    cbn [fst snd this reads trace state with_state with_eventLog middlewares
         subscribers] in *.
    exists Throw, tr1. split; [done|]. right. done.
Qed.

Lemma dispatch_effects e w :
  let r := dispatch Date_now throws e w in
  let committed := state (this (snd r)) in
  exists tr',
    trace (snd r) = trace w ++ tr'
    /\ ((fst r = Ok tt
         /\ middleware_calls tr' = middlewares (this w)
         /\ subscriber_calls tr'
            = map (fun cb => (cb, committed)) (subscribers (this w)))
        \/ (fst r = Throw
            /\ subscriber_calls tr' = []
            /\ exists k, (k < length (middlewares (this w)))%nat
                 /\ middleware_calls tr'
                    = take (S k) (middlewares (this w)))).
Proof.
  intros r committed. subst r committed.
  destruct (guard_answers Date_now e (state (this w)) w)
    as (ge & w1 & Hg & Hthis & Htrace & _).
  destruct (dispatch_result e w ge w1 Hg Hthis) as (res & tr' & -> & Hcases).
  cbn [fst snd this trace state with_state]. rewrite Htrace.
  exists tr'. split; [done|exact Hcases].
Qed.



End KernelFanOut.



(** ** The kernel: the guard at work *)

Section KernelGuard.

Variable Date_now : nat -> R.
Variable throws : list Effect -> bool.

(** The guard answers with the event itself or, for three kinds of
    events, with an interdiction. *)
Lemma guard_cases e s w :
  exists ge w1,
    defaultSafetyGuard Date_now e s w = (Ok (Some ge), w1)
    /\ this w1 = this w
    /\ (ge = e \/ (is_interdiction ge = true /\ interceptable e = true)).
Proof.
  destruct e; simpl; unfold guard_rule2, guard_rule3;
    repeat (simpl; unfold bind, now, ret;
            match goal with
            | |- context [decide ?P] => destruct (decide P)
            | |- context [if ?b then _ else _] => destruct b
            | |- context [match ?m !! ?k with _ => _ end] =>
                destruct (m !! k)
            end);
    simpl; do 2 eexists; (split; [reflexivity|]); simpl; split; auto.
Qed.

Lemma guard_BELIEF_UPDATE_halt b ts s w (pe : R) :
  prediction_error b = Fin pe -> pe > 0.95 -> sessionDuration s > 10 ->
  defaultSafetyGuard Date_now (BELIEF_UPDATE b ts) s w
  = (Ok (Some (SAFETY_INTERDICTION 0.95 "EMERGENCY_HALT"
                 (Date_now (reads w)))),
     mkWorld (this w) (S (reads w)) (trace w)).
Proof.
  intros Hb Hpe Hsd. unfold defaultSafetyGuard, guard_rule2.
  rewrite Hb, gt_Fin.
  replace (Rgtb pe 0.95) with true by (symmetry; by apply Rgtb_true).
  replace (Rgtb (sessionDuration s) 10) with true
    by (symmetry; by apply Rgtb_true).
  reflexivity.
Qed.

Lemma guard_BELIEF_UPDATE_pass b ts s w :
  Number.gt (prediction_error b) 0.95 = false \/ sessionDuration s <= 10 ->
  defaultSafetyGuard Date_now (BELIEF_UPDATE b ts) s w
  = (Ok (Some (BELIEF_UPDATE b ts)), w).
Proof.
  intros H. unfold defaultSafetyGuard, guard_rule2.
  destruct H as [->|H]; [done|].
  apply Rgtb_false in H. rewrite H, andb_false_r. reflexivity.
Qed.

Lemma last_append_log e log : last (append_log e log) = Some e.
Proof.
  unfold append_log. destruct (_ <? _)%nat eqn:E.
  - apply Nat.ltb_lt in E. rewrite length_app in E. simpl in E.
    unfold MAX_LOG_SIZE in E.
    destruct log as [|e0 l]; [simpl in E; lia|].
    simpl. rewrite drop_0. destruct l; [simpl in E; lia|].
    by rewrite last_snoc.
  - by rewrite last_snoc.
Qed.

(** X4. A BELIEF_UPDATE whose prediction error exceeds 0.95, dispatched
    when the session duration recorded in the state exceeds ten seconds,
    does not reach the state: the belief stays as it was, the status becomes
    SAFETY_LOCK and the event logged is the EMERGENCY_HALT interdiction.
    Otherwise (prediction error at most 0.95 or NaN, or a session of at most
    ten seconds) the belief is replaced by the one of the event and the
    status is kept. *)
Theorem belief_update_dispatch (b : BeliefState) (ts : R) (w : World) :
  let before := state (this w) in
  let w' := snd (dispatch Date_now throws (BELIEF_UPDATE b ts) w) in
  let after := state (this w') in
  (forall pe,
     prediction_error b = Fin pe -> pe > 0.95 -> sessionDuration before > 10 ->
     belief after = belief before
     /\ status after = SAFETY_LOCK
     /\ last (eventLog (this w'))
        = Some (SAFETY_INTERDICTION 0.95 "EMERGENCY_HALT" (Date_now (reads w))))
  /\ (Number.gt (prediction_error b) 0.95 = false
      \/ sessionDuration before <= 10 ->
      belief after = b
      /\ status after = status before
      /\ last (eventLog (this w')) = Some (BELIEF_UPDATE b ts)).
Proof.
  intros before w' after. subst before w' after. split.
  - intros pe Hb Hpe Hsd.
    pose proof (dispatch_commits Date_now throws _ w _ _
                  (guard_BELIEF_UPDATE_halt b ts _ w pe Hb Hpe Hsd) eq_refl)
      as [Hc _].
    rewrite Hc. cbn [state eventLog with_state with_eventLog].
    split; [done|]. split; [done|]. apply last_append_log.
  - intros H.
    pose proof (dispatch_commits Date_now throws _ w _ _
                  (guard_BELIEF_UPDATE_pass b ts _ w H) eq_refl) as [Hc _].
    rewrite Hc. cbn [state eventLog with_state with_eventLog].
    split; [done|]. split; [done|]. apply last_append_log.
Qed.

Lemma reduce_status_locked s e :
  status s = SAFETY_LOCK ->
  status (reduce s e)
  = match e with
    | BOOT _ => IDLE
    | HALT _ _ => HALTED
    | START_SESSION _ =>
        match pattern s with Some _ => RUNNING | None => SAFETY_LOCK end
    | _ => SAFETY_LOCK
    end
  /\ (pattern (reduce s e) = pattern s).
Proof.
  intros Hs. destruct e; simpl;
    repeat match goal with
           | |- context [decide ?P] => destruct (decide P)
           | |- context [match pattern s with _ => _ end] =>
               destruct (pattern s) eqn:?
           | |- context [match BREATHING_PATTERNS ?k with _ => _ end] =>
               destruct (BREATHING_PATTERNS k)
           end; simpl; split;
    first [ done
          | congruence
          | exfalso;
            match goal with H : ~ _ |- _ => apply H end;
            rewrite Hs; discriminate ].
Qed.

(** X5. The status SAFETY_LOCK is left by BOOT (to IDLE) and by HALT (to
    HALTED) only: dispatching any other event into a kernel whose status is
    SAFETY_LOCK leaves the status SAFETY_LOCK, and no dispatch changes the
    bound pattern while the status is SAFETY_LOCK. *)
Theorem safety_lock_exits (e : KernelEvent) (w : World) :
  status (state (this w)) = SAFETY_LOCK ->
  let after := state (this (snd (dispatch Date_now throws e w))) in
  status after
  = match e with
    | BOOT _ => IDLE
    | HALT _ _ => HALTED
    | _ => SAFETY_LOCK
    end
  /\ pattern after = pattern (state (this w)).
Proof.
  intros Hs after. subst after.
  destruct (guard_cases e (state (this w)) w)
    as (ge & w1 & Hg & Hthis & Hcases).
  destruct (dispatch_commits Date_now throws e w ge w1 Hg Hthis) as [-> _].
  cbn [state with_state].
  destruct (derivedFields_fields (Date_now (reads w1))
              (reduce (state (this w)) ge)) as (-> & -> & _).
  destruct (reduce_status_locked (state (this w)) ge Hs) as [Hst Hpat].
  split; [|done]. rewrite Hst.
  destruct Hcases as [->|[Hint Hicp]].
  - destruct e; try done.
    (* START_SESSION is not passed through under SAFETY_LOCK *)
    rewrite (guard_START_SESSION_locked Date_now _ _ w Hs) in Hg.
    discriminate.
  - destruct ge; try discriminate. destruct e; try discriminate; done.
Qed.

(** X6. No dispatch changes the version or the boot time stamp of the
    state, and the safety registry changes by a LOAD_SAFETY_REGISTRY only,
    which the guard never intercepts and which replaces the registry by the
    one of the event, whatever it held before. *)
Theorem dispatch_frame (e : KernelEvent) (w : World) :
  let before := state (this w) in
  let after := state (this (snd (dispatch Date_now throws e w))) in
  version after = version before
  /\ bootTimestamp after = bootTimestamp before
  /\ safetyRegistry after
     = match e with
       | LOAD_SAFETY_REGISTRY registry _ => registry
       | _ => safetyRegistry before
       end.
Proof.
  intros before after. subst before after.
  destruct (guard_cases e (state (this w)) w)
    as (ge & w1 & Hg & Hthis & Hcases).
  destruct (dispatch_commits Date_now throws e w ge w1 Hg Hthis) as [-> _].
  cbn [state with_state].
  assert (Hframe : forall s ev,
            version (reduce s ev) = version s
            /\ bootTimestamp (reduce s ev) = bootTimestamp s
            /\ safetyRegistry (reduce s ev)
               = match ev with
                 | LOAD_SAFETY_REGISTRY registry _ => registry
                 | _ => safetyRegistry s
                 end).
  { intros s ev. destruct ev; simpl;
      repeat match goal with
             | |- context [decide ?P] => destruct (decide P)
             | |- context [match ?x with Some _ => _ | None => _ end] =>
                 destruct x
             end; done. }
  destruct (Hframe (state (this w)) ge) as (Hv & Hb & Hr).
  split; [done|]. split; [done|].
  change (safetyRegistry (derivedFields ?t ?s)) with (safetyRegistry s).
  rewrite Hr.
  destruct Hcases as [->|[Hint Hicp]]; [done|].
  destruct ge; try discriminate. destruct e; try discriminate; done.
Qed.

End KernelGuard.

(** A made-up belief with prediction error 1 reaches a long session. *)
Lemma belief_update_dispatch_witness :
  let w := world_of long_session_state in
  let w' := snd (dispatch (clock_from 0) no_throw
                   (BELIEF_UPDATE crafted_belief 20000) w) in
  prediction_error crafted_belief = Fin 1
  /\ 1 > 0.95
  /\ sessionDuration (state (this w)) > 10
  /\ belief (state (this w')) = belief (state (this w))
  /\ status (state (this w')) = SAFETY_LOCK.
Proof.
  intros w w'.
  assert (Hsd : sessionDuration (state (this w)) > 10)
    by (change (11 > 10); lra).
  assert (Hpe : 1 > 0.95) by lra.
  destruct (proj1 (belief_update_dispatch (clock_from 0) no_throw
                     crafted_belief 20000 w) 1 eq_refl Hpe Hsd)
    as (Hb & Hs & _).
  split; [reflexivity|]. split; [exact Hpe|]. split; [exact Hsd|].
  split; [exact Hb|exact Hs].
Defined.

(** The locked kernel is halted, which lifts the lock. *)
Lemma safety_lock_exits_witness :
  let w := world_of (with_status SAFETY_LOCK running_state) in
  status (state (this w)) = SAFETY_LOCK
  /\ status (state (this (snd (dispatch (clock_from 0) no_throw
                                 (HALT "cleanup" 5) w)))) = HALTED
  /\ status (state (this (snd (dispatch (clock_from 0) no_throw
                                 (RESUME 5) w)))) = SAFETY_LOCK.
Proof.
  intros w.
  assert (Hs : status (state (this w)) = SAFETY_LOCK) by reflexivity.
  split; [exact Hs|]. split.
  - apply (safety_lock_exits (clock_from 0) no_throw (HALT "cleanup" 5) w Hs).
  - apply (safety_lock_exits (clock_from 0) no_throw (RESUME 5) w Hs).
Defined.

(** ** The kernel: sessions *)

Section KernelSessions.

Variable Date_now : nat -> R.
Variable throws : list Effect -> bool.

(** X7. Pause and resume as a round trip: when a RUNNING session is
    interrupted at [tp] and RESUME at [tr] is the next event dispatched, the
    session is RUNNING again with the phase start moved by [tr - tp] and the
    pattern, phase, phase duration, cycle count, session start and belief
    as they were; while paused the phase-elapsed time reads 0, and after
    the resume it is measured from the moved phase start, so that at a
    clock reading equal to [tr] it is what it was at [tp]. *)
Theorem pause_resume_round_trip (w : World) (k : InterruptionKind)
    (tp tr : R) :
  status (state (this w)) = RUNNING ->
  let s := state (this w) in
  let w1 := snd (dispatch Date_now throws (INTERRUPTION k tp) w) in
  let w2 := snd (dispatch Date_now throws (RESUME tr) w1) in
  let s2 := state (this w2) in
  status (state (this w1)) = PAUSED
  /\ phaseElapsed (state (this w1)) = 0
  /\ status s2 = RUNNING
  /\ phaseStartTime s2 = phaseStartTime s + (tr - tp)
  /\ pattern s2 = pattern s /\ phase s2 = phase s
  /\ phaseDuration s2 = phaseDuration s /\ cycleCount s2 = cycleCount s
  /\ sessionStartTime s2 = sessionStartTime s /\ belief s2 = belief s
  /\ phaseElapsed s2
     = Rmax 0 ((Date_now (S (reads w)) - (phaseStartTime s + (tr - tp))) / 1000)
  /\ (Date_now (S (reads w)) = tr ->
      phaseElapsed s2 = Rmax 0 ((tp - phaseStartTime s) / 1000)).
Proof.
  intros Hs s w1 w2 s2. subst s w1 w2 s2.
  destruct (dispatch_commits Date_now throws (INTERRUPTION k tp) w
              (INTERRUPTION k tp) w eq_refl eq_refl) as [Hc1 Hr1].
  set (w1 := snd (dispatch Date_now throws (INTERRUPTION k tp) w)) in *.
  destruct (dispatch_commits Date_now throws (RESUME tr) w1
              (RESUME tr) w1 eq_refl eq_refl) as [Hc2 _].
  rewrite Hc2, Hr1, Hc1. cbn [state with_state].
  assert (Hp : reduce (state (this w)) (INTERRUPTION k tp)
               = with_lastUpdateTimestamp tp
                   (with_status PAUSED (state (this w)))).
  { simpl. destruct (decide _) as [Hn|_]; [|done]. by rewrite Hs in Hn. }
  rewrite Hp. cbn.
  destruct (decide (PAUSED = RUNNING)); [discriminate|].
  destruct (decide (PAUSED <> PAUSED)); [done|]. cbn.
  destruct (decide (RUNNING = RUNNING)); [|done].
  repeat (split; [done|]). intros ->. f_equal. lra.
Qed.

Lemma guard_LOAD_PROTOCOL_unlocked pid ts s w :
  match safetyRegistry s !! pid with
  | Some profile => safety_lock_until profile <= Date_now (reads w)
  | None => True
  end ->
  exists w1,
    defaultSafetyGuard Date_now (LOAD_PROTOCOL pid ts) s w
    = (Ok (Some (LOAD_PROTOCOL pid ts)), w1)
    /\ this w1 = this w.
Proof.
  intros H. simpl. unfold guard_rule2, guard_rule3.
  destruct (safetyRegistry s !! pid) as [profile|]; [|by eexists].
  apply Rgtb_false in H. unfold bind, now. cbn [reads this trace].
  rewrite H. by eexists.
Qed.

(** X8. A LOAD_PROTOCOL for a pattern of the table that the registry does
    not hold locked, dispatched when the status is not SAFETY_LOCK, binds
    the pattern and restarts the phase machine: phase inhale with the
    pattern's inhale duration, started at the event's time stamp, cycle
    count 0, session start 0 (hence session duration 0).  The status is kept
    (a RUNNING session stays RUNNING) and so are the arousal and attention
    estimates and the three variances, while rhythm alignment, prediction
    error and confidence restart from 0. *)
Theorem load_protocol_binds (w : World) (pid : string) (ts : R)
    (p : BreathPattern) :
  status (state (this w)) <> SAFETY_LOCK ->
  match safetyRegistry (state (this w)) !! pid with
  | Some profile => safety_lock_until profile <= Date_now (reads w)
  | None => True
  end ->
  BREATHING_PATTERNS pid = Some p ->
  let before := state (this w) in
  let after :=
    state (this (snd (dispatch Date_now throws (LOAD_PROTOCOL pid ts) w))) in
  pattern after = Some p
  /\ phase after = inhale
  /\ phaseStartTime after = ts
  /\ phaseDuration after = timings p inhale
  /\ cycleCount after = 0
  /\ sessionStartTime after = 0 /\ sessionDuration after = 0
  /\ status after = status before
  /\ arousal (belief after) = arousal (belief before)
  /\ attention (belief after) = attention (belief before)
  /\ arousal_variance (belief after) = arousal_variance (belief before)
  /\ attention_variance (belief after) = attention_variance (belief before)
  /\ rhythm_variance (belief after) = rhythm_variance (belief before)
  /\ rhythm_alignment (belief after) = Fin 0
  /\ prediction_error (belief after) = Fin 0
  /\ confidence (belief after) = Fin 0.
Proof.
  intros Hst Hlock Hp before after. subst before after.
  destruct (guard_LOAD_PROTOCOL_unlocked pid ts (state (this w)) w Hlock)
    as (w1 & Hg & Hthis).
  destruct (dispatch_commits Date_now throws _ w _ w1 Hg Hthis) as [-> _].
  cbn [state with_state]. simpl reduce. rewrite Hp.
  destruct (decide _) as [Hn|_]; [done|]. cbn.
  replace (Rgtb 0 0) with false by (symmetry; apply Rgtb_false; lra).
  done.
Qed.


(** X10. A new kernel: the constructor leaves a kernel that is IDLE with
    no pattern bound, the two stock middlewares registered in the order
    audio, haptic, no subscriber, a new estimator, and exactly one event in
    the log, the BOOT event stamped with the third clock reading, which is
    also the time of the last update; the boot time stamp is the first
    reading. *)
Theorem new_kernel (reads0 : nat) (trace0 : list Effect) :
  let w := snd (constructor Date_now throws reads0 trace0) in
  let s := state (this w) in
  status s = IDLE /\ pattern s = None /\ phase s = inhale
  /\ cycleCount s = 0 /\ sessionStartTime s = 0
  /\ phaseElapsed s = 0 /\ sessionDuration s = 0
  /\ safetyRegistry s = ∅
  /\ belief s = mkBelief 0.5 0.5 0 0.2 0.2 0.3 0 0
  /\ bootTimestamp s = Date_now reads0
  /\ lastUpdateTimestamp s = Date_now (S (S reads0))
  /\ eventLog (this w) = [BOOT (Date_now (S (S reads0)))]
  /\ middlewares (this w) = [audioMiddleware; hapticMiddleware]
  /\ subscribers (this w) = []
  /\ estimator (this w) = ASE.constructor
  /\ reads w = S (S (S (S reads0))).
Proof.
  intros w s. subst s w.
  set (s0 := {| version := 2; status := IDLE;
                bootTimestamp := Date_now reads0;
                lastUpdateTimestamp := Date_now (S reads0);
                pattern := None; phase := inhale; phaseStartTime := 0;
                phaseDuration := 0; cycleCount := 0; sessionStartTime := 0;
                belief := mkBelief 0.5 0.5 0 0.2 0.2 0.3 0 0;
                safetyRegistry := ∅; phaseElapsed := 0; sessionDuration := 0;
                lastObservation := None |}).
  set (w0 := mkWorld
               (mkKernel s0 ASE.constructor [] []
                  [audioMiddleware; hapticMiddleware])
               (S (S (S reads0))) trace0).
  assert (Hcons : constructor Date_now throws reads0 trace0
                  = dispatch Date_now throws (BOOT (Date_now (S (S reads0))))
                      w0) by reflexivity.
  rewrite Hcons.
  destruct (dispatch_commits Date_now throws (BOOT (Date_now (S (S reads0))))
              w0 _ w0 eq_refl eq_refl) as [Hc Hr].
  rewrite Hc, Hr. cbn.
  destruct (decide (IDLE = RUNNING)); [discriminate|].
  replace (Rgtb 0 0) with false by (symmetry; apply Rgtb_false; lra).
  done.
Qed.

(** ** The kernel: the subscriber set *)

Lemma NoDup_set_add cb subs : NoDup subs -> NoDup (set_add cb subs).
Proof.
  intros H. unfold set_add. destruct (decide (cb ∈ subs)); [done|].
  apply NoDup_app. split; [done|]. split; [|apply NoDup_singleton].
  intros x Hx Hx'. apply list_elem_of_singleton in Hx'. by subst.
Qed.

Lemma set_add_idem cb subs : set_add cb (set_add cb subs) = set_add cb subs.
Proof.
  unfold set_add at 1. destruct (decide _) as [|Hn]; [done|].
  exfalso. apply Hn. unfold set_add. destruct (decide (cb ∈ subs)); [done|].
  apply elem_of_app. right. by apply list_elem_of_singleton.
Qed.

Lemma subscribers_subscribe cb w :
  subscribers (this (snd (subscribe throws cb w)))
  = set_add cb (subscribers (this w)).
Proof.
  unfold subscribe, bind, modify, get, call.
  cbn [fst snd this reads trace subscribers with_subscribers].
  by destruct (throws _).
Qed.

(** X11. The subscribers form a set kept in subscription order: subscribe
    keeps the list free of duplicates and puts a new callback last, and
    subscribing a callback that is already subscribed leaves the list as it
    is; so the callback is notified once per dispatch however often it
    subscribed. *)
Theorem subscribe_is_idempotent (w : World) (cb : Callback) (e : KernelEvent) :
  NoDup (subscribers (this w)) ->
  let w1 := snd (subscribe throws cb w) in
  let w2 := snd (subscribe throws cb w1) in
  NoDup (subscribers (this w1))
  /\ (cb ∉ subscribers (this w) ->
      subscribers (this w1) = subscribers (this w) ++ [cb])
  /\ (cb ∈ subscribers (this w) ->
      subscribers (this w1) = subscribers (this w))
  /\ subscribers (this w2) = subscribers (this w1)
  /\ (fst (dispatch Date_now throws e w2) = Ok tt ->
      exists tr',
        trace (snd (dispatch Date_now throws e w2)) = trace w2 ++ tr'
        /\ length (List.filter (fun c => bool_decide (fst c = cb))
                     (subscriber_calls tr')) = 1%nat).
Proof.
  intros Hnd w1 w2. subst w1 w2.
  rewrite !subscribers_subscribe, set_add_idem.
  split; [by apply NoDup_set_add|].
  split; [intros Hn; unfold set_add; by destruct (decide _)|].
  split; [intros Hin; unfold set_add; by destruct (decide _)|].
  split; [done|].
  intros Hok.
  destruct (dispatch_effects Date_now throws e
              (snd (subscribe throws cb (snd (subscribe throws cb w)))))
    as (tr' & Htr & [(_ & _ & Hsub)|(Hthr & _)]);
    [|rewrite Hok in Hthr; discriminate].
  exists tr'. split; [done|]. rewrite Hsub.
  rewrite !subscribers_subscribe, set_add_idem.
  assert (Hcount : forall (l : list Callback) st,
            NoDup l -> cb ∈ l ->
            length (List.filter (fun c : Callback * RuntimeState =>
                                   bool_decide (fst c = cb))
                      (map (fun c => (c, st)) l)) = 1%nat).
  { intros l st Hndl. induction Hndl as [|x l Hx Hl IH]; intros Hin.
    - by apply elem_of_nil in Hin.
    - simpl. destruct (bool_decide_reflect (x = cb)) as [->|Hne].
      + simpl. f_equal.
        clear IH Hin. induction l as [|y l IHl]; [done|].
        apply not_elem_of_cons in Hx as [Hy Hx]. apply NoDup_cons in Hl as [_ Hl].
        simpl. rewrite bool_decide_eq_false_2 by done. by apply IHl.
      + apply IH. apply elem_of_cons in Hin as [->|]; done. }
  apply Hcount; [by apply NoDup_set_add|].
  unfold set_add. destruct (decide (cb ∈ subscribers (this w))); [done|].
  apply elem_of_app. right. by apply list_elem_of_singleton.
Qed.

End KernelSessions.

(** The running session is paused at [2500] and resumed at [7500], the
    clock showing [7500] when the resume is committed. *)
Lemma pause_resume_round_trip_witness :
  let w := world_of running_state in
  let w1 := snd (dispatch (clock_from 7499) no_throw
                   (INTERRUPTION kind_pause 2500) w) in
  let w2 := snd (dispatch (clock_from 7499) no_throw (RESUME 7500) w1) in
  status (state (this w)) = RUNNING
  /\ status (state (this w1)) = PAUSED
  /\ status (state (this w2)) = RUNNING
  /\ phaseStartTime (state (this w2))
     = phaseStartTime (state (this w)) + (7500 - 2500).
Proof.
  intros w w1 w2.
  assert (Hs : status (state (this w)) = RUNNING) by reflexivity.
  destruct (pause_resume_round_trip (clock_from 7499) no_throw w kind_pause
              2500 7500 Hs) as (H1 & _ & H2 & H3 & _).
  split; [exact Hs|]. split; [exact H1|]. split; [exact H2|exact H3].
Defined.

(** Pattern [box] is loaded into the idle kernel. *)
Lemma load_protocol_binds_witness :
  let w := world_of idle_state in
  let after := state (this (snd (dispatch (clock_from 0) no_throw
                                   (LOAD_PROTOCOL "box" 10) w))) in
  status (state (this w)) <> SAFETY_LOCK
  /\ BREATHING_PATTERNS "box"
     = Some (mkPattern "box" "Focus" (mkTimings 4 4 4 4) 6 1)
  /\ pattern after = Some (mkPattern "box" "Focus" (mkTimings 4 4 4 4) 6 1)
  /\ phaseDuration after = 4.
Proof.
  intros w after.
  assert (Hs : status (state (this w)) <> SAFETY_LOCK) by discriminate.
  assert (Hp : BREATHING_PATTERNS "box"
               = Some (mkPattern "box" "Focus" (mkTimings 4 4 4 4) 6 1))
    by reflexivity.
  destruct (load_protocol_binds (clock_from 0) no_throw w "box" 10 _ Hs I Hp)
    as (H1 & _ & _ & H2 & _).
  split; [exact Hs|]. split; [exact Hp|]. split; [exact H1|exact H2].
Defined.


(** Callback [7] subscribes twice to the idle kernel. *)
Lemma subscribe_is_idempotent_witness :
  let w := world_of idle_state in
  let w1 := snd (subscribe no_throw 7%nat w) in
  let w2 := snd (subscribe no_throw 7%nat w1) in
  NoDup (subscribers (this w))
  /\ subscribers (this w1) = [7%nat]
  /\ subscribers (this w2) = [7%nat].
Proof.
  intros w w1 w2.
  assert (Hnd : NoDup (subscribers (this w))) by constructor.
  destruct (subscribe_is_idempotent (clock_from 0) no_throw w 7%nat (BOOT 0)
              Hnd) as (_ & Hnew & _ & Hsame & _).
  split; [exact Hnd|].
  assert (H1 : subscribers (this w1) = [7%nat]).
  { apply Hnew. apply not_elem_of_nil. }
  split; [exact H1|].
  unfold w2, w1. rewrite Hsame. exact H1.
Defined.

(** ** The breaker and the guard together *)

Section BreakerAndGuard.

Variable Date_now : nat -> R.
Variable throws : list Effect -> bool.

Lemma loadSafetyRegistry_commits registry w :
  let w' := snd (loadSafetyRegistry Date_now throws registry w) in
  safetyRegistry (state (this w')) = registry
  /\ status (state (this w')) = status (state (this w))
  /\ pattern (state (this w')) = pattern (state (this w))
  /\ reads w' = S (S (reads w)).
Proof.
  intros w'. subst w'. unfold loadSafetyRegistry, bind, now.
  cbn [fst snd].
  set (w0 := mkWorld (this w) (S (reads w)) (trace w)).
  destruct (dispatch_commits Date_now throws
              (LOAD_SAFETY_REGISTRY registry (Date_now (reads w))) w0 _ w0
              eq_refl eq_refl) as [-> ->].
  done.
Qed.

Lemma complete_all_other pid other l (reg : gmap string SafetyProfile) :
  other <> pid -> complete_all pid l reg !! other = reg !! other.
Proof.
  intros Hother. induction l as [|c l IH] using rev_ind; [done|].
  rewrite complete_all_snoc. unfold registerSessionComplete.
  by rewrite lookup_insert_ne.
Qed.

(** X12. The breaker reaches the guard: when six consecutive adverse
    completions of a pattern, counted from a registry that did not know the
    pattern, have been registered and the resulting registry has been
    loaded into the kernel, a LOAD_PROTOCOL for that pattern dispatched
    while the clock still shows less than 24 hours after the sixth
    completion is refused: the status becomes SAFETY_LOCK and the bound
    pattern stays as it was.  The other patterns of the registry are not
    affected by the six completions. *)
Theorem breaker_locks_kernel (w : World) (pid : string)
    (reg : gmap string SafetyProfile) (cs : list Completion) (c6 : Completion)
    (ts : R) :
  reg !! pid = None ->
  length cs = 5%nat ->
  Forall adverse (cs ++ [c6]) ->
  let reg' := complete_all pid (cs ++ [c6]) reg in
  let w1 := snd (loadSafetyRegistry Date_now throws reg' w) in
  Date_now (reads w1) < at_time c6 + 24 * 60 * 60 * 1000 ->
  let w2 := snd (dispatch Date_now throws (LOAD_PROTOCOL pid ts) w1) in
  status (state (this w2)) = SAFETY_LOCK
  /\ pattern (state (this w2)) = pattern (state (this w))
  /\ (forall other, other <> pid -> reg' !! other = reg !! other).
Proof.
  intros Hnone Hlen Hadv reg' w1 Hclock w2. subst w2.
  destruct (loadSafetyRegistry_commits reg' w) as (Hreg & Hst & Hpat & _).
  fold w1 in Hreg, Hst, Hpat.
  apply Forall_app in Hadv as [Hcs Hc6]. apply Forall_inv in Hc6.
  unfold adverse in Hc6.
  assert (Hfresh : cummulative_stress_score (profile_of reg pid) = 0).
  { unfold profile_of. by rewrite Hnone. }
  destruct (adverse_below_threshold pid cs reg Hcs) as [Hs5 _].
  { rewrite Hfresh, Hlen. simpl. lra. }
  assert (Hprofile : reg' !! pid
                     = Some (update_record (at_time c6) false
                               (profile_of (complete_all pid cs reg) pid))).
  { unfold reg'. rewrite complete_all_snoc, lookup_registerSessionComplete.
    by rewrite Hc6. }
  destruct (update_record_adverse_gt (at_time c6)
              (profile_of (complete_all pid cs reg) pid)) as [_ Hlock].
  { rewrite Hs5, Hfresh, Hlen. simpl. lra. }
  assert (Hg := guard_LOAD_PROTOCOL_locked Date_now pid ts (state (this w1))
                  w1 _ (eq_trans (f_equal (fun m => m !! pid) Hreg) Hprofile)).
  rewrite Hlock in Hg. unfold DAY_MS in Hg. specialize (Hg Hclock).
  destruct (dispatch_commits Date_now throws _ w1 _ _ Hg eq_refl) as [-> _].
  cbn [state with_state]. split; [done|]. split; [by rewrite <- Hpat|].
  intros other Hother. by apply complete_all_other.
Qed.

End BreakerAndGuard.

(** ** The clock driver: [tick] *)

Section TickProperties.

Variable Date_now : nat -> R.
Variable throws : list Effect -> bool.
Variable nextPhaseSkipZero : BreathPhase -> BreathPattern -> BreathPhase.
Variable isCycleBoundary : BreathPhase -> bool.

#[local] Abbreviation tick' :=
  (tick Date_now throws nextPhaseSkipZero isCycleBoundary).
#[local] Abbreviation tick_events' :=
  (tick_events nextPhaseSkipZero isCycleBoundary).

Lemma guard_plain e s w :
  interceptable e = false ->
  defaultSafetyGuard Date_now e s w = (Ok (Some e), w).
Proof. by destruct e. Qed.

(** What a dispatch of an event that the guard lets pass commits. *)
Lemma dispatch_passes e w :
  defaultSafetyGuard Date_now e (state (this w)) w = (Ok (Some e), w) ->
  let w' := snd (dispatch Date_now throws e w) in
  state (this w')
  = derivedFields (Date_now (reads w)) (reduce (state (this w)) e)
  /\ eventLog (this w') = append_log e (eventLog (this w))
  /\ estimator (this w') = estimator (this w)
  /\ reads w' = S (reads w).
Proof.
  intros Hg w'. subst w'.
  destruct (dispatch_commits Date_now throws e w e w Hg eq_refl) as [-> ->].
  done.
Qed.

Lemma dispatch_returns e w :
  (forall tr mw ev before after,
     throws (tr ++ [MiddlewareCall mw ev before after]) = false) ->
  fst (dispatch Date_now throws e w) = Ok tt.
Proof.
  intros Hmw.
  destruct (guard_answers Date_now e (state (this w)) w)
    as (ge & w1 & Hg & Hthis & _ & _).
  rewrite (dispatch_unfold Date_now throws e w ge w1 Hg Hthis). cbv zeta.
  set (w0 := mkWorld _ _ _).
  unfold bind at 1, get at 1. cbn [fst snd]. unfold bind at 1.
  assert (Hall : forall mws w2,
            fst (forEach mws (fun mw =>
                   call throws (MiddlewareCall mw ge (state (this w))
                     (derivedFields (Date_now (reads w1))
                        (reduce (state (this w)) ge)))) w2) = Ok tt).
  { induction mws as [|mw mws IH]; intros w2; [done|].
    simpl. unfold bind at 1, call at 1. rewrite Hmw. apply IH. }
  specialize (Hall (middlewares (this w0)) w0).
  destruct (forEach _ _ w0) as [[[]|] wm]; [|discriminate].
  by destruct (notify_result throws wm) as (tr2 & -> & _).
Qed.

Lemma bind_dispatch {B} e (k : unit -> M B) w :
  (forall tr mw ev before after,
     throws (tr ++ [MiddlewareCall mw ev before after]) = false) ->
  bind (dispatch Date_now throws e) k w
  = k tt (snd (dispatch Date_now throws e w)).
Proof.
  intros Hmw. unfold bind. pose proof (dispatch_returns e w Hmw) as H.
  destruct (dispatch Date_now throws e w) as [[[]|] w']; [done|discriminate].
Qed.

Lemma dispatch_as_pair e w :
  (forall tr mw ev before after,
     throws (tr ++ [MiddlewareCall mw ev before after]) = false) ->
  dispatch Date_now throws e w = (Ok tt, snd (dispatch Date_now throws e w)).
Proof.
  intros Hmw. pose proof (dispatch_returns e w Hmw) as H.
  destruct (dispatch Date_now throws e w) as [[[]|] w']; [done|discriminate].
Qed.

(** The belief that the estimator of an updated kernel returns passes the
    guard. *)
Lemma guard_passes_estimate est obs dt ts s w :
  estimator_ok est -> 0 <= dt ->
  defaultSafetyGuard Date_now
    (BELIEF_UPDATE (fst (ASE.update (ASE.setProtocol (pattern s) est) obs dt))
       ts) s w
  = (Ok (Some (BELIEF_UPDATE
                 (fst (ASE.update (ASE.setProtocol (pattern s) est) obs dt))
                 ts)), w).
Proof.
  intros Hok Hdt.
  destruct (update_ok (ASE.setProtocol (pattern s) est) obs dt)
    as (_ & _ & _ & _ & (pe & Hpe & Hle) & _);
    [by apply estimator_ok_setProtocol|done|].
  destruct (setProtocol_target (pattern s) est) as [k Hk].
  rewrite Hk in Hle.
  apply (guard_passes_small_error Date_now _ ts s w pe Hpe).
  pose proof (max_mse_PROTOCOL_TARGETS k). lra.
Qed.

(** The world in which a tick makes its dispatches: the clock read once,
    the estimator updated. *)
Lemma tick_start dt obs w :
  let updated :=
    ASE.update
      (ASE.setProtocol (pattern (state (this w))) (estimator (this w)))
      obs dt in
  tick' dt obs w
  = (dispatch Date_now throws
       (BELIEF_UPDATE (fst updated) (Date_now (reads w))) ;;
     k <- get ;;
     (if decide (status (state k) = RUNNING) then
        match pattern (state k) with
        | Some p =>
          let elapsed :=
            (Date_now (reads w) - phaseStartTime (state k)) / 1000 in
          if Rge_dec elapsed (phaseDuration (state k)) then
            let nextPhase := nextPhaseSkipZero (phase (state k)) p in
            dispatch Date_now throws
              (PHASE_TRANSITION (phase (state k)) nextPhase
                 (Date_now (reads w))) ;;
            if isCycleBoundary nextPhase then
              k <- get ;;
              dispatch Date_now throws
                (CYCLE_COMPLETE (cycleCount (state k) + 1)
                   (Date_now (reads w)))
            else ret tt
          else ret tt
        | None => ret tt
        end
      else ret tt) ;;
     dispatch Date_now throws (TICK dt obs (Date_now (reads w))))
    (mkWorld (with_estimator (snd updated) (this w)) (S (reads w))
       (trace w)).
Proof. reflexivity. Qed.

(** A tick during which no middleware throws is the sequence of its
    dispatches. *)
Lemma tick_unfold dt obs w :
  (forall tr mw ev before after,
     throws (tr ++ [MiddlewareCall mw ev before after]) = false) ->
  estimator_ok (estimator (this w)) -> 0 <= dt ->
  let updated :=
    ASE.update
      (ASE.setProtocol (pattern (state (this w))) (estimator (this w)))
      obs dt in
  tick' dt obs w
  = (Ok tt,
     dispatch_all Date_now throws
       (tick_events' (Date_now (reads w)) (fst updated) dt obs
          (state (this w)))
       (mkWorld (with_estimator (snd updated) (this w)) (S (reads w))
          (trace w))).
Proof.
  intros Hmw Hok Hdt updated. rewrite tick_start. fold updated.
  set (w0 := mkWorld _ _ _). set (now_ := Date_now (reads w)).
  set (s := state (this w)).
  rewrite bind_dispatch by done.
  assert (Hg : defaultSafetyGuard Date_now (BELIEF_UPDATE (fst updated) now_)
                 (state (this w0)) w0
               = (Ok (Some (BELIEF_UPDATE (fst updated) now_)), w0)).
  { apply guard_passes_estimate; done. }
  destruct (dispatch_passes _ w0 Hg) as (Hs1 & _).
  set (w1 := snd (dispatch Date_now throws _ w0)) in *.
  unfold bind at 1, get at 1. cbn [fst snd].
  assert (Hst : status (state (this w1)) = status s) by (by rewrite Hs1).
  assert (Hpat : pattern (state (this w1)) = pattern s) by (by rewrite Hs1).
  assert (Hpst : phaseStartTime (state (this w1)) = phaseStartTime s)
    by (by rewrite Hs1).
  assert (Hpd : phaseDuration (state (this w1)) = phaseDuration s)
    by (by rewrite Hs1).
  assert (Hph : phase (state (this w1)) = phase s) by (by rewrite Hs1).
  assert (Hcc : cycleCount (state (this w1)) = cycleCount s)
    by (by rewrite Hs1).
  rewrite Hst, Hpat, Hpst, Hpd, Hph.
  unfold tick_events, phase_over. fold s.
  destruct (decide (status s = RUNNING)) as [Hrun|Hrun];
    [destruct (pattern s) as [p|] eqn:Hp;
     [destruct (Rge_dec _ _) as [Hdue|Hdue]|]|];
    try (cbn [app foldl dispatch_all]; unfold dispatch_all; cbn [foldl];
         fold w1; change (dispatch Date_now throws (TICK dt obs now_) w1
                          = (Ok tt, snd (dispatch Date_now throws
                                           (TICK dt obs now_) w1)));
         by apply dispatch_as_pair).
  unfold bind at 1. rewrite bind_dispatch by done.
  set (e2 := PHASE_TRANSITION _ _ _).
  destruct (dispatch_passes e2 w1 (guard_plain e2 _ w1 eq_refl))
    as (Hs2 & _).
  set (w2 := snd (dispatch Date_now throws e2 w1)) in *.
  assert (Hcc2 : cycleCount (state (this w2)) = cycleCount s).
  { rewrite Hs2. unfold e2. cbn [reduce]. rewrite Hpat. by rewrite <- Hcc. }
  destruct (isCycleBoundary _).
  - unfold bind at 1, get at 1. cbn [fst snd]. rewrite Hcc2.
    rewrite dispatch_as_pair by done.
    unfold dispatch_all. cbn [app foldl]. fold w1. fold e2. fold w2.
    by apply dispatch_as_pair.
  - unfold ret at 1. unfold dispatch_all. cbn [app foldl]. fold w1. fold e2.
    fold w2. by apply dispatch_as_pair.
Qed.

Lemma dispatch_all_estimator events w :
  estimator (this (dispatch_all Date_now throws events w))
  = estimator (this w).
Proof.
  revert w. induction events as [|e events IH]; intros w; [done|].
  change (dispatch_all Date_now throws (e :: events) w)
    with (dispatch_all Date_now throws events
            (snd (dispatch Date_now throws e w))).
  rewrite IH.
  destruct (guard_answers Date_now e (state (this w)) w)
    as (ge & w1 & Hg & Hthis & _ & _).
  by destruct (dispatch_commits Date_now throws e w ge w1 Hg Hthis)
    as [-> _].
Qed.

(** X13. A tick during which no middleware throws, made with a time step
    that is not negative on a kernel whose estimator holds real estimates
    and positive variances, reads the clock once, binds the state's pattern
    to the estimator and updates it, whatever the status, and then
    dispatches, all with that one clock reading as timestamp: the
    BELIEF_UPDATE with the belief the estimator returned; when the session
    is RUNNING with a pattern and the phase has lasted at least its
    duration, a PHASE_TRANSITION to the next phase, followed by a
    CYCLE_COMPLETE with the cycle count plus one when that phase is a cycle
    boundary; and the TICK.  It returns normally, and the estimator it
    leaves again holds real estimates and positive variances. *)
Theorem tick_dispatch_sequence (dt : R) (obs : Observation) (w : World) :
  (forall tr mw ev before after,
     throws (tr ++ [MiddlewareCall mw ev before after]) = false) ->
  estimator_ok (estimator (this w)) -> 0 <= dt ->
  let updated :=
    ASE.update
      (ASE.setProtocol (pattern (state (this w))) (estimator (this w)))
      obs dt in
  let events :=
    tick_events' (Date_now (reads w)) (fst updated) dt obs
      (state (this w)) in
  tick' dt obs w
  = (Ok tt,
     dispatch_all Date_now throws events
       (mkWorld (with_estimator (snd updated) (this w)) (S (reads w))
          (trace w)))
  /\ estimator (this (snd (tick' dt obs w))) = snd updated
  /\ estimator_ok (snd updated)
  /\ (2 <= length events <= 4)%nat.
Proof.
  intros Hmw Hok Hdt updated events.
  rewrite (tick_unfold dt obs w Hmw Hok Hdt). fold updated events.
  split; [done|]. cbn [snd]. rewrite dispatch_all_estimator.
  split; [done|]. split.
  - apply update_ok; [by apply estimator_ok_setProtocol|done].
  - unfold events, tick_events.
    destruct (phase_over _ _); [destruct (isCycleBoundary _)|]; simpl; lia.
Qed.

(** X14. Under the same conditions (no middleware throws, the estimator
    holds real estimates and positive variances, the time step is not
    negative): when the session is RUNNING and the current phase has lasted
    at least its duration at the tick's clock reading, the tick moves to the
    next phase of the phase machine: the phase duration becomes the
    pattern's timing of that phase and the phase starts at the tick's clock
    reading (time by which the previous phase overran is not carried
    over); the cycle count grows by one exactly when the new phase is a
    cycle boundary.  Status and pattern are kept, the belief is the
    estimator's and the observation is recorded. *)
Theorem tick_phase_transition (dt : R) (obs : Observation) (w : World)
    (p : BreathPattern) :
  (forall tr mw ev before after,
     throws (tr ++ [MiddlewareCall mw ev before after]) = false) ->
  estimator_ok (estimator (this w)) -> 0 <= dt ->
  let before := state (this w) in
  let now_ := Date_now (reads w) in
  status before = RUNNING ->
  pattern before = Some p ->
  (now_ - phaseStartTime before) / 1000 >= phaseDuration before ->
  let next := nextPhaseSkipZero (phase before) p in
  let after := state (this (snd (tick' dt obs w))) in
  phase after = next
  /\ phaseDuration after = timings p next
  /\ phaseStartTime after = now_
  /\ cycleCount after
     = (if isCycleBoundary next then cycleCount before + 1
        else cycleCount before)
  /\ status after = RUNNING
  /\ pattern after = Some p
  /\ belief after
     = fst (ASE.update (ASE.setProtocol (Some p) (estimator (this w))) obs dt)
  /\ lastObservation after = Some obs.
Proof.
  intros Hmw Hok Hdt before now_ Hrun Hp Hdue next after. subst after.
  rewrite (tick_unfold dt obs w Hmw Hok Hdt). cbn [snd].
  fold before. fold now_. rewrite Hp.
  set (b := fst _). set (w0 := mkWorld _ _ _).
  assert (Hev : tick_events' now_ b dt obs before
                = BELIEF_UPDATE b now_
                  :: PHASE_TRANSITION (phase before) next now_
                  :: (if isCycleBoundary next
                      then [CYCLE_COMPLETE (cycleCount before + 1) now_]
                      else [])
                  ++ [TICK dt obs now_]).
  { unfold tick_events, phase_over. rewrite Hp.
    destruct (decide (status before = RUNNING)); [|done].
    by destruct (Rge_dec _ _). }
  rewrite Hev. unfold dispatch_all. cbn [foldl].
  assert (Hg : defaultSafetyGuard Date_now (BELIEF_UPDATE b now_)
                 (state (this w0)) w0
               = (Ok (Some (BELIEF_UPDATE b now_)), w0)).
  { unfold b. rewrite <- Hp. apply guard_passes_estimate; done. }
  destruct (dispatch_passes _ w0 Hg) as (Hs1 & _).
  set (w1 := snd (dispatch Date_now throws _ w0)) in *.
  set (e2 := PHASE_TRANSITION _ _ _).
  destruct (dispatch_passes e2 w1 (guard_plain e2 _ w1 eq_refl))
    as (Hs2 & _).
  set (w2 := snd (dispatch Date_now throws e2 w1)) in *.
  assert (Hpat1 : pattern (state (this w1)) = Some p)
    by (rewrite Hs1; exact Hp).
  unfold e2 in Hs2. cbn [reduce] in Hs2. rewrite Hpat1 in Hs2.
  rewrite Hs1 in Hs2. change (state (this w0)) with before in Hs2.
  destruct (isCycleBoundary next); cbn [app foldl].
  - set (e3 := CYCLE_COMPLETE _ _).
    destruct (dispatch_passes e3 w2 (guard_plain e3 _ w2 eq_refl))
      as (Hs3 & _).
    set (w3 := snd (dispatch Date_now throws e3 w2)) in *.
    set (e4 := TICK _ _ _).
    destruct (dispatch_passes e4 w3 (guard_plain e4 _ w3 eq_refl))
      as (-> & _).
    rewrite Hs3, Hs2. by cbn.
  - set (e4 := TICK _ _ _).
    destruct (dispatch_passes e4 w2 (guard_plain e4 _ w2 eq_refl))
      as (-> & _).
    rewrite Hs2. by cbn.
Qed.

(** X15. Under the same conditions, in every other case (the status is
    not RUNNING, no pattern is bound, or the phase has not lasted its
    duration yet) the tick leaves
    the phase, its start and duration, the cycle count, the status and the
    pattern as they were, so that a tick on an idle, paused, halted or
    locked kernel still replaces the belief by the estimator's and records
    the observation and the time of the tick; it logs the BELIEF_UPDATE and
    the TICK and reads the clock three times. *)
Theorem tick_within_phase (dt : R) (obs : Observation) (w : World) :
  (forall tr mw ev before after,
     throws (tr ++ [MiddlewareCall mw ev before after]) = false) ->
  estimator_ok (estimator (this w)) -> 0 <= dt ->
  let before := state (this w) in
  let now_ := Date_now (reads w) in
  phase_over now_ before = None ->
  let b :=
    fst (ASE.update
           (ASE.setProtocol (pattern before) (estimator (this w))) obs dt) in
  let w' := snd (tick' dt obs w) in
  let after := state (this w') in
  phase after = phase before
  /\ phaseStartTime after = phaseStartTime before
  /\ phaseDuration after = phaseDuration before
  /\ cycleCount after = cycleCount before
  /\ status after = status before
  /\ pattern after = pattern before
  /\ belief after = b
  /\ lastObservation after = Some obs
  /\ lastUpdateTimestamp after = now_
  /\ eventLog (this w')
     = append_log (TICK dt obs now_)
         (append_log (BELIEF_UPDATE b now_) (eventLog (this w)))
  /\ reads w' = (reads w + 3)%nat.
Proof.
  intros Hmw Hok Hdt before now_ Hover b w' after. subst after w'.
  rewrite (tick_unfold dt obs w Hmw Hok Hdt). cbn [snd].
  fold before. fold now_. fold b.
  set (w0 := mkWorld _ _ _).
  unfold tick_events. rewrite Hover. unfold dispatch_all. cbn [app foldl].
  assert (Hg : defaultSafetyGuard Date_now (BELIEF_UPDATE b now_)
                 (state (this w0)) w0
               = (Ok (Some (BELIEF_UPDATE b now_)), w0)).
  { apply guard_passes_estimate; done. }
  destruct (dispatch_passes _ w0 Hg) as (Hs1 & Hl1 & _ & Hr1).
  set (w1 := snd (dispatch Date_now throws _ w0)) in *.
  set (e4 := TICK _ _ _).
  destruct (dispatch_passes e4 w1 (guard_plain e4 _ w1 eq_refl))
    as (-> & -> & _ & ->).
  rewrite Hs1, Hl1, Hr1. cbn. repeat split; try done. lia.
Qed.

Lemma keeps_bind {A B} (Q : World -> Prop) (m : M A) (k : A -> M B) w :
  Q (snd (m w)) -> (forall a w', Q w' -> Q (snd (k a w'))) ->
  Q (snd (bind m k w)).
Proof.
  intros Hm Hk. unfold bind. destruct (m w) as [[a|] w']; cbn in *; auto.
Qed.

Lemma keeps_dispatch (P : RuntimeState -> Prop) est e w :
  interceptable e = false ->
  (forall s t, P s -> P (derivedFields t (reduce s e))) ->
  P (state (this w)) /\ estimator (this w) = est ->
  P (state (this (snd (dispatch Date_now throws e w))))
  /\ estimator (this (snd (dispatch Date_now throws e w))) = est.
Proof.
  intros He Hstable [HP Hest].
  destruct (dispatch_passes e w (guard_plain e _ w He)) as (-> & _ & -> & _).
  split; [by apply Hstable|done].
Qed.

(** X16. Whatever the middlewares and subscribers do, also when one of the
    tick's dispatches ends in an exception and the tick is cut short, a
    tick with a time step that is not negative on a kernel whose estimator
    holds real estimates and positive variances leaves the status, the pattern, the session start and the safety
    registry as they were, and it has replaced the belief of the state by
    the belief the estimator returned: the kernel never halts a session on
    a belief of its own estimator. *)
Theorem tick_keeps_session (dt : R) (obs : Observation) (w : World) :
  estimator_ok (estimator (this w)) -> 0 <= dt ->
  let before := state (this w) in
  let updated :=
    ASE.update
      (ASE.setProtocol (pattern before) (estimator (this w))) obs dt in
  let w' := snd (tick' dt obs w) in
  let after := state (this w') in
  status after = status before
  /\ pattern after = pattern before
  /\ sessionStartTime after = sessionStartTime before
  /\ safetyRegistry after = safetyRegistry before
  /\ belief after = fst updated
  /\ estimator (this w') = snd updated
  /\ estimator_ok (estimator (this w')).
Proof.
  intros Hok Hdt before updated w' after. subst after w'.
  set (P := fun s : RuntimeState =>
              status s = status before /\ pattern s = pattern before
              /\ sessionStartTime s = sessionStartTime before
              /\ safetyRegistry s = safetyRegistry before
              /\ belief s = fst updated).
  set (Q := fun w' : World =>
              P (state (this w')) /\ estimator (this w') = snd updated).
  assert (HQ : Q (snd (tick' dt obs w))).
  { rewrite tick_start. fold before. fold updated.
    set (w0 := mkWorld _ _ _). set (now_ := Date_now (reads w)).
    assert (Hplain : forall e w1,
              interceptable e = false ->
              (forall s t, P s -> P (derivedFields t (reduce s e))) ->
              Q w1 -> Q (snd (dispatch Date_now throws e w1))).
    { intros e w1 He Hst HQ. by apply keeps_dispatch. }
    assert (Htick : forall s t, P s ->
              P (derivedFields t (reduce s (TICK dt obs now_)))).
    { intros s t HP. exact HP. }
    assert (Hcc : forall c s t, P s ->
              P (derivedFields t (reduce s (CYCLE_COMPLETE c now_)))).
    { intros c s t HP. exact HP. }
    assert (Hpt : forall f n s t, P s ->
              P (derivedFields t (reduce s (PHASE_TRANSITION f n now_)))).
    { intros f n s t HP. cbn [reduce]. by destruct (pattern s). }
    apply (keeps_bind Q).
    - assert (Hg : defaultSafetyGuard Date_now
                     (BELIEF_UPDATE (fst updated) now_) (state (this w0)) w0
                   = (Ok (Some (BELIEF_UPDATE (fst updated) now_)), w0)).
      { apply guard_passes_estimate; done. }
      destruct (dispatch_passes _ w0 Hg) as (Hs1 & _ & He1 & _).
      unfold Q. rewrite Hs1, He1. by cbn.
    - intros [] w1 HQ1. apply (keeps_bind Q); [exact HQ1|].
      intros k w2 HQ2. apply (keeps_bind Q).
      + destruct (decide (status (state k) = RUNNING)); [|exact HQ2].
        destruct (pattern (state k)) as [p|]; [|exact HQ2].
        cbv zeta. destruct (Rge_dec _ _); [|exact HQ2].
        apply (keeps_bind Q); [apply Hplain; [done|apply Hpt|exact HQ2]|].
        intros [] w3 HQ3. destruct (isCycleBoundary _); [|exact HQ3].
        apply (keeps_bind Q); [exact HQ3|].
        intros k' w4 HQ4. apply Hplain; [done|apply Hcc|exact HQ4].
      + intros [] w3 HQ3. apply Hplain; [done|apply Htick|exact HQ3]. }
  destruct HQ as [(H1 & H2 & H3 & H4 & H5) H6].
  do 6 (split; [assumption|]). rewrite H6.
  apply update_ok; [by apply estimator_ok_setProtocol|done].
Qed.

End TickProperties.

(** Six failed sessions of pattern [box] are registered and the registry
    is loaded at [6000]; the pattern is asked for right afterwards. *)
Lemma breaker_locks_kernel_witness :
  let cs := [completion 1000 10; completion 2000 10; completion 3000 10;
             completion 4000 10; completion 5000 10] in
  let c6 := completion 6000 10 in
  let reg := complete_all "box" (cs ++ [c6]) ∅ in
  let w := world_of idle_state in
  let w1 := snd (loadSafetyRegistry (clock_from 6000) no_throw reg w) in
  let w2 := snd (dispatch (clock_from 6000) no_throw
                   (LOAD_PROTOCOL "box" 6002) w1) in
  Forall adverse (cs ++ [c6])
  /\ clock_from 6000 (reads w1) < at_time c6 + 24 * 60 * 60 * 1000
  /\ status (state (this w2)) = SAFETY_LOCK
  /\ pattern (state (this w2)) = None.
Proof.
  intros cs c6 reg w w1 w2.
  assert (Hadv : Forall adverse (cs ++ [c6])).
  { assert (H10 : adverse (completion 6000 10)).
    { unfold adverse, isSuccess. simpl.
      replace (Rgtb 10 45) with false; [reflexivity|].
      symmetry. apply Rgtb_false. lra. }
    repeat constructor; exact H10. }
  assert (Hclock : clock_from 6000 (reads w1)
                   < at_time c6 + 24 * 60 * 60 * 1000).
  { unfold w1.
    destruct (loadSafetyRegistry_commits (clock_from 6000) no_throw reg w)
      as (_ & _ & _ & ->).
    unfold clock_from. simpl. lra. }
  split; [exact Hadv|]. split; [exact Hclock|].
  assert (Hnone : (∅ : gmap string SafetyProfile) !! "box" = None)
    by reflexivity.
  destruct (breaker_locks_kernel (clock_from 6000) no_throw w "box" ∅ cs c6
              6002 Hnone eq_refl Hadv Hclock) as (H1 & H2 & _).
  split; [exact H1|exact H2].
Defined.

(** A tick of a tenth of a second on the running session of pattern [box],
    at [2000], one second into the first phase. *)
Lemma tick_dispatch_sequence_witness :
  let w := world_of running_state in
  let r := tick (clock_from 2000) no_throw round_robin starts_cycle
             0.1 (observation_with None) w in
  estimator_ok (estimator (this w))
  /\ 0 <= 0.1
  /\ fst r = Ok tt
  /\ estimator_ok (estimator (this (snd r))).
Proof.
  intros w r.
  assert (Hok : estimator_ok (estimator (this w)))
    by apply estimator_ok_constructor.
  assert (Hdt : 0 <= 0.1) by lra.
  destruct (tick_dispatch_sequence (clock_from 2000) no_throw round_robin
              starts_cycle 0.1 (observation_with None) w
              (fun _ _ _ _ _ => eq_refl) Hok Hdt) as (H1 & H2 & H3 & _).
  split; [exact Hok|]. split; [exact Hdt|]. split.
  - unfold r. by rewrite H1.
  - unfold r. by rewrite H2.
Defined.

(** The same session at [5000]: the four seconds of [inhale] are over. *)
Lemma tick_phase_transition_witness :
  let w := world_of running_state in
  let after :=
    state (this (snd (tick (clock_from 5000) no_throw round_robin
                        starts_cycle 0.1 (observation_with None) w))) in
  status (state (this w)) = RUNNING
  /\ (clock_from 5000 (reads w) - phaseStartTime (state (this w))) / 1000
     >= phaseDuration (state (this w))
  /\ phase after = holdIn
  /\ phaseStartTime after = clock_from 5000 0
  /\ cycleCount after = cycleCount (state (this w)).
Proof.
  intros w after.
  assert (Hok : estimator_ok (estimator (this w)))
    by apply estimator_ok_constructor.
  assert (Hdt : 0 <= 0.1) by lra.
  assert (Hrun : status (state (this w)) = RUNNING) by reflexivity.
  assert (Hp : pattern (state (this w))
               = Some (mkPattern "box" "Focus" (mkTimings 4 4 4 4) 6 1))
    by reflexivity.
  assert (Hdue : (clock_from 5000 (reads w)
                  - phaseStartTime (state (this w))) / 1000
                 >= phaseDuration (state (this w))).
  { change (phaseStartTime (state (this w))) with 1000.
    change (phaseDuration (state (this w))) with 4.
    unfold clock_from. simpl. lra. }
  destruct (tick_phase_transition (clock_from 5000) no_throw round_robin
              starts_cycle 0.1 (observation_with None) w _
              (fun _ _ _ _ _ => eq_refl) Hok Hdt Hrun Hp Hdue)
    as (H1 & _ & H3 & H4 & _).
  split; [exact Hrun|]. split; [exact Hdue|]. split; [exact H1|].
  split; [exact H3|exact H4].
Defined.

(** A tick on the idle kernel. *)
Lemma tick_within_phase_witness :
  let w := world_of idle_state in
  let w' := snd (tick (clock_from 2000) no_throw round_robin starts_cycle
                   0.1 (observation_with None) w) in
  phase_over (clock_from 2000 (reads w)) (state (this w)) = None
  /\ status (state (this w')) = IDLE
  /\ lastObservation (state (this w')) = Some (observation_with None)
  /\ length (eventLog (this w')) = 2%nat.
Proof.
  intros w w'.
  assert (Hok : estimator_ok (estimator (this w)))
    by apply estimator_ok_constructor.
  assert (Hdt : 0 <= 0.1) by lra.
  assert (Hover : phase_over (clock_from 2000 (reads w)) (state (this w))
                  = None) by reflexivity.
  destruct (tick_within_phase (clock_from 2000) no_throw round_robin
              starts_cycle 0.1 (observation_with None) w
              (fun _ _ _ _ _ => eq_refl) Hok Hdt Hover)
    as (_ & _ & _ & _ & H5 & _ & _ & H8 & _ & H10 & _).
  split; [exact Hover|]. split; [exact H5|]. split; [exact H8|].
  unfold w'. rewrite H10. reflexivity.
Defined.

(** A tick on the running session while every middleware throws. *)
Lemma tick_keeps_session_witness :
  let w := world_of running_state in
  let r := tick (clock_from 2000) middleware_throws round_robin starts_cycle
             0.1 (observation_with None) w in
  estimator_ok (estimator (this w))
  /\ 0 <= 0.1
  /\ status (state (this (snd r))) = RUNNING
  /\ estimator_ok (estimator (this (snd r))).
Proof.
  intros w r.
  assert (Hok : estimator_ok (estimator (this w)))
    by apply estimator_ok_constructor.
  assert (Hdt : 0 <= 0.1) by lra.
  destruct (tick_keeps_session (clock_from 2000) middleware_throws
              round_robin starts_cycle 0.1 (observation_with None) w Hok Hdt)
    as (H1 & _ & _ & _ & _ & _ & H7).
  split; [exact Hok|]. split; [exact Hdt|]. split; [exact H1|exact H7].
Defined.

(** ** The estimator: prediction and correction *)

Lemma exp_decay_range (dt tau : R) :
  0 <= dt -> 0 < tau -> 0 < exp (- dt / tau) <= 1.
Proof.
  intros Hdt Htau. split; [apply exp_pos|].
  assert (Hneg : - dt / tau <= 0).
  { unfold Rdiv. assert (0 < / tau) by (by apply Rinv_0_lt_compat). nra. }
  destruct Hneg as [Hlt|Heq].
  - left. rewrite <- exp_0. by apply exp_increasing.
  - rewrite Heq, exp_0. lra.
Qed.

Lemma clamp_relax (a goal e : R) :
  0 <= a <= 1 -> 0 <= goal <= 1 -> 0 < e <= 1 ->
  Rmax 0 (Rmin 1 (a + (1 - e) * (goal - a))) = goal + e * (a - goal).
Proof.
  intros Ha Hg He.
  assert (H : 0 <= a + (1 - e) * (goal - a) <= 1) by nra.
  rewrite Rmin_right by lra. rewrite Rmax_right by lra. ring.
Qed.

Lemma between_relaxed (tau dt a goal : R) :
  0 <= dt -> 0 < tau -> between a (relaxed tau dt a goal) goal.
Proof.
  intros Hdt Htau. unfold between, relaxed.
  pose proof (exp_decay_range dt tau Hdt Htau) as He.
  unfold Rmin, Rmax. destruct (Rle_dec a goal); nra.
Qed.

Lemma PROTOCOL_TARGETS_range k :
  let tg := ASE.PROTOCOL_TARGETS k in
  0 <= TargetState.arousal tg <= 1
  /\ 0 <= TargetState.attention tg <= 1
  /\ 0 <= TargetState.rhythm_alignment tg <= 1.
Proof. destruct k; simpl; lra. Qed.

(** The prediction from estimates in the unit interval. *)
Lemma predict_relaxed est dt (a t r va vt vr : R) pe c k :
  ASE.belief est = mkBelief a t r va vt vr pe c ->
  ASE.target est = ASE.PROTOCOL_TARGETS k ->
  0 <= a <= 1 -> 0 <= t <= 1 -> 0 <= r <= 1 -> 0 <= dt ->
  let tg := ASE.target est in
  ASE.predict est dt
  = mkBelief (relaxed 15 dt a (TargetState.arousal tg))
      (relaxed 5 dt t (TargetState.attention tg))
      (relaxed 10 dt r (TargetState.rhythm_alignment tg))
      (va + 0.01 * dt) (vt + 0.01 * dt) (vr + 0.01 * dt) 0 0.
Proof.
  intros Hb Htg Ha Ht Hr Hdt tg.
  destruct (PROTOCOL_TARGETS_range k) as (Hta & Htt & Htr).
  rewrite <- Htg in Hta, Htt, Htr. fold tg in Hta, Htt, Htr.
  unfold ASE.predict. rewrite Hb. fold tg.
  cbn [arousal attention rhythm_alignment arousal_variance
       attention_variance rhythm_variance Number.add Number.sub Number.mul
       lift2 lift1 Math_exp].
  rewrite !clamp_Fin.
  unfold ASE.TAU_AROUSAL, ASE.TAU_ATTENTION, ASE.TAU_RHYTHM,
    ASE.PROCESS_NOISE, relaxed.
  rewrite !clamp_relax; try done; apply exp_decay_range; lra.
Qed.

(** X17. The prediction step is an exponential relaxation: from estimates
    in the unit interval and a protocol target, after a time step that is
    not negative, each predicted estimate is the target plus the previous
    distance from it shrunk by the factor exp(-dt/tau), with tau = 15 s
    for arousal, 5 s for attention and 10 s for rhythm alignment, so it
    lies between the previous estimate and the target and never
    overshoots; each variance grows by 0.01 dt. *)
Theorem predict_relaxes_toward_target (est : ASE.Estimator) (dt : R)
    (a t r va vt vr : R) (pe c : number) (k : ASE.TargetKey) :
  ASE.belief est = mkBelief a t r va vt vr pe c ->
  ASE.target est = ASE.PROTOCOL_TARGETS k ->
  0 <= a <= 1 -> 0 <= t <= 1 -> 0 <= r <= 1 -> 0 <= dt ->
  let tg := ASE.target est in
  let a' := relaxed 15 dt a (TargetState.arousal tg) in
  let t' := relaxed 5 dt t (TargetState.attention tg) in
  let r' := relaxed 10 dt r (TargetState.rhythm_alignment tg) in
  ASE.predict est dt
  = mkBelief a' t' r' (va + 0.01 * dt) (vt + 0.01 * dt) (vr + 0.01 * dt) 0 0
  /\ between a a' (TargetState.arousal tg)
  /\ between t t' (TargetState.attention tg)
  /\ between r r' (TargetState.rhythm_alignment tg).
Proof.
  intros Hb Htg Ha Ht Hr Hdt tg a' t' r'.
  split; [by apply (predict_relaxed est dt a t r va vt vr pe c k)|].
  repeat split; apply between_relaxed; lra.
Qed.

Lemma usable_heart_rate_None p obs :
  usable_heart_rate obs = None -> ASE.correct_arousal p obs = p.
Proof.
  unfold usable_heart_rate, ASE.correct_arousal.
  destruct (heart_rate obs), (hr_confidence obs); try done.
  by destruct (Rgtb _ _).
Qed.

Lemma clamp_unit (x : R) : 0 <= x <= 1 -> ASE.clamp (Fin x) = Fin x.
Proof.
  intros H. rewrite clamp_Fin. f_equal.
  rewrite Rmin_right by lra. by rewrite Rmax_right by lra.
Qed.

(** X18. Without a heart rate that comes with a confidence above 0.5 (no
    reading, no confidence, or a confidence of at most 0.5) an update
    leaves the arousal estimate to the relaxation toward the target alone
    and grows the arousal variance by 0.01 dt: nothing in the update ever
    reduces that variance again. *)
Theorem update_without_heart_rate (est : ASE.Estimator) (obs : Observation)
    (dt : R) (a t r va vt vr : R) (pe c : number) (k : ASE.TargetKey) :
  ASE.belief est = mkBelief a t r va vt vr pe c ->
  ASE.target est = ASE.PROTOCOL_TARGETS k ->
  0 <= a <= 1 -> 0 <= t <= 1 -> 0 <= r <= 1 -> 0 <= dt ->
  usable_heart_rate obs = None ->
  let b := fst (ASE.update est obs dt) in
  arousal b
  = Fin (relaxed 15 dt a (TargetState.arousal (ASE.target est)))
  /\ arousal_variance b = Fin (va + 0.01 * dt).
Proof.
  intros Hb Htg Ha Ht Hr Hdt Hhr b. subst b.
  unfold ASE.update. cbn [fst arousal arousal_variance].
  rewrite (predict_relaxed est dt a t r va vt vr pe c k) by done.
  unfold ASE.correct. rewrite usable_heart_rate_None by done.
  assert (Hrange : 0 <= relaxed 15 dt a (TargetState.arousal (ASE.target est))
                   <= 1).
  { destruct (PROTOCOL_TARGETS_range k) as (Hta & _). rewrite <- Htg in Hta.
    assert (H15 : 0 < 15) by lra.
    pose proof (between_relaxed 15 dt a
                  (TargetState.arousal (ASE.target est)) Hdt H15) as Hbt.
    unfold between, Rmin, Rmax in Hbt.
    destruct (Rle_dec a (TargetState.arousal (ASE.target est))); lra. }
  destruct (ASE.isDistracted obs);
    cbn [arousal arousal_variance]; by rewrite clamp_unit.
Qed.

Lemma usable_heart_rate_Some p obs hr :
  usable_heart_rate obs = Some hr ->
  ASE.correct_arousal p obs
  = let K_arousal :=
      (arousal_variance p
       / (arousal_variance p + ASE.MEASUREMENT_NOISE_HR))%js in
    let innovation := (Fin (normalized hr) - arousal p)%js in
    mkBelief (arousal p + K_arousal * innovation)%js (attention p)
      (rhythm_alignment p) ((1 - K_arousal) * arousal_variance p)%js
      (attention_variance p) (rhythm_variance p) (prediction_error p)
      (confidence p).
Proof.
  unfold usable_heart_rate, ASE.correct_arousal.
  destruct (heart_rate obs) as [h|], (hr_confidence obs) as [q|]; try done.
  destruct (Rgtb _ _); [|done]. intros [= ->]. reflexivity.
Qed.

Lemma kalman_between (a z v n : R) :
  0 < v -> 0 < n -> between a (a + v / (v + n) * (z - a)) z.
Proof.
  intros Hv Hn.
  assert (HK : 0 < v / (v + n) < 1).
  { split; [apply Rdiv_lt_0_compat; lra|].
    apply (Rmult_lt_reg_r (v + n)); [lra|].
    unfold Rdiv. rewrite Rmult_assoc, Rinv_l by lra. lra. }
  unfold between, Rmin, Rmax. destruct (Rle_dec a z); nra.
Qed.

Lemma kalman_shrinks (v n : R) :
  0 < v -> 0 < n ->
  (1 - v / (v + n)) * v = n * v / (v + n)
  /\ 0 < (1 - v / (v + n)) * v < v
  /\ (1 - v / (v + n)) * v < n.
Proof.
  intros Hv Hn.
  assert (Heq : (1 - v / (v + n)) * v = n * v / (v + n)) by (field; lra).
  split; [done|]. rewrite Heq.
  assert (Hpos : 0 < / (v + n)) by (apply Rinv_0_lt_compat; lra).
  assert (Hone : (v + n) * / (v + n) = 1) by (apply Rinv_r; lra).
  unfold Rdiv. repeat split; nra.
Qed.

(** X19. A heart rate that comes with a confidence above 0.5 corrects the
    arousal estimate by a Kalman step with measurement noise 0.15: from a
    predicted arousal in the unit interval with a positive variance, the
    corrected arousal is the prediction moved by the gain v/(v + 0.15)
    toward the heart rate normalised to (hr - 50)/70 and clamped to the
    unit interval, so it lies between the two; the variance becomes
    0.15 v/(v + 0.15), which is positive, smaller than before and below
    0.15.  How far the confidence exceeds 0.5 plays no part. *)
Theorem kalman_arousal_correction (p : BeliefState) (obs : Observation)
    (dt hr a va : R) :
  usable_heart_rate obs = Some hr ->
  arousal p = Fin a -> arousal_variance p = Fin va ->
  0 <= a <= 1 -> 0 < va ->
  let a' := a + va / (va + 0.15) * (normalized hr - a) in
  let va' := 0.15 * va / (va + 0.15) in
  arousal (ASE.correct p obs dt) = Fin a'
  /\ arousal_variance (ASE.correct p obs dt) = Fin va'
  /\ between a a' (normalized hr)
  /\ 0 < va' < va /\ va' < 0.15.
Proof.
  intros Hhr Hpa Hpv Ha Hva a' va'.
  assert (Hn : 0 < 0.15) by lra.
  pose proof (kalman_between a (normalized hr) va 0.15 Hva Hn) as Hbt.
  destruct (kalman_shrinks va 0.15 Hva Hn) as (Heq & Hlt & Hlt').
  assert (Hz : 0 <= normalized hr <= 1) by apply clamp_range.
  assert (Hrange : 0 <= a' <= 1).
  { unfold between, Rmin, Rmax in Hbt. fold a' in Hbt.
    destruct (Rle_dec a (normalized hr)); lra. }
  unfold ASE.correct. rewrite (usable_heart_rate_Some p obs hr Hhr).
  rewrite Hpa, Hpv. unfold ASE.MEASUREMENT_NOISE_HR.
  cbv zeta. cbn [Number.add lift2]. rewrite div_Fin by lra.
  cbn [Number.add Number.sub Number.mul lift2].
  fold a'. rewrite Heq. fold va'.
  rewrite Heq in Hlt, Hlt'. unfold between in Hbt.
  destruct (ASE.isDistracted obs); cbn [arousal arousal_variance];
    rewrite clamp_unit by done; repeat split; try done;
    subst a' va'; lra.
Qed.

(** X20. The context correction.  From a predicted attention and rhythm
    alignment in the unit interval with positive variances and a time
    step that is not negative: when the observation shows distraction (a
    pause interaction, or a hidden page) the attention moves by the gain
    v/(v + 0.05) toward 0.1, staying between the two, the rhythm alignment
    drops by 0.5 dt but not below 0, the attention variance shrinks to
    0.05 v/(v + 0.05) and the rhythm variance is kept; otherwise attention
    and rhythm alignment grow by 0.15 dt and 0.1 dt, capped at 1, and the
    two variances shrink by 0.02 dt and 0.01 dt, but not below 0.05. *)
Theorem context_correction (p : BeliefState) (obs : Observation)
    (dt t r vt vr : R) :
  attention p = Fin t -> rhythm_alignment p = Fin r ->
  attention_variance p = Fin vt -> rhythm_variance p = Fin vr ->
  0 <= t <= 1 -> 0 <= r <= 1 -> 0 < vt -> 0 <= dt ->
  let b := ASE.correct p obs dt in
  if ASE.isDistracted obs then
    let t' := t + vt / (vt + 0.05) * (0.1 - t) in
    attention b = Fin t' /\ between t t' 0.1
    /\ rhythm_alignment b = Fin (Rmax 0 (r - 0.5 * dt))
    /\ attention_variance b = Fin (0.05 * vt / (vt + 0.05))
    /\ 0.05 * vt / (vt + 0.05) < vt
    /\ rhythm_variance b = Fin vr
  else
    attention b = Fin (Rmin 1 (t + 0.15 * dt))
    /\ rhythm_alignment b = Fin (Rmin 1 (r + 0.1 * dt))
    /\ attention_variance b = Fin (Rmax 0.05 (vt - 0.02 * dt))
    /\ rhythm_variance b = Fin (Rmax 0.05 (vr - 0.01 * dt)).
Proof.
  intros Hpt Hpr Hpvt Hpvr Ht Hr Hvt Hdt b. subst b.
  assert (Hn : 0 < 0.05) by lra.
  pose proof (kalman_between t 0.1 vt 0.05 Hvt Hn) as Hbt.
  destruct (kalman_shrinks vt 0.05 Hvt Hn) as (Heq & Hlt & _).
  assert (Hfields : forall q,
            attention (ASE.correct_arousal p q) = attention p
            /\ rhythm_alignment (ASE.correct_arousal p q)
               = rhythm_alignment p
            /\ attention_variance (ASE.correct_arousal p q)
               = attention_variance p
            /\ rhythm_variance (ASE.correct_arousal p q)
               = rhythm_variance p).
  { intros q. unfold ASE.correct_arousal.
    destruct (heart_rate q), (hr_confidence q); try done.
    by destruct (Rgtb _ _). }
  destruct (Hfields obs) as (Hf1 & Hf2 & Hf3 & Hf4).
  unfold ASE.correct. destruct (ASE.isDistracted obs).
  - cbn [attention rhythm_alignment attention_variance rhythm_variance].
    rewrite Hf2, Hf4, Hpt, Hpr, Hpvt, Hpvr.
    unfold ASE.MEASUREMENT_NOISE_CONTEXT.
    cbn [Number.add lift2]. rewrite div_Fin by lra.
    cbn [Number.add Number.sub Number.mul lift2 Math_max].
    rewrite Heq.
    assert (Hrange : 0 <= t + vt / (vt + 0.05) * (0.1 - t) <= 1).
    { unfold between, Rmin, Rmax in Hbt. destruct (Rle_dec t 0.1); lra. }
    rewrite clamp_unit by done.
    assert (Hr' : 0 <= Rmax 0 (r - 0.5 * dt) <= 1).
    { split; [apply Rmax_l|]. apply Rmax_lub; lra. }
    rewrite clamp_unit by done.
    rewrite Heq in Hlt. unfold between in Hbt.
    repeat split; try done; lra.
  - cbn [attention rhythm_alignment attention_variance rhythm_variance].
    rewrite Hf1, Hf2, Hf3, Hf4, Hpt, Hpr, Hpvt, Hpvr.
    cbn [Number.add Number.sub Number.mul lift2 Math_max Math_min].
    assert (Ht' : 0 <= Rmin 1 (t + 0.15 * dt) <= 1).
    { split; [apply Rmin_glb; nra|apply Rmin_l]. }
    assert (Hr' : 0 <= Rmin 1 (r + 0.1 * dt) <= 1).
    { split; [apply Rmin_glb; nra|apply Rmin_l]. }
    rewrite !clamp_unit by done. done.
Qed.




(** X22. Every pattern of the table has a physiological target of its own:
    binding a pattern that the table holds under some id never falls back
    to the default target, the pattern's id is the id it is stored under,
    and binding it leaves the belief of the estimator as it is. *)
Theorem table_patterns_have_targets (pid : string) (p : BreathPattern)
    (est : ASE.Estimator) :
  BREATHING_PATTERNS pid = Some p ->
  id p = pid
  /\ exists k,
       ASE.PATTERN_TO_TARGET pid = Some k
       /\ k <> ASE.default
       /\ ASE.target (ASE.setProtocol (Some p) est) = ASE.PROTOCOL_TARGETS k
       /\ ASE.belief (ASE.setProtocol (Some p) est) = ASE.belief est.
Proof.
  intros Hfind. unfold BREATHING_PATTERNS in Hfind.
  apply find_some in Hfind as [Hin Heq].
  apply String.eqb_eq in Heq. split; [done|]. subst pid.
  unfold pattern_table in Hin. cbn [In] in Hin.
  repeat (destruct Hin as [<-|Hin];
          [eexists; split; [reflexivity|]; split; [discriminate|];
           split; reflexivity|]).
  destruct Hin.
Qed.

Lemma table_patterns_have_targets_witness :
  BREATHING_PATTERNS "wim-hof"
  = Some (mkPattern "wim-hof" "Tummo Power" (mkTimings 2 0 1 15) 30 3)
  /\ ASE.target
       (ASE.setProtocol
          (Some (mkPattern "wim-hof" "Tummo Power" (mkTimings 2 0 1 15) 30 3))
          ASE.constructor)
     = ASE.PROTOCOL_TARGETS ASE.sympathetic.
Proof.
  assert (Hp : BREATHING_PATTERNS "wim-hof"
               = Some (mkPattern "wim-hof" "Tummo Power" (mkTimings 2 0 1 15)
                         30 3)) by reflexivity.
  split; [exact Hp|].
  destruct (table_patterns_have_targets "wim-hof" _ ASE.constructor Hp)
    as (_ & k & Hk & _ & Htg & _).
  rewrite Htg. f_equal. cbn in Hk. by injection Hk as <-.
Defined.

(** One second of prediction on a new estimator. *)
Lemma predict_relaxes_toward_target_witness :
  0 <= 1
  /\ arousal (ASE.predict ASE.constructor 1) = Fin (relaxed 15 1 0.5 0.5)
  /\ between 0 (relaxed 10 1 0 0.7) 0.7.
Proof.
  assert (H1 : 0 <= 1) by lra.
  assert (Ha : 0 <= 0.5 <= 1) by lra.
  assert (Hr : 0 <= 0 <= 1) by lra.
  destruct (predict_relaxes_toward_target ASE.constructor 1
              0.5 0.5 0 0.2 0.2 0.3 0 0 ASE.default eq_refl eq_refl
              Ha Ha Hr H1) as (Hp & _ & _ & Hbt).
  split; [exact H1|]. split; [by rewrite Hp|exact Hbt].
Defined.

(** The camera is off: the driver sends heart rate 0 with confidence 0. *)
Lemma update_without_heart_rate_witness :
  let obs := mkObservation 0 1 None visible (Some 0) (Some 0) in
  usable_heart_rate obs = None
  /\ arousal_variance (fst (ASE.update ASE.constructor obs 1))
     = Fin (0.2 + 0.01 * 1).
Proof.
  intros obs.
  assert (Hhr : usable_heart_rate obs = None).
  { unfold usable_heart_rate, obs. cbn.
    replace (Rgtb 0 0.5) with false; [done|].
    symmetry. apply Rgtb_false. lra. }
  assert (H1 : 0 <= 1) by lra.
  assert (Ha : 0 <= 0.5 <= 1) by lra.
  assert (Hr : 0 <= 0 <= 1) by lra.
  split; [exact Hhr|].
  apply (update_without_heart_rate ASE.constructor obs 1
           0.5 0.5 0 0.2 0.2 0.3 0 0 ASE.default eq_refl eq_refl
           Ha Ha Hr H1 Hhr).
Defined.

(** A heart rate of 120 read with confidence 0.9 against a predicted
    arousal of 0.5 with variance 0.15. *)
Lemma kalman_arousal_correction_witness :
  let obs := mkObservation 0 1 None visible (Some 120) (Some 0.9) in
  let p := mkBelief 0.5 0.5 0 0.15 0.2 0.3 0 0 in
  usable_heart_rate obs = Some 120
  /\ arousal_variance (ASE.correct p obs 1)
     = Fin (0.15 * 0.15 / (0.15 + 0.15))
  /\ between 0.5 (0.5 + 0.15 / (0.15 + 0.15) * (normalized 120 - 0.5))
       (normalized 120).
Proof.
  intros obs p.
  assert (Hhr : usable_heart_rate obs = Some 120).
  { unfold usable_heart_rate, obs. cbn.
    replace (Rgtb 0.9 0.5) with true; [done|].
    symmetry. apply Rgtb_true. lra. }
  assert (Ha : 0 <= 0.5 <= 1) by lra.
  assert (Hv : 0 < 0.15) by lra.
  destruct (kalman_arousal_correction p obs 1 120 0.5 0.15 Hhr eq_refl
              eq_refl Ha Hv) as (_ & H2 & H3 & _).
  split; [exact Hhr|]. split; [exact H2|exact H3].
Defined.

(** The page is hidden for one second. *)
Lemma context_correction_witness :
  let obs := mkObservation 0 1 None hidden None None in
  let p := mkBelief 0.5 0.5 0.8 0.15 0.2 0.3 0 0 in
  0 < 0.2
  /\ rhythm_alignment (ASE.correct p obs 1) = Fin (Rmax 0 (0.8 - 0.5 * 1))
  /\ rhythm_variance (ASE.correct p obs 1) = Fin 0.3.
Proof.
  intros obs p.
  assert (Ht : 0 <= 0.5 <= 1) by lra.
  assert (Hr : 0 <= 0.8 <= 1) by lra.
  assert (Hv : 0 < 0.2) by lra.
  assert (H1 : 0 <= 1) by lra.
  pose proof (context_correction p obs 1 0.5 0.8 0.2 0.3 eq_refl eq_refl
                eq_refl eq_refl Ht Hr Hv H1) as H.
  change (ASE.isDistracted obs) with true in H. cbv zeta in H.
  destruct H as (_ & _ & H3 & _ & _ & H6).
  split; [exact Hv|]. split; [exact H3|exact H6].
Defined.

(** ** The adaptive engine *)

Lemma clamp_between (lo hi x : R) :
  lo <= hi -> lo <= Rmax lo (Rmin hi x) <= hi.
Proof.
  intros H. split; [apply Rmax_l|].
  apply Rmax_lub; [done|apply Rmin_l].
Qed.

(** X23. Anti-windup: whatever the controller held and whatever target,
    measurement and clock reading it is given, after an update its
    integral lies in [-10, 10], so the integral term of the output is at
    most 10 |ki| in size; the controller remembers the error and the clock
    reading and keeps its gains; and when the clock has not advanced since
    the last update the derivative term is dropped instead of dividing by
    the time step. *)
Theorem pid_anti_windup (pid : PIDController.t) (now target current : R) :
  let r := PIDController.update pid now target current in
  let pid' := snd r in
  -10 <= PIDController.integral pid' <= 10
  /\ Rabs (PIDController.ki pid * PIDController.integral pid')
     <= 10 * Rabs (PIDController.ki pid)
  /\ PIDController.lastError pid' = target - current
  /\ PIDController.lastTime pid' = now
  /\ PIDController.kp pid' = PIDController.kp pid
  /\ PIDController.ki pid' = PIDController.ki pid
  /\ PIDController.kd pid' = PIDController.kd pid
  /\ (now <= PIDController.lastTime pid ->
      fst r = PIDController.kp pid * (target - current)
              + PIDController.ki pid * PIDController.integral pid').
Proof.
  intros r pid'. subst pid' r. unfold PIDController.update.
  cbn [fst snd PIDController.integral PIDController.lastError
       PIDController.lastTime PIDController.kp PIDController.ki
       PIDController.kd].
  set (i := Rmax (-10) (Rmin 10 _)).
  assert (Hi : -10 <= i <= 10) by (apply clamp_between; lra).
  split; [done|]. split.
  { rewrite Rabs_mult, Rmult_comm.
    apply Rmult_le_compat_r; [apply Rabs_pos|].
    apply Rabs_le. lra. }
  do 5 (split; [done|]).
  intros Hclock.
  replace (Rgtb ((now - PIDController.lastTime pid) / 1000) 0) with false.
  - lra.
  - symmetry. apply Rgtb_false. lra.
Qed.

Lemma pid_anti_windup_witness :
  let pid := PIDController.constructor 0.3 0.05 0.1 1000 in
  1000 <= PIDController.lastTime pid
  /\ fst (PIDController.update pid 1000 0.75 0.5)
     = 0.3 * (0.75 - 0.5)
       + 0.05 * PIDController.integral
                  (snd (PIDController.update pid 1000 0.75 0.5)).
Proof.
  intros pid.
  assert (H : 1000 <= PIDController.lastTime pid) by (simpl; lra).
  split; [exact H|].
  apply (proj2 (proj2 (proj2 (proj2 (proj2 (proj2 (proj2
           (pid_anti_windup pid 1000 0.75 0.5)))))))). exact H.
Defined.

Lemma floor_bounds (c t f : R) :
  0 <= c <= 2 -> 0 <= t -> 0.85 <= f <= 1.15 ->
  0.85 * t <= Rmax c (t * f) <= Rmax 2 (1.15 * t).
Proof.
  intros Hc Ht Hf.
  assert (Hlo : 0.85 * t <= t * f) by nra.
  assert (Hhi : t * f <= 1.15 * t) by nra.
  split.
  - eapply Rle_trans; [exact Hlo|apply Rmax_r].
  - apply Rmax_lub.
    + eapply Rle_trans; [|apply Rmax_l]. lra.
    + eapply Rle_trans; [exact Hhi|apply Rmax_r].
Qed.

(** X24. The pattern optimiser changes timings only, and by at most 15
    percent apart from the floor of two seconds: with a confidence below
    0.5 it returns the pattern and leaves both controllers untouched;
    otherwise inhale and exhale are at least 2 seconds and the holds are
    not negative.  In both cases id, label, recommended cycles and tier
    are kept, a timing that is not negative ends between 85 percent of
    itself and the larger of 2 seconds and 115 percent of itself, and a
    hold of zero length stays of zero length, so no phase is added to a
    pattern. *)
Theorem optimizePattern_bounds (engine : AdaptiveEngine.t) (now1 now2 : R)
    (p : BreathPattern) (st : AdaptiveEngine.Vitals) :
  let r := AdaptiveEngine.optimizePattern engine now1 now2 p st in
  let p' := fst r in
  (AdaptiveEngine.confidence st < 0.5 -> r = (p, engine))
  /\ (0.5 <= AdaptiveEngine.confidence st ->
      2 <= timings p' inhale /\ 2 <= timings p' exhale
      /\ 0 <= timings p' holdIn /\ 0 <= timings p' holdOut)
  /\ id p' = id p /\ label p' = label p
  /\ recommendedCycles p' = recommendedCycles p /\ tier p' = tier p
  /\ (forall ph, 0 <= timings p ph ->
        0.85 * timings p ph <= timings p' ph
        <= Rmax 2 (1.15 * timings p ph))
  /\ (timings p holdIn = 0 -> timings p' holdIn = 0)
  /\ (timings p holdOut = 0 -> timings p' holdOut = 0).
Proof.
  intros r p'. subst p' r. unfold AdaptiveEngine.optimizePattern.
  destruct (Rgtb 0.5 (AdaptiveEngine.confidence st)) eqn:Hc.
  - apply Rgtb_true in Hc. cbn [fst].
    split; [done|]. split; [lra|]. do 4 (split; [done|]).
    split; [|done]. intros ph Hph. split; [lra|].
    eapply Rle_trans; [|apply Rmax_r]. lra.
  - apply Rgtb_false in Hc. cbv zeta. cbn [fst id label tier
      recommendedCycles timings].
    set (f := Rmax 0.85 (Rmin 1.15 _)).
    assert (Hf : 0.85 <= f <= 1.15) by (apply clamp_between; lra).
    split; [lra|]. split.
    { intros _. cbn [mkTimings]. repeat split; apply Rmax_l. }
    do 4 (split; [done|]). split.
    + intros ph Hph.
      destruct ph; cbn [mkTimings]; apply floor_bounds; lra.
    + cbn [mkTimings]. split; intros ->; rewrite Rmult_0_l;
        apply Rmax_left; lra.
Qed.

Lemma optimizePattern_bounds_witness :
  let engine := AdaptiveEngine.constructor 0 0 in
  let st := AdaptiveEngine.mkVitals 60 0.9 0.5 0.5 in
  let p := mkPattern "wim-hof" "Tummo Power" (mkTimings 2 0 1 15) 30 3 in
  let p' := fst (AdaptiveEngine.optimizePattern engine 1000 1000 p st) in
  0.5 <= AdaptiveEngine.confidence st
  /\ timings p holdIn = 0
  /\ 2 <= timings p' exhale
  /\ timings p' holdIn = 0.
Proof.
  intros engine st p p'.
  assert (Hc : 0.5 <= AdaptiveEngine.confidence st) by (simpl; lra).
  assert (Hz : timings p holdIn = 0) by reflexivity.
  destruct (optimizePattern_bounds engine 1000 1000 p st)
    as (_ & H2 & _ & _ & _ & _ & _ & H8 & _).
  split; [exact Hc|]. split; [exact Hz|].
  split; [exact (proj1 (proj2 (H2 Hc)))|exact (H8 Hz)].
Defined.

(** ** The ring buffer of the camera engine *)

Section RingBufferProperties.

Variable fround : R -> R.

Lemma holds_latest_constructor capacity :
  RingBuffer.holds_latest fround capacity [] (RingBuffer.constructor capacity).
Proof.
  unfold RingBuffer.holds_latest, RingBuffer.constructor. cbn.
  rewrite length_replicate. repeat split; try done.
  by rewrite Nat.Div0.mod_0_l.
Qed.

Lemma mod_window (c n k : nat) :
  (k < n)%nat -> (n <= k + c)%nat -> (n < k + c)%nat \/ c = (n - k)%nat.
Proof. lia. Qed.

Lemma mod_distinct (c n k : nat) :
  (0 < c)%nat -> (k < n)%nat -> (n + 1 <= k + c)%nat ->
  (n mod c)%nat <> (k mod c)%nat.
Proof.
  intros Hc Hkn Hwin Heq.
  pose proof (Nat.div_mod_eq n c) as Hn.
  pose proof (Nat.div_mod_eq k c) as Hk.
  pose proof (Nat.mod_upper_bound n c ltac:(lia)) as Hb.
  assert (Hq : (n / c <= k / c)%nat \/ (k / c + 1 <= n / c)%nat) by lia.
  destruct Hq; nia.
Qed.

Lemma holds_latest_push capacity values v rb :
  (0 < capacity)%nat ->
  RingBuffer.holds_latest fround capacity values rb ->
  RingBuffer.holds_latest fround capacity (values ++ [v])
    (RingBuffer.push fround v rb).
Proof.
  intros Hc (Hlen & Hhead & Hsize & Hwin).
  unfold RingBuffer.holds_latest, RingBuffer.push, RingBuffer.buffer_length.
  cbn [RingBuffer.buffer RingBuffer.head RingBuffer.size].
  rewrite length_insert, length_app, Hlen, Hhead, Hsize. cbn [length].
  set (n := length values) in *.
  pose proof (Nat.mod_upper_bound n capacity ltac:(lia)) as Hb.
  split; [done|]. split; [|split].
  - rewrite Z.rem_mod_nonneg by lia.
    rewrite (Nat2Z.inj_mod (n + 1)), (Nat2Z.inj_mod n), Nat2Z.inj_add.
    by rewrite Zplus_mod_idemp_l.
  - destruct (Z.ltb_spec (Z.of_nat (n `min` capacity)) (Z.of_nat capacity));
      lia.
  - intros k v' Hk Hle. rewrite Nat2Z.id.
    assert (Hkn : (k < n + 1)%nat).
    { apply lookup_lt_Some in Hk. by rewrite length_app in Hk. }
    destruct (decide (k = n)) as [->|Hne].
    + rewrite lookup_app_r in Hk by done.
      replace (n - length values)%nat with 0%nat in Hk by (unfold n; lia).
      injection Hk as <-.
      apply list_lookup_insert_eq. by rewrite Hlen.
    + rewrite lookup_app_l in Hk by (fold n; lia).
      rewrite list_lookup_insert_ne by (apply mod_distinct; lia).
      apply Hwin; [done|lia].
Qed.

Lemma holds_latest_push_all capacity values :
  (0 < capacity)%nat ->
  RingBuffer.holds_latest fround capacity values
    (RingBuffer.push_all fround values (RingBuffer.constructor capacity)).
Proof.
  intros Hc. induction values as [|v values IH] using rev_ind.
  - apply holds_latest_constructor.
  - unfold RingBuffer.push_all. rewrite foldl_snoc.
    by apply holds_latest_push.
Qed.

Lemma entry_holds_latest capacity values rb i v :
  (0 < capacity)%nat ->
  RingBuffer.holds_latest fround capacity values rb ->
  (i < min (length values) capacity)%nat ->
  values !! (length values - capacity + i)%nat = Some v ->
  RingBuffer.entry rb i = fround v.
Proof.
  intros Hc (Hlen & Hhead & Hsize & Hwin) Hi Hv.
  set (n := length values) in *.
  unfold RingBuffer.entry, RingBuffer.buffer_length.
  rewrite Hlen, Hhead, Hsize.
  pose proof (Nat.mod_upper_bound n capacity ltac:(lia)) as Hb.
  assert (Hidx : Z.rem (Z.of_nat (n mod capacity)
                        - Z.of_nat (n `min` capacity) + Z.of_nat i
                        + Z.of_nat capacity) (Z.of_nat capacity)
                 = Z.of_nat ((n - capacity + i) mod capacity)).
  { rewrite Z.rem_mod_nonneg by lia.
    rewrite (Nat2Z.inj_mod (n - capacity + i)).
    destruct (le_lt_dec capacity n) as [Hge|Hlt].
    - rewrite Nat.min_r by done. rewrite (Nat2Z.inj_mod n).
      replace (Z.of_nat n mod Z.of_nat capacity - Z.of_nat capacity
               + Z.of_nat i + Z.of_nat capacity)%Z
        with (Z.of_nat n mod Z.of_nat capacity + Z.of_nat i)%Z by lia.
      rewrite Zplus_mod_idemp_l.
      replace (Z.of_nat (n - capacity + i))
        with (Z.of_nat n + Z.of_nat i + (-1) * Z.of_nat capacity)%Z by lia.
      by rewrite Z_mod_plus_full.
    - rewrite Nat.min_l by lia. rewrite Nat.mod_small by done.
      replace (Z.of_nat n - Z.of_nat n + Z.of_nat i + Z.of_nat capacity)%Z
        with (Z.of_nat i + 1 * Z.of_nat capacity)%Z by lia.
      rewrite Z_mod_plus_full. f_equal. lia. }
  rewrite Hidx, Nat2Z.id.
  rewrite (Hwin _ v Hv) by lia. done.
Qed.

(** X25. The ring buffer keeps the latest values: after any values have
    been pushed into a new buffer of positive capacity, [toArray] returns
    the last [capacity] of them (all of them while they are fewer), oldest
    first, each rounded to single precision as the typed array stores it;
    the fill level is the smaller of their number and the capacity, and
    the capacity is as it was. *)
Theorem ring_buffer_keeps_latest (capacity : nat) (values : list R) :
  (0 < capacity)%nat ->
  let rb :=
    RingBuffer.push_all fround values (RingBuffer.constructor capacity) in
  RingBuffer.toArray rb = fround <$> lastn capacity values
  /\ RingBuffer.size rb = Z.of_nat (min (length values) capacity)
  /\ length (RingBuffer.buffer rb) = capacity.
Proof.
  intros Hc rb.
  pose proof (holds_latest_push_all capacity values Hc) as Hinv.
  fold rb in Hinv.
  destruct Hinv as (Hlen & Hhead & Hsize & Hwin).
  split; [|done].
  apply list_eq. intros i. unfold RingBuffer.toArray, lastn.
  rewrite !list_lookup_fmap, lookup_drop, Hsize, Nat2Z.id.
  destruct (le_lt_dec (min (length values) capacity) i) as [Hge|Hlt].
  - rewrite lookup_seq_ge by done.
    rewrite (proj2 (lookup_ge_None _ _)) by lia. done.
  - rewrite lookup_seq_lt by done.
    destruct (lookup_lt_is_Some_2 values (length values - capacity + i))
      as [v Hv]; [lia|].
    rewrite Hv. cbn. f_equal.
    by apply (entry_holds_latest capacity values rb i v).
Qed.

End RingBufferProperties.

(** Five samples pushed into a buffer of three. *)
Lemma ring_buffer_keeps_latest_witness :
  (0 < 3)%nat
  /\ RingBuffer.toArray
       (RingBuffer.push_all (fun x => x) [1; 2; 3; 4; 5]
          (RingBuffer.constructor 3))
     = [3; 4; 5].
Proof.
  assert (H : (0 < 3)%nat) by lia.
  split; [exact H|].
  apply (proj1 (ring_buffer_keeps_latest (fun x => x) 3 [1; 2; 3; 4; 5] H)).
Defined.

(** ** The settings store: history and streak *)

(** X26. The session history is a bounded list, newest first: a completed
    session of more than 10 seconds is put in front of the history with
    its duration, pattern, cycle count and the kernel's belief, and the
    result is cut to 100 items, so that a history of at most 100 items
    stays one; a session of at most 10 seconds leaves the history as it
    is, and yet it is registered as an adverse event of its pattern: 0 is
    appended to the pattern's resonance history.  The pattern becomes the
    last used one in every case. *)
Theorem session_history_is_bounded (env : SettingsState.Env)
    (state : SettingsState.t) (durationSec : R) (patternId : string)
    (cycles : R) :
  let state' :=
    SettingsState.registerSessionComplete env state durationSec patternId
      cycles in
  let h := SettingsState.history state in
  let h' := SettingsState.history state' in
  let reg := SettingsState.safetyRegistry (SettingsState.userSettings state) in
  let reg' :=
    SettingsState.safetyRegistry (SettingsState.userSettings state') in
  (durationSec > 10 ->
     exists item,
       h' = take 100 (item :: h) /\ head h' = Some item
       /\ SessionHistoryItem.durationSec item = durationSec
       /\ SessionHistoryItem.patternId item = patternId
       /\ SessionHistoryItem.cycles item = cycles
       /\ SessionHistoryItem.finalBelief item
          = PureZenBKernel.belief (SettingsState.kernelState env))
  /\ (durationSec <= 10 ->
        h' = h
        /\ resonance_history (profile_of reg' patternId)
           = window (resonance_history (profile_of reg patternId) ++ [0.0]))
  /\ ((length h <= 100)%nat -> (length h' <= 100)%nat)
  /\ SettingsState.lastUsedPattern (SettingsState.userSettings state')
     = patternId.
Proof.
  intros state' h h' reg reg'. subst state' h h' reg reg'.
  unfold SettingsState.registerSessionComplete.
  cbn [SettingsState.history SettingsState.userSettings
       SettingsState.safetyRegistry SettingsState.lastUsedPattern].
  split; [|split; [|split; [|done]]].
  - intros Hd. apply Rgtb_true in Hd. rewrite Hd.
    eexists. split; [reflexivity|]. done.
  - intros Hd.
    replace (Rgtb durationSec 10) with false
      by (symmetry; apply Rgtb_false; lra).
    split; [done|].
    rewrite profile_of_registerSessionComplete, history_update_record.
    replace (isSuccess durationSec (SettingsState.kernelState env))
      with false; [done|].
    unfold isSuccess.
    replace (Rgtb durationSec 45) with false; [done|].
    symmetry. apply Rgtb_false. lra.
  - intros Hlen. destruct (Rgtb durationSec 10); [|done].
    rewrite length_take. lia.
Qed.

Lemma session_history_is_bounded_witness :
  let env := SettingsState.mkEnv idle_state 0 "a" 5000 "2024-01-02"
               "2024-01-01" in
  let state' :=
    SettingsState.registerSessionComplete env SettingsState.initial 8 "box" 2 in
  8 <= 10
  /\ SettingsState.history state' = []
  /\ resonance_history
       (profile_of
          (SettingsState.safetyRegistry (SettingsState.userSettings state'))
          "box")
     = window ([] ++ [0.0]).
Proof.
  intros env state'.
  assert (H8 : 8 <= 10) by lra.
  split; [exact H8|].
  exact (proj1 (proj2 (session_history_is_bounded env SettingsState.initial
                         8 "box" 2)) H8).
Defined.

(** X27. The streak counts days, not sessions.  A session of at most 30
    seconds leaves streak and date alone.  A longer one sets the date of
    the last breath to today; the streak stays when that date was today
    already, grows by one when it was yesterday, and restarts at 1
    otherwise.  Hence a second such session on the same day does not
    change the streak, and once the store has left its initial state (no
    date, streak 0) the streak is at least 1, provided the date strings
    are not empty. *)
Theorem streak_counts_days (env : SettingsState.Env)
    (state : SettingsState.t) (durationSec : R) (patternId : string)
    (cycles : R) :
  let s := SettingsState.userSettings state in
  let state' :=
    SettingsState.registerSessionComplete env state durationSec patternId
      cycles in
  let s' := SettingsState.userSettings state' in
  let today := SettingsState.today env in
  let last := SettingsState.lastBreathDate s in
  (durationSec <= 30 ->
     SettingsState.streak s' = SettingsState.streak s
     /\ SettingsState.lastBreathDate s' = last)
  /\ (durationSec > 30 ->
        SettingsState.lastBreathDate s' = today
        /\ (last = today -> SettingsState.streak s' = SettingsState.streak s)
        /\ (last <> today -> last = SettingsState.yesterday env ->
            SettingsState.streak s' = SettingsState.streak s + 1)
        /\ (last <> today -> last <> SettingsState.yesterday env ->
            SettingsState.streak s' = 1)
        /\ forall env2 d2 p2 c2,
             d2 > 30 -> SettingsState.today env2 = today ->
             SettingsState.streak
               (SettingsState.userSettings
                  (SettingsState.registerSessionComplete env2 state' d2 p2
                     c2))
             = SettingsState.streak s')
  /\ (today <> EmptyString ->
      (last = EmptyString /\ SettingsState.streak s = 0)
      \/ 1 <= SettingsState.streak s ->
      (SettingsState.lastBreathDate s' = EmptyString
       /\ SettingsState.streak s' = 0)
      \/ 1 <= SettingsState.streak s').
Proof.
  intros s state' s' today last. subst s' state'.
  unfold SettingsState.registerSessionComplete.
  cbn [SettingsState.userSettings SettingsState.streak
       SettingsState.lastBreathDate].
  fold s. fold last. fold today.
  destruct (Rgtb durationSec 30) eqn:Hd.
  - apply Rgtb_true in Hd.
    destruct (String.eqb_spec last today) as [Heq|Hne];
      [|destruct (String.eqb_spec last (SettingsState.yesterday env))
          as [Hy|Hy]];
      cbn [fst snd].
    + split; [lra|]. split.
      * intros _. split; [done|]. split; [done|].
        split; [done|]. split; [done|].
        intros env2 d2 p2 c2 Hd2 Ht2. apply Rgtb_true in Hd2.
        rewrite Hd2, Ht2. fold today.
        destruct (String.eqb_spec last today); done.
      * intros Hne [[He _]|H1]; [congruence|by right].
    + split; [lra|]. split.
      * intros _. split; [done|]. split; [done|].
        split; [done|]. split; [done|].
        intros env2 d2 p2 c2 Hd2 Ht2. apply Rgtb_true in Hd2.
        rewrite Hd2, Ht2. fold today.
        destruct (String.eqb_spec today today); done.
      * intros _ [[_ ->]|H1]; right; lra.
    + split; [lra|]. split.
      * intros _. split; [done|]. split; [done|].
        split; [done|]. split; [done|].
        intros env2 d2 p2 c2 Hd2 Ht2. apply Rgtb_true in Hd2.
        rewrite Hd2, Ht2. fold today.
        destruct (String.eqb_spec today today); done.
      * intros _ _. right. lra.
  - apply Rgtb_false in Hd. cbn [fst snd].
    split; [done|]. split; [lra|]. by intros _ H.
Qed.

Lemma streak_counts_days_witness :
  let env := SettingsState.mkEnv idle_state 0 "a" 5000 "2024-01-02"
               "2024-01-01" in
  let state' :=
    SettingsState.registerSessionComplete env SettingsState.initial 60 "box"
      2 in
  60 > 30
  /\ SettingsState.streak (SettingsState.userSettings state') = 1
  /\ SettingsState.lastBreathDate (SettingsState.userSettings state')
     = "2024-01-02".
Proof.
  intros env state'.
  assert (H60 : 60 > 30) by lra.
  destruct (proj1 (proj2 (streak_counts_days env SettingsState.initial 60
                            "box" 2)) H60) as (H1 & _ & _ & H4 & _).
  split; [exact H60|]. split; [|exact H1].
  apply H4; discriminate.
Defined.

(** ** The pattern picker and the guard *)

Lemma footer_locks_active_lock now now' reg history p profile :
  reg !! id p = Some profile -> safety_lock_until profile > now ->
  Footer.locked (Footer.isPatternLocked now now' reg history p) = true.
Proof.
  intros Hreg Hlock. apply Rgtb_true in Hlock.
  unfold Footer.isPatternLocked. rewrite Hreg, Hlock.
  by destruct (tier p =? 1)%nat.
Qed.

(** X28. The pattern picker is at least as strict as the kernel's guard:
    a pattern whose registry record carries a lock that has not expired is
    shown as locked whatever its tier and the history; and a pattern that
    the picker shows as unlocked is let through by the guard when it is
    loaded at the same or a later clock reading into a kernel that holds
    the same registry. *)
Theorem footer_unlocked_passes_guard (Date_now : nat -> R) (now now' : R)
    (reg : gmap string SafetyProfile) (history : list SessionHistoryItem.t)
    (p : BreathPattern) (ts : R) (s : RuntimeState) (w : World) :
  safetyRegistry s = reg ->
  now <= Date_now (reads w) ->
  (forall profile,
     reg !! id p = Some profile -> safety_lock_until profile > now ->
     Footer.locked (Footer.isPatternLocked now now' reg history p) = true)
  /\ (Footer.locked (Footer.isPatternLocked now now' reg history p) = false ->
      fst (defaultSafetyGuard Date_now (LOAD_PROTOCOL (id p) ts) s w)
      = Ok (Some (LOAD_PROTOCOL (id p) ts))).
Proof.
  intros Hreg Hclock. split.
  - intros profile. apply footer_locks_active_lock.
  - intros Hunlocked. cbn [defaultSafetyGuard guard_rule2 guard_rule3].
    rewrite Hreg. destruct (reg !! id p) as [profile|] eqn:Hp; [|done].
    unfold bind, PureZenBKernel.now at 1. cbn [fst snd reads].
    destruct (Rgtb (safety_lock_until profile) (Date_now (reads w))) eqn:Hl;
      [|done].
    apply Rgtb_true in Hl.
    rewrite (footer_locks_active_lock now now' reg history p profile Hp)
      in Hunlocked; [discriminate|lra].
Qed.

Lemma footer_unlocked_passes_guard_witness :
  let w := world_of locked_state in
  let p := mkPattern "box" "Focus" (mkTimings 4 4 4 4) 6 1 in
  5000 <= clock_from 5000 (reads w)
  /\ Footer.locked
       (Footer.isPatternLocked 5000 5000 (safetyRegistry locked_state) [] p)
     = false
  /\ fst (defaultSafetyGuard (clock_from 5000) (LOAD_PROTOCOL "box" 5000)
            locked_state w)
     = Ok (Some (LOAD_PROTOCOL "box" 5000)).
Proof.
  intros w p.
  assert (Hclock : 5000 <= clock_from 5000 (reads w)).
  { unfold clock_from. simpl. lra. }
  assert (Hun : Footer.locked
                  (Footer.isPatternLocked 5000 5000
                     (safetyRegistry locked_state) [] p) = false)
    by reflexivity.
  split; [exact Hclock|]. split; [exact Hun|].
  apply (proj2 (footer_unlocked_passes_guard (clock_from 5000) 5000 5000
                  (safetyRegistry locked_state) [] p 5000 locked_state w
                  eq_refl Hclock) Hun).
Defined.

Lemma length_qualitySessions_cons item history :
  (length (Footer.qualitySessions history)
   <= length (Footer.qualitySessions (item :: history)))%nat.
Proof.
  unfold Footer.qualitySessions. cbn [List.filter].
  destruct (Rgtb _ _); simpl; lia.
Qed.

(** X29. What the tiers require.  A tier-1 pattern is locked exactly when
    its registry record carries a lock that has not expired, whatever the
    history.  A tier-2 pattern is unlocked only with at least 5 sessions
    of more than 60 seconds in the history, a tier-3 pattern only with at
    least 20 of them and at least 5 perfect entries over all resonance
    histories of the registry.  With the registry and the clock unchanged,
    one more item in the history never locks a pattern that was
    unlocked. *)
Theorem tier_requirements (now now' : R) (reg : gmap string SafetyProfile)
    (history : list SessionHistoryItem.t) (p : BreathPattern) :
  let l := Footer.locked (Footer.isPatternLocked now now' reg history p) in
  (tier p = 1%nat ->
     (l = true <-> exists profile,
                     reg !! id p = Some profile
                     /\ safety_lock_until profile > now))
  /\ (tier p = 2%nat -> l = false ->
      (5 <= length (Footer.qualitySessions history))%nat)
  /\ (tier p = 3%nat -> l = false ->
      (20 <= length (Footer.qualitySessions history))%nat
      /\ (5 <= Footer.perfectSessions reg)%nat)
  /\ (forall item,
        l = false ->
        Footer.locked
          (Footer.isPatternLocked now now' reg (item :: history) p) = false).
Proof.
  intros l. subst l. split; [|split; [|split]].
  - intros Ht. unfold Footer.isPatternLocked. rewrite Ht. cbn [Nat.eqb].
    destruct (reg !! id p) as [profile|]; [|split; [done|by intros (? & ? & _)]].
    destruct (Rgtb (safety_lock_until profile) now) eqn:Hl; cbn.
    + split; [|done]. intros _. exists profile. split; [done|].
      by apply Rgtb_true.
    + split; [done|]. intros (pr & [= <-] & Hgt).
      apply Rgtb_true in Hgt. congruence.
  - intros Ht. unfold Footer.isPatternLocked. rewrite Ht. cbn [Nat.eqb].
    destruct (match reg !! id p with Some _ => _ | None => _ end); [done|].
    destruct (Nat.ltb_spec (length (Footer.qualitySessions history)) 5);
      [done|]. by intros _.
  - intros Ht. unfold Footer.isPatternLocked. rewrite Ht. cbn [Nat.eqb].
    destruct (match reg !! id p with Some _ => _ | None => _ end); [done|].
    destruct (Nat.ltb_spec (length (Footer.qualitySessions history)) 20);
      [done|].
    destruct (Nat.ltb_spec (Footer.perfectSessions reg) 5); [done|].
    by intros _.
  - intros item. unfold Footer.isPatternLocked.
    pose proof (length_qualitySessions_cons item history) as Hmono.
    destruct (tier p =? 1)%nat; [done|].
    destruct (match reg !! id p with Some _ => _ | None => _ end); [done|].
    destruct (tier p =? 2)%nat.
    + destruct (Nat.ltb_spec (length (Footer.qualitySessions history)) 5);
        [done|].
      destruct (Nat.ltb_spec
                  (length (Footer.qualitySessions (item :: history))) 5);
        [lia|done].
    + destruct (tier p =? 3)%nat; [|done].
      destruct (Nat.ltb_spec (length (Footer.qualitySessions history)) 20);
        [done|].
      destruct (Nat.ltb_spec
                  (length (Footer.qualitySessions (item :: history))) 20);
        [lia|done].
Qed.

Lemma tier_requirements_witness :
  let p := mkPattern "coherence" "Coherence" (mkTimings 6 0 6 0) 10 2 in
  tier p = 2%nat
  /\ Footer.locked (Footer.isPatternLocked 0 0 ∅ [] p) = true.
Proof.
  intros p.
  assert (Ht : tier p = 2%nat) by reflexivity.
  split; [exact Ht|].
  destruct (Footer.locked (Footer.isPatternLocked 0 0 ∅ [] p)) eqn:Hl;
    [reflexivity|].
  pose proof (proj1 (proj2 (tier_requirements 0 0 ∅ [] p)) Ht Hl) as H.
  simpl in H. lia.
Defined.

(** ** The driver's start sequence *)

Section DriverStart.

Variable Date_now : nat -> R.
Variable throws : list Effect -> bool.

(** X30. A locked pattern never runs.  The driver starts a session by
    dispatching LOAD_PROTOCOL and then START_SESSION, and cleans up with
    HALT.  When the registry holds a lock on the pattern that has not
    expired at the guard's clock reading, both events of the start are
    replaced by interdictions (PATTERN_LOCKED, then REJECT_START, which
    are what the log records), the status is SAFETY_LOCK after each of
    them and HALTED after the HALT, and pattern, phase, cycle count and
    session start are those from before the start. *)
Theorem locked_start_is_rejected (w : World) (pid : string)
    (profile : SafetyProfile) (t1 t2 t3 : R) (reason : string) :
  safetyRegistry (state (this w)) !! pid = Some profile ->
  safety_lock_until profile > Date_now (reads w) ->
  let w1 := snd (dispatch Date_now throws (LOAD_PROTOCOL pid t1) w) in
  let w2 := snd (dispatch Date_now throws (START_SESSION t2) w1) in
  let w3 := snd (dispatch Date_now throws (HALT reason t3) w2) in
  status (state (this w1)) = SAFETY_LOCK
  /\ status (state (this w2)) = SAFETY_LOCK
  /\ status (state (this w3)) = HALTED
  /\ pattern (state (this w3)) = pattern (state (this w))
  /\ phase (state (this w3)) = phase (state (this w))
  /\ cycleCount (state (this w3)) = cycleCount (state (this w))
  /\ sessionStartTime (state (this w3)) = sessionStartTime (state (this w))
  /\ eventLog (this w2)
     = append_log
         (SAFETY_INTERDICTION 1.0 "REJECT_START" (Date_now (reads w1)))
         (append_log
            (SAFETY_INTERDICTION 0.8 "PATTERN_LOCKED"
               (Date_now (S (reads w))))
            (eventLog (this w))).
Proof.
  intros Hreg Hlock w1 w2 w3.
  pose proof (guard_LOAD_PROTOCOL_locked Date_now pid t1 (state (this w)) w
                profile Hreg Hlock) as Hg1.
  destruct (dispatch_commits Date_now throws _ w _ _ Hg1 eq_refl)
    as [Hk1 _].
  fold w1 in Hk1.
  assert (Hs1 : status (state (this w1)) = SAFETY_LOCK) by (by rewrite Hk1).
  pose proof (guard_START_SESSION_locked Date_now t2 (state (this w1)) w1 Hs1)
    as Hg2.
  destruct (dispatch_commits Date_now throws _ w1 _ _ Hg2 eq_refl)
    as [Hk2 _].
  fold w2 in Hk2.
  pose proof (guard_plain Date_now (HALT reason t3) (state (this w2)) w2
                eq_refl) as Hg3.
  destruct (dispatch_commits Date_now throws _ w2 _ _ Hg3 eq_refl)
    as [Hk3 _].
  fold w3 in Hk3.
  rewrite Hk3, Hk2, Hk1. cbn. done.
Qed.

End DriverStart.

(** Pattern [4-7-8] is locked until [6000] and started at [5000]. *)
Lemma locked_start_is_rejected_witness :
  let w := world_of locked_state in
  let w1 := snd (dispatch (clock_from 5000) no_throw
                   (LOAD_PROTOCOL "4-7-8" 5000) w) in
  let w2 := snd (dispatch (clock_from 5000) no_throw
                   (START_SESSION 5001) w1) in
  let w3 := snd (dispatch (clock_from 5000) no_throw
                   (HALT "cleanup" 5002) w2) in
  6000 > clock_from 5000 (reads w)
  /\ status (state (this w2)) = SAFETY_LOCK
  /\ status (state (this w3)) = HALTED
  /\ pattern (state (this w3)) = None.
Proof.
  intros w w1 w2 w3.
  assert (Hreg : safetyRegistry (state (this w)) !! "4-7-8"
                 = Some (mkSafetyProfile "4-7-8" 0 0 6000 [0; 0; 0; 0; 0]))
    by reflexivity.
  assert (Hlock : 6000 > clock_from 5000 (reads w)).
  { unfold clock_from. simpl. lra. }
  destruct (locked_start_is_rejected (clock_from 5000) no_throw w "4-7-8" _
              5000 5001 5002 "cleanup" Hreg Hlock)
    as (_ & H2 & H3 & H4 & _).
  split; [exact Hlock|]. split; [exact H2|]. split; [exact H3|exact H4].
Defined.
